(** * PyMeasure [Instrument]: dynamic command properties and the serialized
      transaction layer

    A shallow embedding of [pymeasure/instruments/instrument.py]: the
    [DynamicProperty] descriptor, the attribute interception of [Instrument]
    ([__setattr__], [__getattribute__], [_setup_special_names]), the
    transaction methods ([ask], [write], [read], [values], [binary_values]),
    the readiness poll, the error-queue drain, the status query and the
    property factories [control], [measurement] and [setting].

    Conventions of the embedding.
    - Python values are first order: atoms ([None], booleans, integers,
      strings) and flat containers of atoms.  Numbers are exact integers;
      floating-point arithmetic is outside the model.
    - A string is a sequence of code points below 256.
    - A Python object with mutable attributes is a record that is threaded
      through every method (state passing); a raised exception leaves the
      state as it was at the [raise].
    - The adapter, the wall clock and [sleep] are external: they are an
      interface ([Env]) over an arbitrary state type.
    - Loops that Python runs without bound take a fuel argument; running out
      of fuel is the outcome [Stuck OutOfFuel], never a result.
    - Logging calls have no effect on the modelled state and are left out. *)

From Stdlib Require Import ZArith String Ascii List Bool Lia.
From stdpp Require Import gmap strings list fin_maps.
Import ListNotations.

Local Open Scope string_scope.
Local Open Scope Z_scope.

(** ** Python values *)

Inductive atom : Type :=
| ANone
| ABool (b : bool)
| AInt (z : Z)
| AStr (s : string).

Inductive pyval : Type :=
| PAtom (a : atom)
| PList (l : list atom)
| PTuple (l : list atom)
| PRange (start stop step : Z)
| PDict (items : list (atom * atom)).

Coercion PAtom : atom >-> pyval.

(** Exceptions.  The text of the exceptions that [instrument.py] raises
    itself is kept; exceptions raised by Python built-ins carry the
    offending value or an abbreviated text. *)
Inductive exn : Type :=
| AttributeError (msg : string)
| LookupError (msg : string)
| KeyError (what : pyval)
| IndexError
| ValueError (msg : string)
| TypeError (msg : string)
| TimeoutError (timeout_ms : Z)
| RuntimeError (msg : string)
| NotImplementedError (msg : string)
| OtherError (cls msg : string).

(** Why a call does not come back: the model ran out of fuel, the call waits
    on a gate nobody in this thread releases, or the execution leaves the
    fragment of Python that is modelled. *)
Inductive stuck : Type := OutOfFuel | Blocked | Unmodelled.

Inductive outcome (A : Type) : Type :=
| Ret (a : A)
| Raise (e : exn)
| Stuck (why : stuck).
Arguments Ret {A} a.
Arguments Raise {A} e.
Arguments Stuck {A} why.

(** Objects that may be bound to an attribute: data, a callable of one or
    two arguments (processors and validators), or any other object, of which
    only the printed type is kept (it is true, is not [None] and cannot be
    called). *)
Inductive obj : Type :=
| OVal (v : pyval)
| OFun1 (f : pyval -> outcome pyval)
| OFun2 (f : pyval -> pyval -> outcome pyval)
| OOther (type_repr : string).

Definition None_ : obj := OVal (PAtom ANone).
Definition True_ : obj := OVal (PAtom (ABool true)).
Definition False_ : obj := OVal (PAtom (ABool false)).

(** [lambda v: v] and [lambda v, vs: v]. *)
Definition identity1 : obj := OFun1 (fun v => Ret v).
Definition identity2 : obj := OFun2 (fun v _ => Ret v).

(** ** Python primitives *)

Module Py.

(** [c.isspace()]: the white space of Unicode below 256. *)
Definition is_space (c : ascii) : bool :=
  let n := nat_of_ascii c in
  ((9 <=? n)%nat && (n <=? 13)%nat) || ((28 <=? n)%nat && (n <=? 32)%nat)
  || (n =? 133)%nat || (n =? 160)%nat.

Fixpoint lstrip_of (space : ascii -> bool) (s : string) : string :=
  match s with
  | EmptyString => EmptyString
  | String c s' => if space c then lstrip_of space s' else s
  end.

Fixpoint rstrip_of (space : ascii -> bool) (s : string) : string :=
  match s with
  | EmptyString => EmptyString
  | String c s' =>
      match rstrip_of space s' with
      | EmptyString => if space c then EmptyString else String c EmptyString
      | r => String c r
      end
  end.

Definition lstrip : string -> string := lstrip_of is_space.
Definition rstrip : string -> string := rstrip_of is_space.

(** [s.strip()] *)
Definition strip (s : string) : string := rstrip (lstrip s).

(** [s.startswith(p)] *)
Definition startswith (s p : string) : bool := String.prefix p s.

(** [x in names] for a list of strings. *)
Definition contains (names : list string) (x : string) : bool :=
  existsb (String.eqb x) names.

(** Python's [==] on atoms: [bool] is a subtype of [int], so [True == 1]. *)
Definition atom_num (a : atom) : option Z :=
  match a with
  | ABool b => Some (Z.b2z b)
  | AInt z => Some z
  | _ => None
  end.

Definition atom_eq (a b : atom) : bool :=
  match a, b with
  | ANone, ANone => true
  | AStr s, AStr t => String.eqb s t
  | _, _ =>
      match atom_num a, atom_num b with
      | Some x, Some y => Z.eqb x y
      | _, _ => false
      end
  end.

(** [a == v] for an atom against any value: an atom never equals a
    container. *)
Definition eq_atom_val (a : atom) (v : pyval) : bool :=
  match v with
  | PAtom b => atom_eq a b
  | _ => false
  end.

(** [len(range(start, stop, step))] *)
Definition range_len (start stop step : Z) : Z :=
  if 0 <? step then
    if start <? stop then (stop - start - 1) / step + 1 else 0
  else if step <? 0 then
    if stop <? start then (start - stop - 1) / (- step) + 1 else 0
  else 0.

Definition range_items (start stop step : Z) : list atom :=
  List.map (fun i => AInt (start + Z.of_nat i * step))
           (List.seq 0 (Z.to_nat (range_len start stop step))).

(** Truth value of an object. *)
Definition atom_truthy (a : atom) : bool :=
  match a with
  | ANone => false
  | ABool b => b
  | AInt z => negb (z =? 0)
  | AStr s => negb (String.eqb s "")
  end.

Definition nonempty {A} (l : list A) : bool :=
  match l with [] => false | _ => true end.

Definition truthy (v : pyval) : bool :=
  match v with
  | PAtom a => atom_truthy a
  | PList l | PTuple l => nonempty l
  | PRange a b c => 0 <? range_len a b c
  | PDict items => nonempty items
  end.

Definition obj_truthy (o : obj) : bool :=
  match o with
  | OVal v => truthy v
  | _ => true
  end.

(** [o is None] *)
Definition is_None (o : obj) : bool :=
  match o with
  | OVal (PAtom ANone) => true
  | _ => false
  end.

(** [int(s)] for a string: optional surrounding white space, optional
    sign, decimal digits, single underscores between digits.

    The white space that [int] skips is not that of [strip]: it is the
    white space of C ([\t], [\n], [\v], [\f], [\r] and the space) and,
    in a string that is not ASCII, U+0085 and U+00A0; the separators
    U+001C to U+001F are not skipped. *)
Definition is_int_space (c : ascii) : bool :=
  let n := nat_of_ascii c in
  ((9 <=? n)%nat && (n <=? 13)%nat) || (n =? 32)%nat
  || (n =? 133)%nat || (n =? 160)%nat.

Definition digit_of (c : ascii) : option Z :=
  let n := nat_of_ascii c in
  if (48 <=? n)%nat && (n <=? 57)%nat then Some (Z.of_nat (n - 48)) else None.

Fixpoint count_digits (s : string) : nat :=
  match s with
  | EmptyString => 0%nat
  | String c s' =>
      match digit_of c with
      | Some _ => S (count_digits s')
      | None => count_digits s'
      end
  end.

Fixpoint parse_digits (s : string) (acc : Z) (after_digit : bool) : option Z :=
  match s with
  | EmptyString => if after_digit then Some acc else None
  | String c s' =>
      match digit_of c with
      | Some d => parse_digits s' (10 * acc + d) true
      | None =>
          if Ascii.eqb c "_"%char && after_digit
          then parse_digits s' acc false
          else None
      end
  end.

(** [max_str_digits] is [sys.get_int_max_str_digits()]: the longest run of
    digits that [int] converts, [0] for no limit (the only possibility
    before Python 3.11); the interpreter accepts [0] or a limit of at least
    640. *)
Definition too_long (max_str_digits : nat) (digits : string) : bool :=
  (0 <? max_str_digits)%nat && (max_str_digits <? count_digits digits)%nat.

Definition int_of_digits (max_str_digits : nat) (digits : string) : option Z :=
  if too_long max_str_digits digits then None else parse_digits digits 0 false.

Definition int_of_string (max_str_digits : nat) (s : string) : option Z :=
  match rstrip_of is_int_space (lstrip_of is_int_space s) with
  | String "+"%char r => int_of_digits max_str_digits r
  | String "-"%char r => option_map Z.opp (int_of_digits max_str_digits r)
  | t => int_of_digits max_str_digits t
  end.

(** [int(v)] *)
Definition int (max_str_digits : nat) (v : pyval) : outcome Z :=
  match v with
  | PAtom (AInt z) => Ret z
  | PAtom (ABool b) => Ret (Z.b2z b)
  | PAtom (AStr s) =>
      match int_of_string max_str_digits s with
      | Some z => Ret z
      | None => Raise (ValueError "invalid literal for int() with base 10")
      end
  | _ => Raise (TypeError "int() argument must be a string or a number")
  end.

(** [isinstance(values, (list, tuple, range))], with the elements. *)
Definition seq_items (v : pyval) : option (list atom) :=
  match v with
  | PList l | PTuple l => Some l
  | PRange a b c => Some (range_items a b c)
  | _ => None
  end.

(** [l[i]] with Python's negative indices. *)
Definition getitem (l : list atom) (i : Z) : outcome atom :=
  let n := Z.of_nat (length l) in
  let j := if i <? 0 then i + n else i in
  if (0 <=? j) && (j <? n) then
    match nth_error l (Z.to_nat j) with
    | Some a => Ret a
    | None => Raise IndexError
    end
  else Raise IndexError.

(** [l.index(v)]: position of the first element equal to [v]. *)
Fixpoint index_from (l : list atom) (v : pyval) (i : Z) : outcome Z :=
  match l with
  | [] => Raise (ValueError "value is not in the sequence")
  | a :: l' => if eq_atom_val a v then Ret i else index_from l' v (i + 1)
  end.

Definition index (l : list atom) (v : pyval) : outcome Z := index_from l v 0.

(** [d[v]]: lists and dicts are unhashable. *)
Fixpoint dict_get (items : list (atom * atom)) (k : atom) : option atom :=
  match items with
  | [] => None
  | (k', c) :: rest => if atom_eq k' k then Some c else dict_get rest k
  end.

Definition dict_getitem (items : list (atom * atom)) (v : pyval) : outcome atom :=
  match v with
  | PAtom k =>
      match dict_get items k with
      | Some c => Ret c
      | None => Raise (KeyError v)
      end
  | PTuple _ | PRange _ _ _ => Raise (KeyError v)
  | PList _ | PDict _ => Raise (TypeError "unhashable type")
  end.

(** [type(o)], as printed. *)
Definition type_name (o : obj) : string :=
  match o with
  | OVal (PAtom ANone) => "<class 'NoneType'>"
  | OVal (PAtom (ABool _)) => "<class 'bool'>"
  | OVal (PAtom (AInt _)) => "<class 'int'>"
  | OVal (PAtom (AStr _)) => "<class 'str'>"
  | OVal (PList _) => "<class 'list'>"
  | OVal (PTuple _) => "<class 'tuple'>"
  | OVal (PRange _ _ _) => "<class 'range'>"
  | OVal (PDict _) => "<class 'dict'>"
  | OFun1 _ | OFun2 _ => "<class 'function'>"
  | OOther t => t
  end.

(** Calling an object. *)
Definition call1 (f : obj) (x : pyval) : outcome pyval :=
  match f with
  | OFun1 g => g x
  | OFun2 _ => Raise (TypeError "missing 1 required positional argument")
  | OVal _ | OOther _ => Raise (TypeError "object is not callable")
  end.

Definition call2 (f : obj) (x y : pyval) : outcome pyval :=
  match f with
  | OFun2 g => g x y
  | OFun1 _ => Raise (TypeError "takes 1 positional argument but 2 were given")
  | OVal _ | OOther _ => Raise (TypeError "object is not callable")
  end.

(** An object that is not data, handed to a callable as an argument, is
    outside the first-order fragment. *)
Definition as_val (o : obj) : outcome pyval :=
  match o with
  | OVal v => Ret v
  | _ => Stuck Unmodelled
  end.

End Py.

(** Sequencing of pure, fallible computations. *)
Definition obind {A B} (o : outcome A) (k : A -> outcome B) : outcome B :=
  match o with
  | Ret a => k a
  | Raise e => Raise e
  | Stuck w => Stuck w
  end.

Notation "'do' x <- o ; k" := (obind o (fun x => k))
  (at level 10, x name, o at level 100, k at level 200).

(** ** Commands and classes *)

(** The arguments that [control] closes over: the defaults of [fget] and
    [fset], and the keyword arguments handed on to [adapter.values].  The
    documentation string has no behaviour and is left out. *)
Record Command : Type := {
  cmd_get_command : obj;
  cmd_set_command : obj;
  cmd_validator : obj;
  cmd_values : obj;
  cmd_map_values : obj;
  cmd_get_process : obj;
  cmd_set_process : obj;
  cmd_command_process : obj;
  cmd_kwargs : list (string * pyval)
}.

(** An entry of a class [__dict__]: a [DynamicProperty], a plain [property]
    made by [control], or any other class variable. *)
Inductive class_attr : Type :=
| Dynamic (c : Command)
| Property (c : Command)
| Plain (o : obj).

Definition class_dict : Type := list (string * class_attr).

(** [self.__class__]: the class dictionaries in method resolution order
    (most derived class first) and the value of the abstract property
    [id_starts_with].  [Instrument] and [object] end the order; what their
    dictionaries bind are the declared names and the names of the language
    (see [inherited_name]), and an entry of theirs is listed only where it
    is spelled like an override: the method [binary_values], for a class
    with a dynamic command called [binary]. *)
Record Class : Type := {
  mro : list class_dict;
  id_starts_with : string
}.

(** [Instrument.control] *)
Definition control (get_command set_command validator values_ map_values
                    get_process set_process command_process : obj)
                   (dynamic : bool) (kwargs : list (string * pyval)) : class_attr :=
  let c := {| cmd_get_command := get_command;
              cmd_set_command := set_command;
              cmd_validator := validator;
              cmd_values := values_;
              cmd_map_values := map_values;
              cmd_get_process := get_process;
              cmd_set_process := set_process;
              cmd_command_process := command_process;
              cmd_kwargs := kwargs |} in
  if dynamic then Dynamic c else Property c.

(** [Instrument.measurement]: [validator] and [set_process] keep the
    defaults of [control]. *)
Definition measurement (get_command values_ map_values get_process
                        command_process : obj)
                       (dynamic : bool) (kwargs : list (string * pyval)) : class_attr :=
  control get_command None_ identity2 values_ map_values get_process
          identity1 command_process dynamic kwargs.

(** [Instrument.setting]: [get_process] and [command_process] keep the
    defaults of [control]. *)
Definition setting (set_command validator values_ map_values set_process : obj)
                   (dynamic : bool) (kwargs : list (string * pyval)) : class_attr :=
  control None_ set_command validator values_ map_values identity1
          set_process identity1 dynamic kwargs.

(** The default arguments of the three factories. *)
Definition default_values : obj := OVal (PTuple []).
Definition default_map_values_control : obj := False_.
Definition default_map_values_measurement : obj := None_.

Definition _fget_params_list : list string :=
  ["get_command"; "values"; "map_values"; "get_process"; "command_process"].

Definition _fset_params_list : list string :=
  ["set_command"; "validator"; "values"; "map_values"; "set_process";
   "command_process"].

(** [Instrument.__reserved_prefix] *)
Definition reserved_prefix : string := "___".

(** [tuple(set(_fget_params_list + _fset_params_list))]: the distinct
    parameter names.  A set has no defined order; only membership is used. *)
Definition dynamic_params : list string :=
  nodup string_dec (_fget_params_list ++ _fset_params_list).

(** First binding of [name] along the method resolution order. *)
Fixpoint dict_lookup (d : class_dict) (name : string) : option class_attr :=
  match d with
  | [] => None
  | (n, a) :: d' => if String.eqb n name then Some a else dict_lookup d' name
  end.

Fixpoint class_lookup (m : list class_dict) (name : string) : option class_attr :=
  match m with
  | [] => None
  | d :: m' =>
      match dict_lookup d name with
      | Some a => Some a
      | None => class_lookup m' name
      end
  end.

(** ** The outside world *)

(** The adapter (an [Adapter] object), [time.time] and [time.sleep], over the
    state [T] of everything outside the program.  The clock counts
    milliseconds.  [py_format] is Python's [%] operator, whose printf-style
    formatting is a primitive of the language, and [int_max_str_digits] is
    the interpreter's limit on the digits that [int] converts. *)
Record Env (T : Type) : Type := {
  adapter_ask : pyval -> T -> outcome string * T;
  adapter_write : pyval -> T -> outcome unit * T;
  adapter_read : T -> outcome string * T;
  adapter_values : pyval -> list (string * pyval) -> T -> outcome (list atom) * T;
  adapter_binary_values : pyval -> Z -> string -> T -> outcome (list atom) * T;
  time : T -> Z;
  sleep : Z -> T -> T;
  py_format : pyval -> pyval -> outcome pyval;
  int_max_str_digits : nat
}.
Arguments adapter_ask {T} _ _ _.
Arguments adapter_write {T} _ _ _.
Arguments adapter_read {T} _ _.
Arguments adapter_values {T} _ _ _ _.
Arguments adapter_binary_values {T} _ _ _ _ _.
Arguments time {T} _ _.
Arguments sleep {T} _ _ _.
Arguments py_format {T} _ _ _.
Arguments int_max_str_digits {T} _.

(** Calls made on the adapter, in the order they were made. *)
Inductive io : Type :=
| IoAsk (command : pyval)
| IoWrite (command : pyval)
| IoRead
| IoValues (command : pyval)
| IoBinaryValues (command : pyval).

(** ** The instrument object *)

(** The attributes that [__init__] assigns are fields; every other instance
    attribute (the reserved override slots among them) lives in [attrs],
    the rest of the instance [__dict__].  [_lock] is the state of the
    [threading.Lock]: [true] while some transaction holds it.  [trace] is
    the history of calls on the adapter. *)
Record Instrument (T : Type) : Type := mkInstrument {
  adapter : T;
  trace : list io;
  name : string;
  SCPI : bool;
  _lock : bool;
  communication_success : bool;
  isShutdown : bool;
  _special_names : option (list string);
  attrs : gmap string obj
}.
Arguments mkInstrument {T}.
Arguments adapter {T} _.
Arguments trace {T} _.
Arguments name {T} _.
Arguments SCPI {T} _.
Arguments _lock {T} _.
Arguments communication_success {T} _.
Arguments isShutdown {T} _.
Arguments _special_names {T} _.
Arguments attrs {T} _.

Section Setters.
Context {T : Type}.
Implicit Type s : Instrument T.

Definition set_adapter (t : T) s : Instrument T :=
  mkInstrument t (trace s) (name s) (SCPI s) (_lock s)
               (communication_success s) (isShutdown s) (_special_names s)
               (attrs s).

Definition log_io (ev : io) s : Instrument T :=
  mkInstrument (adapter s) (trace s ++ [ev]) (name s) (SCPI s) (_lock s)
               (communication_success s) (isShutdown s) (_special_names s)
               (attrs s).

Definition set_lock (b : bool) s : Instrument T :=
  mkInstrument (adapter s) (trace s) (name s) (SCPI s) b
               (communication_success s) (isShutdown s) (_special_names s)
               (attrs s).

Definition set_communication_success (b : bool) s : Instrument T :=
  mkInstrument (adapter s) (trace s) (name s) (SCPI s) (_lock s)
               b (isShutdown s) (_special_names s) (attrs s).

Definition set_isShutdown (b : bool) s : Instrument T :=
  mkInstrument (adapter s) (trace s) (name s) (SCPI s) (_lock s)
               (communication_success s) b (_special_names s) (attrs s).

Definition set_special_names (names : list string) s : Instrument T :=
  mkInstrument (adapter s) (trace s) (name s) (SCPI s) (_lock s)
               (communication_success s) (isShutdown s) (Some names)
               (attrs s).

Definition set_attrs (a : gmap string obj) s : Instrument T :=
  mkInstrument (adapter s) (trace s) (name s) (SCPI s) (_lock s)
               (communication_success s) (isShutdown s) (_special_names s)
               a.
End Setters.

(** ** State and exceptions *)

Definition M (T A : Type) : Type := Instrument T -> outcome A * Instrument T.

Section Monad.
Context {T : Type}.

Definition ret {A} (a : A) : M T A := fun s => (Ret a, s).
Definition raise {A} (e : exn) : M T A := fun s => (Raise e, s).
Definition lift {A} (o : outcome A) : M T A := fun s => (o, s).

Definition bind {A B} (m : M T A) (k : A -> M T B) : M T B :=
  fun s =>
    match m s with
    | (Ret a, s') => k a s'
    | (Raise e, s') => (Raise e, s')
    | (Stuck w, s') => (Stuck w, s')
    end.

Definition gets {A} (f : Instrument T -> A) : M T A := fun s => (Ret (f s), s).
Definition modify (f : Instrument T -> Instrument T) : M T unit :=
  fun s => (Ret tt, f s).
End Monad.

Notation "'let*' x := m 'in' k" := (bind m (fun x => k))
  (at level 10, x name, m at level 100, k at level 200).
Notation "m ;; k" := (bind m (fun _ => k))
  (at level 100, k at level 200, right associativity).

(** ** Methods of [Instrument] *)

(** [timeout=10] seconds and [sleep(0.1)], in milliseconds. *)
Definition default_timeout : Z := 10000.
Definition poll_interval : Z := 100.

Definition non_scpi_message : string :=
  "Non SCPI instruments require implementation in subclasses".

(** ["\n"] *)
Definition newline : string := String (ascii_of_nat 10) EmptyString.

(** The text of the [RuntimeError] of [check_errors]. *)
Definition error_queue_message (first_error : string) : string :=
  "Error read from error queue. First error read from the error queue is: "
  +:+ first_error +:+ newline +:+ "See logs for more details".

(** How a call site passes the optional argument of [get_id]. *)
Inductive optional_arg : Type :=
| Omitted
| Positional (v : bool)
| Keyword (kw : string) (v : bool).

Section Methods.
Context {T : Type} (E : Env T) (cls : Class).

(** A call on [self.adapter]: the outside state moves on and the call is
    recorded. *)
Definition on_adapter {A} (ev : io) (op : T -> outcome A * T) : M T A :=
  fun s =>
    let '(r, t) := op (adapter s) in
    (r, set_adapter t (log_io ev s)).

(** [time()] and [sleep(seconds)] *)
Definition py_time : M T Z := gets (fun s => time E (adapter s)).
Definition py_sleep (ms : Z) : M T unit :=
  modify (fun s => set_adapter (sleep E ms (adapter s)) s).

(** [with self._lock: body].  Acquiring a held lock never returns in a
    single thread; the lock is released on every way out of [body]. *)
Definition with_lock {A} (body : M T A) : M T A :=
  fun s =>
    if _lock s then (Stuck Blocked, s)
    else
      let '(r, s') := body (set_lock true s) in
      (r, set_lock false s').

Definition ask_no_lock (command : pyval) : M T string :=
  on_adapter (IoAsk command) (adapter_ask E command).

(** The property [complete]: [True], [False] or [None]. *)
Definition complete : M T atom :=
  let* scpi := gets SCPI in
  if scpi then
    let* reply := ask_no_lock (AStr "*OPC?") in
    let ready := Py.strip reply in
    if String.eqb ready "1" then ret (ABool true)
    else if String.eqb ready "0" then ret (ABool false)
    else ret ANone
  else raise (NotImplementedError non_scpi_message).

(** The [while not self.complete] loop of [_wait_until_ready]. *)
Fixpoint wait_loop (fuel : nat) (timeout end_ : Z) : M T unit :=
  match fuel with
  | O => lift (Stuck OutOfFuel)
  | S fuel' =>
      let* done := complete in
      if negb (Py.atom_truthy done) then
        let* now := py_time in
        if end_ <? now then raise (TimeoutError timeout)
        else py_sleep poll_interval ;; wait_loop fuel' timeout end_
      else ret tt
  end.

Definition _wait_until_ready (fuel : nat) (timeout : Z) : M T unit :=
  let* now := py_time in
  wait_loop fuel timeout (now + timeout).

(** The [while True] loop of [_flush_errors]. *)
Fixpoint flush_loop (fuel : nat) (errors : list string) : M T (list string) :=
  match fuel with
  | O => lift (Stuck OutOfFuel)
  | S fuel' =>
      let* current_err := ask_no_lock (AStr "SYST:ERR?") in
      if negb (Py.startswith current_err "+0")
      then flush_loop fuel' (errors ++ [current_err])
      else ret errors
  end.

Definition _flush_errors (fuel : nat) : M T (list string) :=
  let* scpi := gets SCPI in
  if scpi then
    _wait_until_ready fuel default_timeout ;;
    flush_loop fuel []
  else raise (NotImplementedError non_scpi_message).

Definition check_errors (fuel : nat) : M T unit :=
  let* errors := _flush_errors fuel in
  match errors with
  | first :: _ => raise (RuntimeError (error_queue_message first))
  | [] => ret tt
  end.

Definition ask (fuel : nat) (command : pyval) (check_for_errors : bool) : M T string :=
  with_lock (
    (if check_for_errors then _wait_until_ready fuel default_timeout else ret tt) ;;
    let* response := on_adapter (IoAsk command) (adapter_ask E command) in
    (if check_for_errors then check_errors fuel else ret tt) ;;
    ret response).

Definition write (fuel : nat) (command : pyval) : M T unit :=
  with_lock (
    _wait_until_ready fuel default_timeout ;;
    on_adapter (IoWrite command) (adapter_write E command) ;;
    check_errors fuel).

Definition read (fuel : nat) : M T string :=
  with_lock (
    _wait_until_ready fuel default_timeout ;;
    let* response := on_adapter IoRead (adapter_read E) in
    check_errors fuel ;;
    ret response).

Definition values (fuel : nat) (command : pyval) (kwargs : list (string * pyval))
  : M T (list atom) :=
  with_lock (
    _wait_until_ready fuel default_timeout ;;
    let* response := on_adapter (IoValues command) (adapter_values E command kwargs) in
    check_errors fuel ;;
    ret response).

Definition binary_values (fuel : nat) (command : pyval) (header_bytes : Z)
                         (dtype : string) : M T (list atom) :=
  with_lock (
    _wait_until_ready fuel default_timeout ;;
    let* response := on_adapter (IoBinaryValues command)
                                (adapter_binary_values E command header_bytes dtype) in
    check_errors fuel ;;
    ret response).

(** Binding of the call to [def get_id(self, check_errs=True)]. *)
Definition get_id_argument (a : optional_arg) : outcome bool :=
  match a with
  | Omitted => Ret true
  | Positional v => Ret v
  | Keyword kw v =>
      if String.eqb kw "check_errs" then Ret v
      else Raise (TypeError ("get_id() got an unexpected keyword argument '"
                             +:+ kw +:+ "'"))
  end.

Definition get_id (fuel : nat) (a : optional_arg) : M T string :=
  let* check_errs := lift (get_id_argument a) in
  let* scpi := gets SCPI in
  if scpi then
    let* reply := ask fuel (AStr "*IDN?") check_errs in
    ret (Py.strip reply)
  else raise (NotImplementedError non_scpi_message).

(** The property [status]. *)
Definition status (fuel : nat) : M T string :=
  let* ok := gets communication_success in
  if negb ok then
    let* id := get_id fuel (Keyword "check_for_errors" false) in
    if Py.startswith id (id_starts_with cls) then
      modify (set_communication_success true) ;;
      ret "ok: ON"
    else ret "warning: Cannot communicate with device"
  else
    let* locked := gets _lock in
    if locked then ret "ok: busy" else ret "ok: ON".

(** The property [options]. *)
Definition options (fuel : nat) : M T string :=
  let* scpi := gets SCPI in
  if scpi then
    let* reply := ask fuel (AStr "*OPT?") true in
    ret (Py.strip reply)
  else raise (NotImplementedError non_scpi_message).

Definition clear (fuel : nat) : M T unit :=
  let* scpi := gets SCPI in
  if scpi then write fuel (AStr "*CLS")
  else raise (NotImplementedError non_scpi_message).

Definition reset (fuel : nat) : M T unit :=
  let* scpi := gets SCPI in
  if scpi then write fuel (AStr "*RST")
  else raise (NotImplementedError non_scpi_message).

Definition shutdown : M T unit := modify (set_isShutdown true).

(** [__exit__(exc_type, exc_val, exc_tb)]: whatever the block did. *)
Definition Instrument_exit (block_failed : option exn) : M T unit := shutdown.

End Methods.

(** ** The getter and the setter made by [control] *)

Definition not_allowed_message (values_ : obj) : string :=
  "Values of type `" +:+ Py.type_name values_
  +:+ "` are not allowed for Instrument.control".

(** [for k, v in values.items(): if v == value: return k] *)
Fixpoint find_key (items : list (atom * atom)) (value : pyval) : option atom :=
  match items with
  | [] => None
  | (k, v) :: rest => if Py.eq_atom_val v value then Some k else find_key rest value
  end.

(** [fget] after [vals = self.values(...)]: from the tokens of the reply to
    the value of the property. *)
Definition fget_value (max_str_digits : nat) (values_ map_values get_process : obj)
                      (vals : list atom) : outcome pyval :=
  match vals with
  | [token] =>
      do value <- Py.call1 get_process (PAtom token);
      if negb (Py.obj_truthy map_values) then Ret value
      else
        match values_ with
        | OVal (PList l) | OVal (PTuple l) =>
            do i <- Py.int max_str_digits value;
            do a <- Py.getitem l i;
            Ret (PAtom a)
        | OVal (PRange a b c) =>
            do i <- Py.int max_str_digits value;
            do a <- Py.getitem (Py.range_items a b c) i;
            Ret (PAtom a)
        | OVal (PDict items) =>
            match find_key items value with
            | Some k => Ret (PAtom k)
            | None => Raise (KeyError value)
            end
        | _ => Raise (ValueError (not_allowed_message values_))
        end
  | _ => Py.call1 get_process (PList vals)
  end.

(** [fset] up to the call of [self.write]: from the value assigned to the
    value that is formatted into the command. *)
Definition fset_value (validator values_ map_values set_process : obj)
                      (value : pyval) : outcome pyval :=
  do allowed <- Py.as_val values_;
  do valid <- Py.call2 validator value allowed;
  do value <- Py.call1 set_process valid;
  if negb (Py.obj_truthy map_values) then Ret value
  else
    match allowed with
    | PList l | PTuple l =>
        do i <- Py.index l value;
        Ret (PAtom (AInt i))
    | PRange a b c =>
        do i <- Py.index (Py.range_items a b c) value;
        Ret (PAtom (AInt i))
    | PDict items =>
        do code <- Py.dict_getitem items value;
        Ret (PAtom code)
    | _ => Raise (ValueError (not_allowed_message values_))
    end.

(** Keyword arguments over the defaults of a function. *)
Fixpoint kwarg (kwargs : list (string * obj)) (param : string) (default : obj) : obj :=
  match kwargs with
  | [] => default
  | (k, o) :: rest => if String.eqb k param then o else kwarg rest param default
  end.

Section Properties.
Context {T : Type} (E : Env T) (cls : Class).

Definition fget (fuel : nat) (c : Command) (kwargs : list (string * obj)) : M T pyval :=
  let get_command := kwarg kwargs "get_command" (cmd_get_command c) in
  let values_ := kwarg kwargs "values" (cmd_values c) in
  let map_values := kwarg kwargs "map_values" (cmd_map_values c) in
  let get_process := kwarg kwargs "get_process" (cmd_get_process c) in
  let command_process := kwarg kwargs "command_process" (cmd_command_process c) in
  if Py.is_None get_command then
    raise (LookupError "Instrument property can not be read.")
  else
    let* template := lift (Py.as_val get_command) in
    let* command := lift (Py.call1 command_process template) in
    let* vals := values E fuel command (cmd_kwargs c) in
    lift (fget_value (int_max_str_digits E) values_ map_values get_process vals).

Definition fset (fuel : nat) (c : Command) (kwargs : list (string * obj))
                (value : pyval) : M T unit :=
  let set_command := kwarg kwargs "set_command" (cmd_set_command c) in
  let validator := kwarg kwargs "validator" (cmd_validator c) in
  let values_ := kwarg kwargs "values" (cmd_values c) in
  let map_values := kwarg kwargs "map_values" (cmd_map_values c) in
  let set_process := kwarg kwargs "set_process" (cmd_set_process c) in
  let command_process := kwarg kwargs "command_process" (cmd_command_process c) in
  if Py.is_None set_command then
    raise (LookupError "Instrument property can not be set.")
  else
    let* value := lift (fset_value validator values_ map_values set_process value) in
    let* template := lift (Py.as_val set_command) in
    let* format := lift (Py.call1 command_process template) in
    let* command := lift (py_format E format value) in
    write E fuel command.

(** *** Attribute lookup *)

(** Names that [Instrument] defines itself: fields, methods and class
    variables. *)
Definition declared_names : list string :=
  ["name"; "SCPI"; "adapter"; "_lock"; "communication_success"; "isShutdown";
   "_special_names"; "__dict__"; "__class__"; "_fget_params_list";
   "_fset_params_list"; "_Instrument__reserved_prefix"; "id_starts_with";
   "connect"; "__init__"; "__enter__"; "__exit__"; "_setup_special_names";
   "__setattr__"; "__getattribute__"; "complete"; "status"; "options";
   "get_id"; "_wait_until_ready"; "ask"; "ask_no_lock"; "write"; "read";
   "values"; "binary_values"; "check_errors"; "_flush_errors"; "control";
   "measurement"; "setting"; "clear"; "reset"; "shutdown"].

(** Names that the language defines for every object and every class body
    ([__doc__], [__module__], [__weakref__], [__repr__], [__eq__], ...).
    They begin with two underscores; a name that begins with the reserved
    prefix is none of them. *)
Definition language_name (attr : string) : bool :=
  Py.startswith attr "__" && negb (Py.startswith attr reserved_prefix).

(** Names that an instrument has from [Instrument] or from [object].  What
    such a name is bound to is not an attribute value of the model. *)
Definition inherited_name (attr : string) : bool :=
  Py.contains declared_names attr || language_name attr.

Inductive attr_lookup : Type :=
| Found (o : obj)
| Descriptor (c : Command) (dynamic : bool)
| Fails (e : exn)
| Outside.

(** [object.__getattribute__]: a property of the class first, then the
    instance dictionary, then a class variable.  The methods of the model
    are those of [Instrument], so a declared name is outside the model
    whatever the class binds it to.  A class variable that holds data is
    returned as it is; one that holds a function is bound to the instance
    when it is read through the instance, and any other object may be a
    descriptor: both are outside the model. *)
Definition object_getattribute (s : Instrument T) (attr : string) : attr_lookup :=
  if Py.contains declared_names attr then Outside
  else
    match class_lookup (mro cls) attr with
    | Some (Dynamic c) => Descriptor c true
    | Some (Property c) => Descriptor c false
    | bound =>
        if language_name attr then Outside
        else
          match attrs s !! attr, bound with
          | Some o', _ => Found o'
          | None, Some (Plain (OVal v)) => Found (OVal v)
          | None, Some _ => Outside
          | None, None =>
              Fails (AttributeError ("object has no attribute '" +:+ attr +:+ "'"))
          end
    end.

Definition reserved_message (attr : string) : string :=
  attr +:+ " is a reserved variable name and it cannot be read".

(** [Instrument.__getattribute__] *)
Definition Instrument_getattribute (s : Instrument T) (attr : string) : attr_lookup :=
  if Py.contains ["_special_names"; "__dict__"] attr then object_getattribute s attr
  else
    match _special_names s with
    | Some special_names =>
        if Py.contains special_names attr
        then Fails (AttributeError (reserved_message attr))
        else object_getattribute s attr
    | None => object_getattribute s attr
    end.

(** *** [DynamicProperty] *)

(** [prefix + "_".join([name, attr])] *)
Definition attr_instance_name (property_name attr : string) : string :=
  reserved_prefix +:+ property_name +:+ "_" +:+ attr.

(** The loop [for attr in params_list: if hasattr(obj, ...): kwargs[attr] =
    getattr(obj, ...)].  A property of the class bound under a reserved
    name would run its own getter here; that is outside the model. *)
Fixpoint collect_kwargs (s : Instrument T) (property_name : string)
                        (params_list : list string) : outcome (list (string * obj)) :=
  match params_list with
  | [] => Ret []
  | attr :: rest =>
      match Instrument_getattribute s (attr_instance_name property_name attr) with
      | Found o =>
          do kwargs <- collect_kwargs s property_name rest;
          Ret ((attr, o) :: kwargs)
      | Fails (AttributeError _) => collect_kwargs s property_name rest
      | Fails e => Raise e
      | Descriptor _ _ | Outside => Stuck Unmodelled
      end
  end.

(** [DynamicProperty.__get__(obj)] for the property bound to
    [property_name] ([__set_name__]). *)
Definition DynamicProperty_get (fuel : nat) (property_name : string) (c : Command)
  : M T pyval :=
  let* kwargs := (fun s => (collect_kwargs s property_name _fget_params_list, s)) in
  fget fuel c kwargs.

(** [DynamicProperty.__set__(obj, value)] *)
Definition DynamicProperty_set (fuel : nat) (property_name : string) (c : Command)
                               (value : pyval) : M T unit :=
  let* kwargs := (fun s => (collect_kwargs s property_name _fset_params_list, s)) in
  fset fuel c kwargs value.

(** *** The attribute surface of an instrument *)

(** [instrument.attr] *)
Definition Instrument_getattr (fuel : nat) (attr : string) : M T obj :=
  fun s =>
    match Instrument_getattribute s attr with
    | Found o => (Ret o, s)
    | Fails e => (Raise e, s)
    | Outside => (Stuck Unmodelled, s)
    | Descriptor c true =>
        (let* v := DynamicProperty_get fuel attr c in ret (OVal v)) s
    | Descriptor c false =>
        (let* v := fget fuel c [] in ret (OVal v)) s
    end.

(** [object.__setattr__]: a property of the class takes the assignment,
    anything else is stored in the instance dictionary. *)
Definition object_setattr (fuel : nat) (attr : string) (value : obj) : M T unit :=
  if Py.contains declared_names attr then lift (Stuck Unmodelled)
  else
    match class_lookup (mro cls) attr with
    | Some (Dynamic c) =>
        let* v := lift (Py.as_val value) in
        DynamicProperty_set fuel attr c v
    | Some (Property c) =>
        let* v := lift (Py.as_val value) in
        fset fuel c [] v
    | _ =>
        if language_name attr then lift (Stuck Unmodelled)
        else modify (fun s => set_attrs (<[attr := value]> (attrs s)) s)
    end.

(** [Instrument.__setattr__], that is [instrument.attr = value] *)
Definition Instrument_setattr (fuel : nat) (attr : string) (value : obj) : M T unit :=
  let* special := gets _special_names in
  let attr :=
    match special with
    | Some special_names =>
        if Py.contains special_names attr then reserved_prefix +:+ attr else attr
    | None => attr
    end in
  object_setattr fuel attr value.

(** *** Construction *)

(** What [obj.__dict__[attr]] is for an entry of a class dictionary. *)
Definition attr_object (a : class_attr) : obj :=
  match a with
  | Plain o => o
  | Dynamic _ => OOther "<class 'pymeasure.instruments.instrument.DynamicProperty'>"
  | Property _ => OOther "<class 'property'>"
  end.

(** The names [attr_name + "_" + key] of one class dictionary. *)
Definition special_names_of (d : class_dict) : list string :=
  List.flat_map
    (fun entry =>
       match snd entry with
       | Dynamic _ => List.map (fun key => fst entry +:+ "_" +:+ key) dynamic_params
       | _ => []
       end) d.

(** The first pass of [_setup_special_names]: the special names of every
    class along the method resolution order. *)
Definition class_special_names : list string :=
  List.flat_map special_names_of (mro cls).

(** The inner loop of the second pass over one class dictionary. *)
Fixpoint copy_class_variables (fuel : nat) (special_names : list string)
                              (d : class_dict) : M T unit :=
  match d with
  | [] => ret tt
  | (attr, a) :: rest =>
      (if Py.contains special_names attr
       then Instrument_setattr fuel (reserved_prefix +:+ attr) (attr_object a)
       else ret tt) ;;
      copy_class_variables fuel special_names rest
  end.

Fixpoint copy_along_mro (fuel : nat) (special_names : list string)
                        (m : list class_dict) : M T unit :=
  match m with
  | [] => ret tt
  | d :: rest =>
      copy_class_variables fuel special_names d ;;
      copy_along_mro fuel special_names rest
  end.

(** [_setup_special_names].  Both loops run over [(self,) +
    self.__class__.__mro__]; [self] adds nothing: this is called from
    [__init__] only, where the instance dictionary holds [name], [SCPI],
    [adapter], [_lock], [communication_success] and [isShutdown], none of
    them a [DynamicProperty] and none of the form [<property>_<key>]. *)
Definition _setup_special_names (fuel : nat) : M T (list string) :=
  let special_names := class_special_names in
  copy_along_mro fuel special_names (mro cls) ;;
  ret special_names.

(** [Instrument.__init__(adapter, name, includeSCPI)] with an [Adapter]
    object for [adapter]. *)
Definition Instrument_init (fuel : nat) (adapter0 : T) (name0 : string)
                           (includeSCPI : bool) : outcome unit * Instrument T :=
  let self := mkInstrument adapter0 [] name0 includeSCPI false false false None ∅ in
  (_flush_errors E fuel ;;
   let* idn := get_id E fuel Omitted in
   modify (set_communication_success (Py.startswith idn (id_starts_with cls))) ;;
   modify (set_isShutdown false) ;;
   let* special_names := _setup_special_names fuel in
   modify (set_special_names special_names)) self.

End Properties.


(** ** A simulated instrument

    A small scripted device behind the [Env] interface, used to run the
    methods on concrete inputs. *)

Module Sim.

Record device : Type := mkDevice {
  clock : Z;
  latency : Z;
  opc_replies : list string;
  opc_default : string;
  error_queue : list string;
  idn : string;
  value_reply : list atom;
  written : list pyval
}.

Definition no_error : string := "+0,No error".

Definition tick (d : device) : Z := clock d + latency d.

Definition sim_ask (command : pyval) (d : device) : outcome string * device :=
  match command with
  | PAtom (AStr "*OPC?") =>
      match opc_replies d with
      | r :: rest =>
          (Ret r, mkDevice (tick d) (latency d) rest (opc_default d) (error_queue d)
                           (idn d) (value_reply d) (written d))
      | [] =>
          (Ret (opc_default d),
           mkDevice (tick d) (latency d) [] (opc_default d) (error_queue d)
                    (idn d) (value_reply d) (written d))
      end
  | PAtom (AStr "SYST:ERR?") =>
      match error_queue d with
      | e :: rest =>
          (Ret e, mkDevice (tick d) (latency d) (opc_replies d) (opc_default d) rest
                           (idn d) (value_reply d) (written d))
      | [] =>
          (Ret no_error,
           mkDevice (tick d) (latency d) (opc_replies d) (opc_default d) []
                    (idn d) (value_reply d) (written d))
      end
  | PAtom (AStr "*IDN?") =>
      (Ret (idn d),
       mkDevice (tick d) (latency d) (opc_replies d) (opc_default d) (error_queue d)
                (idn d) (value_reply d) (written d))
  | _ =>
      (Ret "",
       mkDevice (tick d) (latency d) (opc_replies d) (opc_default d) (error_queue d)
                (idn d) (value_reply d) (written d))
  end.

Definition sim_write (command : pyval) (d : device) : outcome unit * device :=
  (Ret tt,
   mkDevice (tick d) (latency d) (opc_replies d) (opc_default d) (error_queue d)
            (idn d) (value_reply d) (written d ++ [command])).

Definition sim_read (d : device) : outcome string * device :=
  (Ret "",
   mkDevice (tick d) (latency d) (opc_replies d) (opc_default d) (error_queue d)
            (idn d) (value_reply d) (written d)).

Definition sim_values (command : pyval) (kwargs : list (string * pyval)) (d : device)
  : outcome (list atom) * device :=
  (Ret (value_reply d),
   mkDevice (tick d) (latency d) (opc_replies d) (opc_default d) (error_queue d)
            (idn d) (value_reply d) (written d)).

Definition sim_binary_values (command : pyval) (header_bytes : Z) (dtype : string)
                             (d : device) : outcome (list atom) * device :=
  sim_values command [] d.

Definition sim_sleep (ms : Z) (d : device) : device :=
  mkDevice (clock d + ms) (latency d) (opc_replies d) (opc_default d) (error_queue d)
           (idn d) (value_reply d) (written d).

(** A stand-in for [%]: the template and the value, side by side. *)
Definition sim_format (format value : pyval) : outcome pyval :=
  match format, value with
  | PAtom (AStr f), PAtom a => Ret (PTuple [AStr f; a])
  | _, _ => Raise (TypeError "unsupported operand type(s) for %")
  end.

Definition env : Env device :=
  {| adapter_ask := sim_ask;
     adapter_write := sim_write;
     adapter_read := sim_read;
     adapter_values := sim_values;
     adapter_binary_values := sim_binary_values;
     time := clock;
     sleep := sim_sleep;
     py_format := sim_format;
     int_max_str_digits := 4300 |}.

(** A device that answers at once, with nothing queued. *)
Definition idle (identification : string) (reply : list atom) : device :=
  mkDevice 0 1 [] "1" [] identification reply [].

(** A device whose completion query never reports complete. *)
Definition busy_forever : device :=
  mkDevice 0 1 [] "0" [] "ACME" [] [].

End Sim.


(** * Vocabulary of the properties *)

Section Vocabulary.
Context {T : Type}.

(** [m] runs the same whatever the shutdown flag is, and leaves the flag
    as it found it. *)
Definition ignores_shutdown {A} (m : M T A) : Prop :=
  forall b s, m (set_isShutdown b s) = (fst (m s), set_isShutdown b (snd (m s))).

(** The calls that user code makes on a constructed instrument: the
    transactions, the methods and properties of the SCPI protocol, and the
    read and write accesses of a command.  Construction ([__init__] and
    [_setup_special_names], which [__init__] calls) and the assignment and
    lookup of an attribute ([__setattr__], [__getattribute__]) are not
    among them: they are [Instrument_init], [_setup_special_names],
    [Instrument_setattr] and [Instrument_getattr], and they do assign
    attributes of the instrument. *)
Inductive method : Type :=
| call_ask (command : pyval) (check_for_errors : bool)
| call_ask_no_lock (command : pyval)
| call_write (command : pyval)
| call_read
| call_values (command : pyval) (kwargs : list (string * pyval))
| call_binary_values (command : pyval) (header_bytes : Z) (dtype : string)
| call_check_errors
| call_flush_errors
| call_wait_until_ready (timeout : Z)
| get_complete
| call_get_id (a : optional_arg)
| get_status
| get_options
| call_clear
| call_reset
| call_shutdown
| call_exit (block_failed : option exn)
| get_property (c : Command)
| set_property (c : Command) (value : pyval)
| get_dynamic_property (property_name : string) (c : Command)
| set_dynamic_property (property_name : string) (c : Command) (value : pyval).

Definition discard {A} (m : M T A) : M T unit := let* _ := m in ret tt.

(** Running a method for its effect on the instrument. *)
Definition invoke (E : Env T) (cls : Class) (fuel : nat) (m : method) : M T unit :=
  match m with
  | call_ask command check => discard (ask E fuel command check)
  | call_ask_no_lock command => discard (ask_no_lock E command)
  | call_write command => write E fuel command
  | call_read => discard (read E fuel)
  | call_values command kwargs => discard (values E fuel command kwargs)
  | call_binary_values command header_bytes dtype =>
      discard (binary_values E fuel command header_bytes dtype)
  | call_check_errors => check_errors E fuel
  | call_flush_errors => discard (_flush_errors E fuel)
  | call_wait_until_ready timeout => _wait_until_ready E fuel timeout
  | get_complete => discard (complete E)
  | call_get_id a => discard (get_id E fuel a)
  | get_status => discard (status E cls fuel)
  | get_options => discard (options E fuel)
  | call_clear => clear E fuel
  | call_reset => reset E fuel
  | call_shutdown => shutdown
  | call_exit block_failed => Instrument_exit block_failed
  | get_property c => discard (fget E fuel c [])
  | set_property c value => fset E fuel c [] value
  | get_dynamic_property property_name c =>
      discard (DynamicProperty_get E cls fuel property_name c)
  | set_dynamic_property property_name c value =>
      DynamicProperty_set E cls fuel property_name c value
  end.

(** A session as [__init__] leaves it: [_special_names] holds the special
    names of its class. *)
Definition constructed (cls : Class) (s : Instrument T) : Prop :=
  _special_names s = Some (class_special_names cls).

(** The instance dictionary with the reserved slot of [n] bound to [v]. *)
Definition with_slot (n : string) (v : obj) (s : Instrument T) : Instrument T :=
  set_attrs (<[reserved_prefix +:+ n := v]> (attrs s)) s.

(** The name of the override of the parameter [attr] of the command
    [property_name]. *)
Definition override_name (property_name attr : string) : string :=
  property_name +:+ "_" +:+ attr.

(** [attr] is not bound to a property by the class. *)
Definition not_a_property (cls : Class) (attr : string) : Prop :=
  match class_lookup (mro cls) attr with
  | Some (Dynamic _) | Some (Property _) => False
  | _ => True
  end.

(** The class binds nothing under [attr], or plain data. *)
Definition binds_data_at_most (cls : Class) (attr : string) : Prop :=
  match class_lookup (mro cls) attr with
  | None | Some (Plain (OVal _)) => True
  | _ => False
  end.

(** The reserved slot of the override [n] can be assigned: the class binds
    no property under the reserved spelling of [n], and that spelling is
    not itself the name of an override. *)
Definition slot_free (cls : Class) (n : string) : Prop :=
  not_a_property cls (reserved_prefix +:+ n) /\
  Py.contains (class_special_names cls) (reserved_prefix +:+ n) = false.

(** The reserved slots of the command [property_name] for the parameters
    [params] can be looked up: under their reserved spellings the class
    binds nothing but plain data, and none of these spellings is itself the
    name of an override. *)
Definition slots_free (cls : Class) (property_name : string) (params : list string)
  : Prop :=
  forall attr, In attr params ->
    binds_data_at_most cls (reserved_prefix +:+ override_name property_name attr) /\
    Py.contains (class_special_names cls)
                (reserved_prefix +:+ override_name property_name attr) = false.

(** The methods that set the shutdown flag. *)
Definition sets_shutdown (m : method) : bool :=
  match m with
  | call_shutdown | call_exit _ => true
  | _ => false
  end.

(** [drains E s errors s']: from [s], the successive replies to the error
    query are the entries of [errors], none of which begins with [+0],
    followed by a reply that does; [s'] is the state after that reply. *)
Inductive drains (E : Env T) : Instrument T -> list string -> Instrument T -> Prop :=
| drains_sentinel s reply s' :
    ask_no_lock E (AStr "SYST:ERR?") s = (Ret reply, s') ->
    Py.startswith reply "+0" = true ->
    drains E s [] s'
| drains_error s reply s1 errors s' :
    ask_no_lock E (AStr "SYST:ERR?") s = (Ret reply, s1) ->
    Py.startswith reply "+0" = false ->
    drains E s1 errors s' ->
    drains E s (reply :: errors) s'.

(** What [time()] would return. *)
Definition now_ (E : Env T) (s : Instrument T) : Z := time E (adapter s).

(** [stalls E I]: as long as the outside world satisfies [I], the completion
    query is answered, never by ["1"], the world still satisfies [I]
    afterwards and after a [sleep], the clock does not go back across the
    query, and [sleep] lasts at least as long as asked. *)
Definition stalls (E : Env T) (I : T -> Prop) : Prop :=
  (forall t, I t ->
     exists reply t',
       adapter_ask E (AStr "*OPC?") t = (Ret reply, t') /\
       Py.strip reply <> "1" /\ I t' /\ time E t <= time E t') /\
  (forall t, I t ->
     I (sleep E poll_interval t) /\
     time E t + poll_interval <= time E (sleep E poll_interval t)).

(** [completes_within E end_ s n s']: polling from [s], the [n]-th poll is the
    first that reports complete, every earlier one having been checked
    against the clock no later than [end_]; [s'] is the state after it. *)
Inductive completes_within (E : Env T) (end_ : Z)
  : Instrument T -> nat -> Instrument T -> Prop :=
| completes_now s done s' :
    complete E s = (Ret done, s') ->
    Py.atom_truthy done = true ->
    completes_within E end_ s 1 s'
| completes_later s done s1 n s' :
    complete E s = (Ret done, s1) ->
    Py.atom_truthy done = false ->
    time E (adapter s1) <= end_ ->
    completes_within E end_ (set_adapter (sleep E poll_interval (adapter s1)) s1) n s' ->
    completes_within E end_ s (S n) s'.

End Vocabulary.

(** The failures of [fget] and [fset] on a missing template. *)
Definition cannot_read : exn := LookupError "Instrument property can not be read.".
Definition cannot_set : exn := LookupError "Instrument property can not be set.".

(** The failure of a transaction on a queued error. *)
Definition queue_failure {A} (first_error : string) : outcome A :=
  Raise (RuntimeError (error_queue_message first_error)).

(** Elements pairwise different under Python's [==]. *)
Fixpoint distinct_atoms (l : list atom) : Prop :=
  match l with
  | [] => True
  | a :: rest => Forall (fun b => Py.atom_eq a b = false) rest /\ distinct_atoms rest
  end.

(** A mapping that is one-to-one: no two keys equal, no two wire codes
    equal. *)
Definition bijective (items : list (atom * atom)) : Prop :=
  distinct_atoms (List.map fst items) /\ distinct_atoms (List.map snd items).

(** [k] is the first key of [items] whose value equals [value]. *)
Definition first_key_for (items : list (atom * atom)) (value : pyval) (k : atom) : Prop :=
  exists before v after,
    items = (before ++ (k, v) :: after)%list /\
    Py.eq_atom_val v value = true /\
    Forall (fun kv => Py.eq_atom_val (snd kv) value = false) before.

(** No key of [items] has a value equal to [value]. *)
Definition no_key_for (items : list (atom * atom)) (value : pyval) : Prop :=
  Forall (fun kv => Py.eq_atom_val (snd kv) value = false) items.

(** ** Scenarios *)

Module Scenario.

Definition tuple_of (zs : list Z) : obj := OVal (PTuple (List.map AInt zs)).
Definition str (s : string) : obj := OVal (PAtom (AStr s)).

(** [voltage = Instrument.control("V?", "V %d", ..., values={"LOW": 0,
    "HIGH": 1}, map_values=True)] *)
Definition levels : list (atom * atom) :=
  [(AStr "LOW", AInt 0); (AStr "HIGH", AInt 1)].

Definition voltage (dynamic : bool) : class_attr :=
  control (str "V?") (str "V %d") identity2 (OVal (PDict levels)) True_
          identity1 identity1 identity1 dynamic [].

(** The command that [voltage] closes over. *)
Definition voltage_command : Command :=
  {| cmd_get_command := str "V?";
     cmd_set_command := str "V %d";
     cmd_validator := identity2;
     cmd_values := OVal (PDict levels);
     cmd_map_values := True_;
     cmd_get_process := identity1;
     cmd_set_process := identity1;
     cmd_command_process := identity1;
     cmd_kwargs := [] |}.

(** [class Generic(Instrument)] declares the dynamic command
    [center_frequency] and overrides its [values];
    [class Specific(Generic)] overrides [values] again. *)
Definition center_frequency : class_attr :=
  control (str ":SENS:FREQ:CENT?;") (str ":SENS:FREQ:CENT %e GHz;") identity2
          (tuple_of [1; 20]) False_ identity1 identity1 identity1 true [].

Definition Generic : class_dict :=
  [("center_frequency", center_frequency);
   ("center_frequency_values", Plain (tuple_of [1; 10]))].

Definition Specific : class_dict :=
  [("center_frequency_values", Plain (tuple_of [1; 5]))].

Definition SpecificInstrument : Class :=
  {| mro := [Specific; Generic]; id_starts_with := "ACME" |}.

(** [class Source(Instrument)] with [level = Instrument.setting("LEV %d",
    ..., dynamic=True)] and [reading = Instrument.measurement("READ?", ...,
    dynamic=True)]. *)
Definition level : class_attr :=
  setting (str "LEV %d") identity2 default_values default_map_values_control
          identity1 true [].

(** The command that [level] closes over. *)
Definition level_command : Command :=
  {| cmd_get_command := None_;
     cmd_set_command := str "LEV %d";
     cmd_validator := identity2;
     cmd_values := default_values;
     cmd_map_values := default_map_values_control;
     cmd_get_process := identity1;
     cmd_set_process := identity1;
     cmd_command_process := identity1;
     cmd_kwargs := [] |}.

Definition reading : class_attr :=
  measurement (str "READ?") default_values default_map_values_measurement
              identity1 identity1 true [].

Definition Source : Class :=
  {| mro := [[("level", level); ("reading", reading); ("voltage", voltage true)]];
     id_starts_with := "ACME" |}.

(** A validator that accepts the keys of a mapping and the elements of a
    sequence, and nothing else. *)
Definition member (value allowed : pyval) : bool :=
  match value, allowed with
  | PAtom a, PDict items => existsb (fun kv => Py.atom_eq (fst kv) a) items
  | PAtom a, PList l | PAtom a, PTuple l => existsb (fun b => Py.atom_eq b a) l
  | _, _ => false
  end.

Definition members_only : obj :=
  OFun2 (fun value allowed =>
           if member value allowed then Ret value
           else Raise (ValueError "Value is not in the discrete set")).

(** [class Switch(Instrument)] with [voltage] validated by [members_only]. *)
Definition checked_voltage : Command :=
  {| cmd_get_command := str "V?";
     cmd_set_command := str "V %d";
     cmd_validator := members_only;
     cmd_values := OVal (PDict levels);
     cmd_map_values := True_;
     cmd_get_process := identity1;
     cmd_set_process := identity1;
     cmd_command_process := identity1;
     cmd_kwargs := [] |}.

(** [class Shadowed(Instrument)] with the dynamic command [level], and the
    reserved spelling of its override [level_values] bound to a read-only
    property: [setattr(Shadowed, "___level_values",
    Instrument.measurement("SHADOW?", ...))]. *)
Definition ranged_level : class_attr :=
  control (str "LEV?") (str "LEV %d") identity2 (tuple_of [0; 1]) False_
          identity1 identity1 identity1 true [].

Definition shadow : class_attr :=
  measurement (str "SHADOW?") default_values default_map_values_measurement
              identity1 identity1 false [].

Definition Shadowed : Class :=
  {| mro := [[("level", ranged_level); ("___level_values", shadow)]];
     id_starts_with := "ACME" |}.

Definition fuel : nat := 200.

(** [SpecificInstrument(adapter, "fsa")] and [Source(adapter, "src")] on an
    idle device. *)
Definition specific : outcome unit * Instrument Sim.device :=
  Instrument_init Sim.env SpecificInstrument fuel (Sim.idle "ACME,FSA" [AInt 7]) "fsa" true.

Definition source : outcome unit * Instrument Sim.device :=
  Instrument_init Sim.env Source fuel (Sim.idle "ACME,SRC" [AInt 1]) "src" true.

Definition shadowed : outcome unit * Instrument Sim.device :=
  Instrument_init Sim.env Shadowed fuel (Sim.idle "ACME,SHD" [AInt 1]) "shd" true.

(** A session whose identification did not match. *)
Definition stranger : outcome unit * Instrument Sim.device :=
  Instrument_init Sim.env Source fuel (Sim.idle "OTHER" [AInt 1]) "src" true.

(** [source.level_get_command = "LEV?"] *)
Definition source_overridden : Instrument Sim.device :=
  snd (Instrument_setattr Sim.env Source fuel "level_get_command" (str "LEV?")
                          (snd source)).

(** An instrument with two errors queued. *)
Definition queued_errors : list string :=
  ["-113,Undefined header"; "-222,Data out of range"].

Definition faulty : Instrument Sim.device :=
  mkInstrument (Sim.mkDevice 0 1 [] "1" queued_errors "ACME" [] [])
               [] "src" true false true false (Some []) ∅.

(** An instrument whose device never completes, and one that completes at
    the third poll. *)
Definition stalled : Instrument Sim.device :=
  mkInstrument Sim.busy_forever [] "src" true false true false (Some []) ∅.

Definition slow : Instrument Sim.device :=
  mkInstrument (Sim.mkDevice 0 1 ["0"; ""; "1"] "1" [] "ACME" [] [])
               [] "src" true false true false (Some []) ∅.

(** The devices that stall for ever. *)
Definition stalling (d : Sim.device) : Prop :=
  Sim.opc_replies d = [] /\ Sim.opc_default d = "0" /\ 0 <= Sim.latency d.

End Scenario.


(** * Further vocabulary *)

Section Views.
Context {T : Type}.

(** [m] leaves the view [f] of the instrument as it found it. *)
Definition keeps {A B} (f : Instrument T -> B) (m : M T A) : Prop :=
  forall s, f (snd (m s)) = f s.

(** A view of the instrument object itself: it does not see the adapter or
    the history of calls, and it sees the lock only as the lock. *)
Definition object_view {B} (f : Instrument T -> B) : Prop :=
  (forall t s, f (set_adapter t s) = f s) /\
  (forall ev s, f (log_io ev s) = f s) /\
  (forall b s s', f s = f s' -> f (set_lock b s) = f (set_lock b s')).

(** Every attribute of the instrument, the lock included. *)
Definition instance_of (s : Instrument T)
  : string * bool * bool * bool * bool * option (list string) * gmap string obj :=
  (name s, SCPI s, _lock s, communication_success s, isShutdown s,
   _special_names s, attrs s).

(** Every attribute but the instance dictionary. *)
Definition fields_of (s : Instrument T)
  : string * bool * bool * bool * bool * option (list string) :=
  (name s, SCPI s, _lock s, communication_success s, isShutdown s,
   _special_names s).

(** The methods that assign an attribute of the instrument. *)
Definition assigns (m : method) : bool :=
  match m with
  | call_shutdown | call_exit _ | get_status => true
  | _ => false
  end.

(** The calls on the adapter made between [s] and [s']. *)
Definition calls_between (s s' : Instrument T) (calls : list io) : Prop :=
  trace s' = (trace s ++ calls)%list.

(** [m] makes only calls that satisfy [p]. *)
Definition calls_only {A} (p : io -> Prop) (m : M T A) : Prop :=
  forall s, exists calls, calls_between s (snd (m s)) calls /\ Forall p calls.

(** [sends_once m ev s]: run from [s], [m] makes first only completion
    queries, then the call [ev] at most once, then only completion and
    error queries; nothing follows when [ev] was not made, and [ev] was
    made whenever [m] returns. *)
Definition sends_once {A} (m : M T A) (ev : io) (s : Instrument T) : Prop :=
  exists before call after,
    calls_between s (snd (m s)) (before ++ call ++ after) /\
    Forall (fun c => c = IoAsk (PAtom (AStr "*OPC?"))) before /\
    (call = [] \/ call = [ev]) /\
    Forall (fun c => c = IoAsk (PAtom (AStr "*OPC?")) \/
                     c = IoAsk (PAtom (AStr "SYST:ERR?"))) after /\
    (call = [] -> after = []) /\
    (forall r, fst (m s) = Ret r -> call = [ev]).

End Views.

(** The two queries of the transaction protocol. *)
Definition opc_query : io := IoAsk (PAtom (AStr "*OPC?")).
Definition error_query : io := IoAsk (PAtom (AStr "SYST:ERR?")).

Definition is_opc (ev : io) : Prop := ev = opc_query.
Definition is_protocol_query (ev : io) : Prop := ev = opc_query \/ ev = error_query.

Definition not_implemented {A} : outcome A :=
  Raise (NotImplementedError non_scpi_message).

(** [sends_in_order E fuel m ev op s]: the calls that [m] makes on the
    adapter from the unlocked [s] are, in this order: the calls of the
    readiness wait (completion queries only); then, exactly when the wait
    returned, the call [ev]; then, exactly when that call returned, the
    calls of the error check (completion and error queries only).  Nothing
    else is sent. *)
Definition sends_in_order {T A B} (E : Env T) (fuel : nat) (m : M T B) (ev : io)
                          (op : T -> outcome A * T) (s : Instrument T) : Prop :=
  let ready := _wait_until_ready E fuel default_timeout (set_lock true s) in
  let sent := on_adapter ev op (snd ready) in
  let checked := check_errors E fuel (snd sent) in
  exists waiting checking,
    calls_between s (snd ready) waiting /\ Forall is_opc waiting /\
    calls_between (snd sent) (snd checked) checking /\
    Forall is_protocol_query checking /\
    calls_between s (snd (m s))
      (match fst ready, fst sent with
       | Ret _, Ret _ => waiting ++ ev :: checking
       | Ret _, _ => waiting ++ [ev]
       | _, _ => waiting
       end).

(** The instrument as [__init__] has it before its first call on the
    adapter. *)
Definition blank {T} (adapter0 : T) (name0 : string) (includeSCPI : bool)
  : Instrument T :=
  mkInstrument adapter0 [] name0 includeSCPI false false false None ∅.

(** No class along the method resolution order binds a name under the
    reserved prefix, and no class binds a name twice (a class dictionary is
    a dictionary). *)
Definition reserved_free (cls : Class) : Prop :=
  forall d, In d (mro cls) ->
    NoDup (List.map fst d) /\
    forall entry, In entry d -> String.prefix reserved_prefix (fst entry) = false.

(** The second pass of [_setup_special_names] as a function on the instance
    dictionary. *)
Definition snapshot_dict (special_names : list string) (a : gmap string obj)
                         (d : class_dict) : gmap string obj :=
  fold_left
    (fun a entry =>
       if Py.contains special_names (fst entry)
       then <[reserved_prefix +:+ fst entry := attr_object (snd entry)]> a
       else a)
    d a.

Definition snapshot (special_names : list string) (m : list class_dict)
                    (a : gmap string obj) : gmap string obj :=
  fold_left (snapshot_dict special_names) m a.

(** No key of [items] equals [k]. *)
Definition no_key_equal (items : list (atom * atom)) (k : atom) : Prop :=
  Forall (fun kv => Py.atom_eq (fst kv) k = false) items.

(** No element of [l] equals [v]. *)
Definition no_element_equal (l : list atom) (v : pyval) : Prop :=
  Forall (fun a => Py.eq_atom_val a v = false) l.

(** No dynamic command of the class has a name that begins with two
    underscores. *)
Definition plain_property_names (cls : Class) : Prop :=
  forall d property_name c,
    In d (mro cls) -> In (property_name, Dynamic c) d ->
    String.prefix "__" property_name = false.

(** [attr] is an ordinary attribute name for [s]: not one that an
    instrument has from [Instrument] or from the language, not a special
    name, not a property of the class. *)
Definition ordinary_name {T} (cls : Class) (s : Instrument T) (attr : string) : Prop :=
  inherited_name attr = false /\
  (forall names, _special_names s = Some names -> Py.contains names attr = false) /\
  not_a_property cls attr.

(** The eight parameters of [control] that a dynamic command lets an
    instance or a subclass replace. *)
Definition parameter_names : list string :=
  ["get_command"; "values"; "map_values"; "get_process"; "command_process";
   "set_command"; "validator"; "set_process"].

(** What [fset] computes before it calls [self.write]: the value validated,
    processed and mapped, then the command template processed and formatted
    with it. *)
Definition prepared_command {T} (E : Env T) (c : Command)
                            (kwargs : list (string * obj)) (value : pyval)
  : outcome pyval :=
  do mapped <- fset_value (kwarg kwargs "validator" (cmd_validator c))
                          (kwarg kwargs "values" (cmd_values c))
                          (kwarg kwargs "map_values" (cmd_map_values c))
                          (kwarg kwargs "set_process" (cmd_set_process c)) value;
  do template <- Py.as_val (kwarg kwargs "set_command" (cmd_set_command c));
  do format <- Py.call1 (kwarg kwargs "command_process" (cmd_command_process c))
                        template;
  py_format E format mapped.

(** ** More scenarios *)

Module Cases.
Import Scenario.

(** An instrument constructed outside the SCPI dialect. *)
Definition bare : Instrument Sim.device :=
  mkInstrument (Sim.idle "ACME" []) [] "bare" false false true false (Some []) ∅.

(** [channel = Instrument.control("CH?", "CH %d", ..., values=("A", "B",
    "C"), map_values=True)] *)
Definition channels : list atom := [AStr "A"; AStr "B"; AStr "C"].

Definition channel_command : Command :=
  {| cmd_get_command := str "CH?";
     cmd_set_command := str "CH %d";
     cmd_validator := identity2;
     cmd_values := OVal (PTuple channels);
     cmd_map_values := True_;
     cmd_get_process := identity1;
     cmd_set_process := identity1;
     cmd_command_process := identity1;
     cmd_kwargs := [] |}.

(** An instrument whose device answers a [values] query with [-1]. *)
Definition answering_last : Instrument Sim.device :=
  mkInstrument (Sim.idle "ACME" [AInt (-1)]) [] "sel" true false true false
               (Some []) ∅.

End Cases.


(** * Properties *)

(** ** Unfolding the state monad *)

Section MonadFacts.
Context {T : Type}.

Lemma bind_Ret {A B} (m : M T A) (k : A -> M T B) s a s' :
  m s = (Ret a, s') -> bind m k s = k a s'.
Proof. intros H. unfold bind. now rewrite H. Qed.

Lemma bind_Raise {A B} (m : M T A) (k : A -> M T B) s e s' :
  m s = (Raise e, s') -> bind m k s = (Raise e, s').
Proof. intros H. unfold bind. now rewrite H. Qed.

Lemma bind_Stuck {A B} (m : M T A) (k : A -> M T B) s w s' :
  m s = (Stuck w, s') -> bind m k s = (Stuck w, s').
Proof. intros H. unfold bind. now rewrite H. Qed.

Lemma set_isShutdown_same (s : Instrument T) : set_isShutdown (isShutdown s) s = s.
Proof. now destruct s. Qed.

(** ** Methods that neither read nor write [isShutdown] *)

Lemma ignores_shutdown_keeps {A} (m : M T A) :
  ignores_shutdown m -> forall s, isShutdown (snd (m s)) = isShutdown s.
Proof.
  intros H s. specialize (H (isShutdown s) s).
  rewrite set_isShutdown_same in H.
  apply (f_equal snd) in H. simpl in H. now rewrite H at 1.
Qed.

Lemma ignores_ret {A} (a : A) : ignores_shutdown (ret (T:=T) a).
Proof. now intros b s. Qed.

Lemma ignores_raise {A} e : ignores_shutdown (raise (T:=T) (A:=A) e).
Proof. now intros b s. Qed.

Lemma ignores_lift {A} (o : outcome A) : ignores_shutdown (lift (T:=T) o).
Proof. now intros b s. Qed.

Lemma ignores_bind {A B} (m : M T A) (k : A -> M T B) :
  ignores_shutdown m -> (forall a, ignores_shutdown (k a)) ->
  ignores_shutdown (bind m k).
Proof.
  intros Hm Hk b s. unfold bind. rewrite Hm.
  destruct (m s) as [[a | e | w] s']; simpl; [apply Hk | reflexivity | reflexivity].
Qed.

Lemma ignores_gets {A} (f : Instrument T -> A) :
  (forall b s, f (set_isShutdown b s) = f s) -> ignores_shutdown (gets f).
Proof. intros H b s. unfold gets. now rewrite H. Qed.

Lemma ignores_modify (f : Instrument T -> Instrument T) :
  (forall b s, f (set_isShutdown b s) = set_isShutdown b (f s)) ->
  ignores_shutdown (modify f).
Proof. intros H b s. unfold modify. now rewrite H. Qed.

Lemma ignores_if {A} (c : bool) (m1 m2 : M T A) :
  ignores_shutdown m1 -> ignores_shutdown m2 ->
  ignores_shutdown (if c then m1 else m2).
Proof. now destruct c. Qed.

End MonadFacts.

Create HintDb frame.
#[export] Hint Resolve ignores_ret ignores_raise ignores_lift : frame.

Ltac frame_step :=
  match goal with
  | |- ignores_shutdown (bind _ _) => apply ignores_bind; [ | intros ? ]
  | |- ignores_shutdown (if ?c then _ else _) => destruct c
  | |- ignores_shutdown (match ?x with _ => _ end) => destruct x
  | |- ignores_shutdown (gets _) => apply ignores_gets; reflexivity
  | |- ignores_shutdown (modify _) => apply ignores_modify; reflexivity
  | |- ignores_shutdown (fun s => (_, s)) => intros ? ?; reflexivity
  | |- _ => solve [ auto with frame ]
  end.

Ltac frame := repeat frame_step.

Section ShutdownFrame.
Context {T : Type} (E : Env T) (cls : Class).

Lemma ignores_on_adapter {A} ev (op : T -> outcome A * T) :
  ignores_shutdown (on_adapter ev op).
Proof.
  intros b s. unfold on_adapter. simpl.
  now destruct (op (adapter s)).
Qed.

Lemma ignores_with_lock {A} (body : M T A) :
  ignores_shutdown body -> ignores_shutdown (with_lock body).
Proof.
  intros H b s. unfold with_lock. simpl.
  destruct (_lock s); [reflexivity | ].
  change (set_lock true (set_isShutdown b s))
    with (set_isShutdown b (set_lock true s)).
  rewrite H. now destruct (body (set_lock true s)).
Qed.

Lemma ignores_ask_no_lock command : ignores_shutdown (ask_no_lock E command).
Proof. apply ignores_on_adapter. Qed.

Hint Resolve ignores_on_adapter ignores_ask_no_lock : frame.

Lemma ignores_complete : ignores_shutdown (complete E).
Proof. unfold complete. frame. Qed.

Hint Resolve ignores_complete : frame.

Lemma ignores_wait_loop fuel timeout end_ :
  ignores_shutdown (wait_loop E fuel timeout end_).
Proof.
  induction fuel as [ | fuel IH]; simpl; unfold py_time, py_sleep; frame.
Qed.

Hint Resolve ignores_wait_loop : frame.

Lemma ignores_wait_until_ready fuel timeout :
  ignores_shutdown (_wait_until_ready E fuel timeout).
Proof. unfold _wait_until_ready, py_time. frame. Qed.

Lemma ignores_flush_loop fuel errors : ignores_shutdown (flush_loop E fuel errors).
Proof.
  revert errors. induction fuel as [ | fuel IH]; intros errors; simpl; frame.
Qed.

Hint Resolve ignores_wait_until_ready ignores_flush_loop : frame.

Lemma ignores_flush_errors fuel : ignores_shutdown (_flush_errors E fuel).
Proof. unfold _flush_errors. frame. Qed.

Hint Resolve ignores_flush_errors : frame.

Lemma ignores_check_errors fuel : ignores_shutdown (check_errors E fuel).
Proof. unfold check_errors. frame. Qed.

Hint Resolve ignores_check_errors : frame.

Lemma ignores_ask fuel command check : ignores_shutdown (ask E fuel command check).
Proof. unfold ask. apply ignores_with_lock. frame. Qed.

Lemma ignores_write fuel command : ignores_shutdown (write E fuel command).
Proof. unfold write. apply ignores_with_lock. frame. Qed.

Lemma ignores_read fuel : ignores_shutdown (read E fuel).
Proof. unfold read. apply ignores_with_lock. frame. Qed.

Lemma ignores_values fuel command kwargs :
  ignores_shutdown (values E fuel command kwargs).
Proof. unfold values. apply ignores_with_lock. frame. Qed.

Lemma ignores_binary_values fuel command header_bytes dtype :
  ignores_shutdown (binary_values E fuel command header_bytes dtype).
Proof. unfold binary_values. apply ignores_with_lock. frame. Qed.

Hint Resolve ignores_ask ignores_write ignores_read ignores_values
  ignores_binary_values : frame.

Lemma ignores_get_id fuel a : ignores_shutdown (get_id E fuel a).
Proof. unfold get_id. frame. Qed.

Hint Resolve ignores_get_id : frame.

Lemma ignores_status fuel : ignores_shutdown (status E cls fuel).
Proof. unfold status. frame. Qed.

Lemma ignores_options fuel : ignores_shutdown (options E fuel).
Proof. unfold options. frame. Qed.

Lemma ignores_clear fuel : ignores_shutdown (clear E fuel).
Proof. unfold clear. frame. Qed.

Lemma ignores_reset fuel : ignores_shutdown (reset E fuel).
Proof. unfold reset. frame. Qed.

Lemma ignores_fget fuel c kwargs : ignores_shutdown (fget E fuel c kwargs).
Proof. unfold fget. frame. Qed.

Lemma ignores_fset fuel c kwargs value : ignores_shutdown (fset E fuel c kwargs value).
Proof. unfold fset. frame. Qed.

Hint Resolve ignores_fget ignores_fset : frame.

Lemma ignores_DynamicProperty_get fuel property_name c :
  ignores_shutdown (DynamicProperty_get E cls fuel property_name c).
Proof. unfold DynamicProperty_get. frame. Qed.

Lemma ignores_DynamicProperty_set fuel property_name c value :
  ignores_shutdown (DynamicProperty_set E cls fuel property_name c value).
Proof. unfold DynamicProperty_set. frame. Qed.

End ShutdownFrame.


(** ** Shutdown *)

Section Shutdown.
Context {T : Type} (E : Env T) (cls : Class).

Lemma ignores_discard {A} (m : M T A) :
  ignores_shutdown m -> ignores_shutdown (discard m).
Proof. intros H. unfold discard. frame. Qed.

Lemma invoke_ignores_shutdown fuel m :
  sets_shutdown m = false -> ignores_shutdown (invoke E cls fuel m).
Proof.
  destruct m; simpl; intros Hm; try discriminate;
    try apply ignores_discard;
    auto using ignores_ask, ignores_ask_no_lock, ignores_write, ignores_read,
      ignores_values, ignores_binary_values, ignores_check_errors,
      ignores_flush_errors, ignores_wait_until_ready, ignores_complete,
      ignores_get_id, ignores_status, ignores_options, ignores_clear,
      ignores_reset, ignores_fget, ignores_fset, ignores_DynamicProperty_get,
      ignores_DynamicProperty_set.
Qed.

(** C10.  [shutdown] sets [isShutdown] and changes no other field, and
    [__exit__] is [shutdown] whatever happened in the block; after any
    method the flag is what it was, or true if the method was [shutdown]
    or [__exit__], so nothing resets it; and each of [ask], [write], [read],
    [values] and [binary_values] returns the same outcome and leaves the
    same state whatever the flag is: no transaction looks at it. *)
Theorem C10_shutdown_sets_a_flag_nothing_reads (fuel : nat) :
  (forall s : Instrument T,
      shutdown s =
      (Ret tt,
       mkInstrument (adapter s) (trace s) (name s) (SCPI s) (_lock s)
                    (communication_success s) true (_special_names s) (attrs s))) /\
  (forall block_failed (s : Instrument T),
      Instrument_exit block_failed s = shutdown s) /\
  (forall m s,
      isShutdown (snd (invoke E cls fuel m s)) = isShutdown s || sets_shutdown m) /\
  (forall command check, ignores_shutdown (ask E fuel command check)) /\
  (forall command, ignores_shutdown (write E fuel command)) /\
  ignores_shutdown (read E fuel) /\
  (forall command kwargs, ignores_shutdown (values E fuel command kwargs)) /\
  (forall command header_bytes dtype,
      ignores_shutdown (binary_values E fuel command header_bytes dtype)).
Proof.
  repeat split.
  - intros m s. destruct (sets_shutdown m) eqn:Hm.
    + rewrite orb_true_r. destruct m; try discriminate; reflexivity.
    + rewrite orb_false_r.
      apply ignores_shutdown_keeps, invoke_ignores_shutdown, Hm.
  - intros; apply ignores_ask.
  - intros; apply ignores_write.
  - apply ignores_read.
  - intros; apply ignores_values.
  - intros; apply ignores_binary_values.
Qed.

End Shutdown.


(** ** Validation and unsupported directions *)

Section Access.
Context {T : Type} (E : Env T) (cls : Class).

Lemma DynamicProperty_get_with fuel property_name c kwargs (s : Instrument T) :
  collect_kwargs cls s property_name _fget_params_list = Ret kwargs ->
  DynamicProperty_get E cls fuel property_name c s = fget E fuel c kwargs s.
Proof. intros H. unfold DynamicProperty_get, bind. now rewrite H. Qed.

Lemma DynamicProperty_set_with fuel property_name c kwargs value (s : Instrument T) :
  collect_kwargs cls s property_name _fset_params_list = Ret kwargs ->
  DynamicProperty_set E cls fuel property_name c value s = fset E fuel c kwargs value s.
Proof. intros H. unfold DynamicProperty_set, bind. now rewrite H. Qed.

Lemma fset_value_invalid validator values_ map_values set_process value allowed e :
  Py.as_val values_ = Ret allowed ->
  Py.call2 validator value allowed = Raise e ->
  fset_value validator values_ map_values set_process value = Raise e.
Proof. intros Ha Hv. unfold fset_value. rewrite Ha. simpl. now rewrite Hv. Qed.

Lemma fset_invalid fuel c kwargs value allowed e (s : Instrument T) :
  Py.is_None (kwarg kwargs "set_command" (cmd_set_command c)) = false ->
  Py.as_val (kwarg kwargs "values" (cmd_values c)) = Ret allowed ->
  Py.call2 (kwarg kwargs "validator" (cmd_validator c)) value allowed = Raise e ->
  fset E fuel c kwargs value s = (Raise e, s).
Proof.
  intros Hset Ha Hv. unfold fset. rewrite Hset.
  apply bind_Raise. unfold lift.
  now rewrite (fset_value_invalid _ _ _ _ _ _ _ Ha Hv).
Qed.

(** C3.  When the command has a write template and the effective validator
    rejects the value against the effective allowed values, the setter
    fails with the validator's exception and the instrument is exactly as
    before: nothing was sent, the history of adapter calls is unchanged.
    The same holds for the write access of a dynamic command, whose
    effective arguments are collected from the instance. *)
Theorem C3_rejected_value_is_not_written
    (fuel : nat) (c : Command) (kwargs : list (string * obj))
    (value allowed : pyval) (e : exn) (s : Instrument T) :
  Py.is_None (kwarg kwargs "set_command" (cmd_set_command c)) = false ->
  Py.as_val (kwarg kwargs "values" (cmd_values c)) = Ret allowed ->
  Py.call2 (kwarg kwargs "validator" (cmd_validator c)) value allowed = Raise e ->
  fset E fuel c kwargs value s = (Raise e, s) /\
  trace (snd (fset E fuel c kwargs value s)) = trace s /\
  (forall property_name,
      collect_kwargs cls s property_name _fset_params_list = Ret kwargs ->
      DynamicProperty_set E cls fuel property_name c value s = (Raise e, s)).
Proof.
  intros Hset Ha Hv.
  pose proof (fset_invalid fuel c kwargs value allowed e s Hset Ha Hv) as H.
  split; [exact H | split].
  - now rewrite H.
  - intros property_name Hk. now rewrite (DynamicProperty_set_with _ _ _ _ _ _ Hk).
Qed.

Lemma fget_without_template fuel c kwargs (s : Instrument T) :
  Py.is_None (kwarg kwargs "get_command" (cmd_get_command c)) = true ->
  fget E fuel c kwargs s = (Raise cannot_read, s).
Proof. intros H. unfold fget. now rewrite H. Qed.

Lemma fset_without_template fuel c kwargs value (s : Instrument T) :
  Py.is_None (kwarg kwargs "set_command" (cmd_set_command c)) = true ->
  fset E fuel c kwargs value s = (Raise cannot_set, s).
Proof. intros H. unfold fset. now rewrite H. Qed.

(** C8, as the code has it.  What decides is the effective template, after
    the overrides of the instance have been collected: when it is [None],
    the read access (the write access) fails with [LookupError] and the
    instrument, adapter history included, is exactly as before.  A command
    that is not dynamic has no overrides, so one built by [setting] can
    never be read and one built by [measurement] can never be set. *)
Theorem C8_absent_effective_template_is_unsupported
    (fuel : nat) (c : Command) (kwargs : list (string * obj)) (s : Instrument T) :
  (Py.is_None (kwarg kwargs "get_command" (cmd_get_command c)) = true ->
   fget E fuel c kwargs s = (Raise cannot_read, s) /\
   forall property_name,
     collect_kwargs cls s property_name _fget_params_list = Ret kwargs ->
     DynamicProperty_get E cls fuel property_name c s = (Raise cannot_read, s)) /\
  (Py.is_None (kwarg kwargs "set_command" (cmd_set_command c)) = true ->
   forall value,
     fset E fuel c kwargs value s = (Raise cannot_set, s) /\
     forall property_name,
       collect_kwargs cls s property_name _fset_params_list = Ret kwargs ->
       DynamicProperty_set E cls fuel property_name c value s = (Raise cannot_set, s)) /\
  (forall set_command validator values_ map_values set_process kw attr,
      class_lookup (mro cls) attr =
        Some (setting set_command validator values_ map_values set_process false kw) ->
      Py.contains declared_names attr = false ->
      (forall names, _special_names s = Some names -> Py.contains names attr = false) ->
      Instrument_getattr E cls fuel attr s = (Raise cannot_read, s)) /\
  (forall get_command values_ map_values get_process command_process kw attr value,
      class_lookup (mro cls) attr =
        Some (measurement get_command values_ map_values get_process
                          command_process false kw) ->
      Py.contains declared_names attr = false ->
      (forall names, _special_names s = Some names -> Py.contains names attr = false) ->
      Instrument_setattr E cls fuel attr (OVal value) s = (Raise cannot_set, s)).
Proof.
  repeat split.
  - now apply fget_without_template.
  - intros property_name Hk. rewrite (DynamicProperty_get_with _ _ _ _ _ Hk).
    now apply fget_without_template.
  - now apply fset_without_template.
  - intros property_name Hk. rewrite (DynamicProperty_set_with _ _ _ _ _ _ Hk).
    now apply fset_without_template.
  - intros set_command validator values_ map_values set_process kw attr Hc Hd Hn.
    unfold Instrument_getattr, Instrument_getattribute.
    assert (Hobj : object_getattribute cls s attr =
                   Descriptor (Build_Command None_ set_command validator values_
                                 map_values identity1 set_process identity1 kw) false).
    { unfold object_getattribute. rewrite Hd, Hc. reflexivity. }
    destruct (Py.contains ["_special_names"; "__dict__"] attr).
    + rewrite Hobj. reflexivity.
    + destruct (_special_names s) as [names | ] eqn:Hs.
      * rewrite (Hn names eq_refl), Hobj. reflexivity.
      * rewrite Hobj. reflexivity.
  - intros get_command values_ map_values get_process command_process kw attr value
           Hc Hd Hn.
    unfold Instrument_setattr.
    assert (Hname : forall special,
               _special_names s = special ->
               match special with
               | Some special_names =>
                   if Py.contains special_names attr then reserved_prefix +:+ attr else attr
               | None => attr
               end = attr).
    { intros [names | ] Hs; [ | reflexivity]. now rewrite (Hn names Hs). }
    unfold bind at 1. unfold gets. rewrite (Hname _ eq_refl).
    unfold object_setattr. rewrite Hd, Hc. reflexivity.
Qed.

(** [status] on a session whose identification did not match: the probe is
    called with a keyword that [get_id] does not have. *)
Lemma status_of_degraded_session fuel (s : Instrument T) :
  communication_success s = false ->
  status E cls fuel s =
  (Raise (TypeError "get_id() got an unexpected keyword argument 'check_for_errors'"), s).
Proof. intros H. unfold status, bind, gets. now rewrite H. Qed.

Lemma status_of_healthy_session fuel (s : Instrument T) :
  communication_success s = true ->
  status E cls fuel s = (Ret (if _lock s then "ok: busy" else "ok: ON"), s).
Proof.
  intros H. unfold status, bind, gets. rewrite H. simpl. now destruct (_lock s).
Qed.

End Access.


(** ** The override namespace *)

Section Overrides.
Context {T : Type} (E : Env T) (cls : Class).

(** Every special name is a property name, an underscore and one of the
    eight parameter names. *)
Lemma special_name_form (m : list class_dict) (n : string) :
  In n (List.flat_map special_names_of m) ->
  exists d property_name c key,
    In d m /\ In (property_name, Dynamic c) d /\ In key dynamic_params /\
    n = property_name +:+ "_" +:+ key.
Proof.
  intros H. apply in_flat_map in H as (d & Hd & H).
  unfold special_names_of in H. apply in_flat_map in H as ([pn a] & Ha & H).
  cbn [fst snd] in H. destruct a as [c | c | o]; try contradiction.
  apply in_map_iff in H as (key & <- & Hkey).
  now exists d, pn, c, key.
Qed.

Lemma special_name_intro (m : list class_dict) d property_name c key :
  In d m -> In (property_name, Dynamic c) d -> In key dynamic_params ->
  In (property_name +:+ "_" +:+ key) (List.flat_map special_names_of m).
Proof.
  intros Hd Hp Hk. apply in_flat_map. exists d. split; [exact Hd | ].
  unfold special_names_of. apply in_flat_map. exists (property_name, Dynamic c).
  split; [exact Hp | ]. cbn [fst snd]. apply in_map_iff. now exists key.
Qed.

Lemma contains_In names x : Py.contains names x = true <-> In x names.
Proof.
  unfold Py.contains. rewrite existsb_exists. split.
  - intros (y & Hy & Heq). apply String.eqb_eq in Heq. now subst.
  - intros H. exists x. split; [exact H | apply String.eqb_refl].
Qed.

(** Comparing [q ++ suffix] with a literal, character by character. *)
Ltac peel q H :=
  repeat (destruct q as [ | ? q]; simpl in H;
          [ discriminate H | injection H as _ H ]);
  try (destruct q; discriminate H).

Lemma special_name_not_exempt (m : list class_dict) (n : string) :
  In n (List.flat_map special_names_of m) ->
  Py.contains ["_special_names"; "__dict__"] n = false.
Proof.
  intros H. apply special_name_form in H as (d & q & c & key & _ & _ & Hkey & ->).
  destruct (Py.contains _ _) eqn:Hc; [ | reflexivity]. exfalso.
  apply contains_In in Hc.
  assert (Hkeys : In key ["get_command"; "values"; "map_values"; "get_process";
                          "command_process"; "set_command"; "validator";
                          "set_process"]).
  { revert Hkey. unfold dynamic_params. rewrite nodup_In. simpl. tauto. }
  simpl in Hkeys, Hc.
  destruct Hc as [Hc | [Hc | []]]; symmetry in Hc;
    repeat (destruct Hkeys as [<- | Hkeys]; [ peel q Hc | ]); contradiction.
Qed.

Lemma reserved_not_declared (n : string) :
  Py.contains declared_names (reserved_prefix +:+ n) = false.
Proof. reflexivity. Qed.

Lemma reserved_prefix_prefix (x : string) :
  String.prefix reserved_prefix (reserved_prefix +:+ x) = true.
Proof. simpl. now destruct x. Qed.

Lemma reserved_not_language (n : string) :
  language_name (reserved_prefix +:+ n) = false.
Proof.
  unfold language_name, Py.startswith. rewrite reserved_prefix_prefix.
  apply andb_false_r.
Qed.

Lemma reserved_not_exempt (n : string) :
  Py.contains ["_special_names"; "__dict__"] (reserved_prefix +:+ n) = false.
Proof. reflexivity. Qed.

Lemma fget_params_are_dynamic attr :
  In attr _fget_params_list -> In attr dynamic_params.
Proof.
  intros H. unfold dynamic_params. apply nodup_In, in_or_app. now left.
Qed.

Lemma fset_params_are_dynamic attr :
  In attr _fset_params_list -> In attr dynamic_params.
Proof.
  intros H. unfold dynamic_params. apply nodup_In, in_or_app. now right.
Qed.

(** The lookup that [hasattr] and [getattr] perform from inside the
    descriptor, for a slot that has been assigned. *)
Lemma assigned_slot_lookup (s : Instrument T) n v :
  constructed cls s ->
  slot_free cls n ->
  Instrument_getattribute cls (with_slot n v s) (reserved_prefix +:+ n) = Found v.
Proof.
  intros Hs [Hp Hn]. unfold Instrument_getattribute.
  rewrite reserved_not_exempt. unfold with_slot at 1. cbn [_special_names set_attrs].
  rewrite Hs, Hn. unfold object_getattribute.
  rewrite reserved_not_declared, reserved_not_language.
  unfold with_slot. cbn [attrs set_attrs]. rewrite lookup_insert_eq.
  unfold not_a_property in Hp.
  now destruct (class_lookup (mro cls) (reserved_prefix +:+ n)) as [[? | ? | o] | ].
Qed.

(** The same lookup for a slot under which the class binds at most data:
    the instance dictionary, then the class. *)
Lemma free_slot_lookup (s : Instrument T) n :
  constructed cls s ->
  binds_data_at_most cls (reserved_prefix +:+ n) ->
  Py.contains (class_special_names cls) (reserved_prefix +:+ n) = false ->
  Instrument_getattribute cls s (reserved_prefix +:+ n) =
  match attrs s !! (reserved_prefix +:+ n) with
  | Some o => Found o
  | None =>
      match class_lookup (mro cls) (reserved_prefix +:+ n) with
      | Some (Plain o) => Found o
      | _ => Fails (AttributeError
                      ("object has no attribute '" +:+ reserved_prefix +:+ n +:+ "'"))
      end
  end.
Proof.
  intros Hs Hp Hn. unfold Instrument_getattribute.
  rewrite reserved_not_exempt, Hs, Hn. unfold object_getattribute.
  rewrite reserved_not_declared, reserved_not_language.
  unfold binds_data_at_most in Hp.
  destruct (class_lookup (mro cls) (reserved_prefix +:+ n)) as [[? | ? | [v | | | ]] | ];
    try contradiction; now destruct (attrs s !! (reserved_prefix +:+ n)).
Qed.

Lemma data_is_not_a_property attr :
  binds_data_at_most cls attr -> not_a_property cls attr.
Proof.
  unfold binds_data_at_most, not_a_property.
  now destruct (class_lookup (mro cls) attr) as [[? | ? | ?] | ].
Qed.

(** With the slots of a command free, the descriptor's loop over the
    parameters comes to an end: every slot is found or absent. *)
Lemma collect_kwargs_returns (s : Instrument T) property_name params :
  constructed cls s ->
  slots_free cls property_name params ->
  exists kwargs, collect_kwargs cls s property_name params = Ret kwargs.
Proof.
  intros Hs. induction params as [ | attr rest IH]; intros Hfree.
  - now exists [].
  - destruct IH as (kwargs & Hk); [intros a Ha; apply Hfree; now right | ].
    cbn [collect_kwargs]. unfold attr_instance_name.
    change (reserved_prefix +:+ property_name +:+ "_" +:+ attr)
      with (reserved_prefix +:+ override_name property_name attr).
    destruct (Hfree attr (or_introl eq_refl)) as [Hdata Hnot].
    rewrite (free_slot_lookup s _ Hs Hdata Hnot).
    rewrite Hk.
    destruct (attrs s !! (reserved_prefix +:+ override_name property_name attr)).
    + eexists. reflexivity.
    + destruct (class_lookup (mro cls)
                  (reserved_prefix +:+ override_name property_name attr))
        as [[? | ? | o] | ]; eexists; reflexivity.
Qed.

Lemma collect_kwargs_finds (s : Instrument T) property_name attr v params :
  Instrument_getattribute cls s (attr_instance_name property_name attr) = Found v ->
  In attr params ->
  forall kwargs default,
    collect_kwargs cls s property_name params = Ret kwargs ->
    kwarg kwargs attr default = v.
Proof.
  intros Hv. induction params as [ | a rest IH]; intros Hin kwargs default Hk.
  - contradiction.
  - simpl in Hk. destruct (String.eqb a attr) eqn:Ha.
    + apply String.eqb_eq in Ha. subst a. rewrite Hv in Hk.
      destruct (collect_kwargs cls s property_name rest); try discriminate.
      simpl in Hk. injection Hk as <-. simpl. now rewrite String.eqb_refl.
    + assert (Hrest : In attr rest).
      { destruct Hin as [-> | Hin]; [ | exact Hin].
        now rewrite String.eqb_refl in Ha. }
      destruct (Instrument_getattribute cls s (attr_instance_name property_name a))
        as [o | ? ? | e | ]; try discriminate.
      * destruct (collect_kwargs cls s property_name rest) as [kw | | ] eqn:Hr;
          try discriminate.
        simpl in Hk. injection Hk as <-. simpl. rewrite Ha. now apply IH.
      * destruct e; try discriminate. now apply IH.
Qed.

(** What the descriptor collects once the override of [attr] has been
    assigned [v]: arguments among which [attr] is [v]. *)
Lemma collect_kwargs_after_assignment (s : Instrument T) property_name attr v params :
  constructed cls s ->
  slots_free cls property_name params ->
  In attr params ->
  exists kwargs,
    collect_kwargs cls (with_slot (override_name property_name attr) v s)
                   property_name params = Ret kwargs /\
    forall default, kwarg kwargs attr default = v.
Proof.
  intros Hs Hfree Hin.
  set (s' := with_slot (override_name property_name attr) v s).
  assert (Hs' : constructed cls s') by exact Hs.
  destruct (collect_kwargs_returns s' property_name params Hs' Hfree)
    as (kwargs & Hk).
  exists kwargs. split; [exact Hk | ]. intros default.
  apply (collect_kwargs_finds s' property_name attr v params); try assumption.
  apply (assigned_slot_lookup s _ v Hs).
  destruct (Hfree attr Hin) as [Hdata Hnot].
  split; [now apply data_is_not_a_property | exact Hnot].
Qed.

(** C2, as the code has it.  [property_name] is a dynamic command of the
    class and [attr] one of the eight parameters, so that
    [property_name_attr] is a name of the override namespace.

    Reading that name through the attribute surface fails with
    [AttributeError] on every constructed session, whatever has been
    assigned.

    When the reserved slot of the name can be assigned (the class binds no
    property under the reserved spelling, which is not itself an override
    name), assigning the name succeeds and changes nothing but that slot of
    the instance dictionary, where the descriptor's own lookup finds the
    assigned object.

    When the slots that the getter (the setter) of the command looks up
    can be looked up (under their reserved spellings the class binds
    nothing but plain data, and none is itself an override name), the
    assignment decides the next read (write) accesses: the descriptor
    calls [fget] ([fset]) with the arguments it collects from the instance,
    and among them [attr] is the assigned object. *)
Theorem C2_free_override_is_write_only
    (fuel : nat) (s : Instrument T) (d : class_dict)
    (property_name attr : string) (c : Command) (v : obj) :
  constructed cls s ->
  In d (mro cls) ->
  In (property_name, Dynamic c) d ->
  In attr dynamic_params ->
  (forall s1 : Instrument T,
      constructed cls s1 ->
      Instrument_getattr E cls fuel (override_name property_name attr) s1 =
      (Raise (AttributeError (reserved_message (override_name property_name attr))),
       s1)) /\
  (slot_free cls (override_name property_name attr) ->
   Instrument_setattr E cls fuel (override_name property_name attr) v s =
     (Ret tt, with_slot (override_name property_name attr) v s) /\
   constructed cls (with_slot (override_name property_name attr) v s) /\
   Instrument_getattribute cls (with_slot (override_name property_name attr) v s)
                           (attr_instance_name property_name attr) = Found v) /\
  (slots_free cls property_name _fget_params_list ->
   In attr _fget_params_list ->
   exists kwargs,
     collect_kwargs cls (with_slot (override_name property_name attr) v s)
                    property_name _fget_params_list = Ret kwargs /\
     (forall default, kwarg kwargs attr default = v) /\
     DynamicProperty_get E cls fuel property_name c
                         (with_slot (override_name property_name attr) v s) =
     fget E fuel c kwargs (with_slot (override_name property_name attr) v s)) /\
  (slots_free cls property_name _fset_params_list ->
   In attr _fset_params_list ->
   exists kwargs,
     collect_kwargs cls (with_slot (override_name property_name attr) v s)
                    property_name _fset_params_list = Ret kwargs /\
     (forall default, kwarg kwargs attr default = v) /\
     forall value,
       DynamicProperty_set E cls fuel property_name c value
                           (with_slot (override_name property_name attr) v s) =
       fset E fuel c kwargs value
            (with_slot (override_name property_name attr) v s)).
Proof.
  intros Hs Hd Hp Hattr.
  set (n := override_name property_name attr).
  assert (Hin : In n (class_special_names cls))
    by exact (special_name_intro (mro cls) d property_name c attr Hd Hp Hattr).
  assert (Hex : Py.contains ["_special_names"; "__dict__"] n = false)
    by now apply (special_name_not_exempt (mro cls)).
  assert (Hcn : Py.contains (class_special_names cls) n = true)
    by now apply contains_In.
  split; [ | split; [ | split]].
  - intros s1 Hs1. unfold Instrument_getattr, Instrument_getattribute.
    now rewrite Hex, Hs1, Hcn.
  - intros Hfree. split; [ | split].
    + unfold Instrument_setattr, bind, gets. rewrite Hs, Hcn.
      unfold object_setattr. rewrite reserved_not_declared, reserved_not_language.
      destruct Hfree as [Hprop _]. unfold not_a_property in Hprop.
      now destruct (class_lookup (mro cls) (reserved_prefix +:+ n))
        as [[? | ? | o] | ].
    + exact Hs.
    + now apply assigned_slot_lookup.
  - intros Hfree Hlist.
    destruct (collect_kwargs_after_assignment s property_name attr v
                _fget_params_list Hs Hfree Hlist) as (kwargs & Hk & Hv).
    exists kwargs. split; [exact Hk | split; [exact Hv | ]].
    now apply DynamicProperty_get_with.
  - intros Hfree Hlist.
    destruct (collect_kwargs_after_assignment s property_name attr v
                _fset_params_list Hs Hfree Hlist) as (kwargs & Hk & Hv).
    exists kwargs. split; [exact Hk | split; [exact Hv | ]].
    intros value. now apply DynamicProperty_set_with.
Qed.

End Overrides.


(** ** The readiness poll *)

Section Poll.
Context {T : Type} (E : Env T).

(** One poll of a device that stalls: it is answered, the answer is not
    true, the clock has not gone back. *)
Lemma complete_stalled (I : T -> Prop) (s : Instrument T) :
  stalls E I -> I (adapter s) -> SCPI s = true ->
  exists done s1,
    complete E s = (Ret done, s1) /\ Py.atom_truthy done = false /\
    SCPI s1 = true /\ I (adapter s1) /\ now_ E s <= now_ E s1.
Proof.
  intros [Hask _] HI Hscpi.
  destruct (Hask (adapter s) HI) as (reply & t' & Hreply & Hne & HI' & Hmono).
  unfold complete, bind, gets, ask_no_lock, on_adapter.
  rewrite Hscpi, Hreply.
  destruct (String.eqb (Py.strip reply) "1") eqn:H1.
  { apply String.eqb_eq in H1. contradiction. }
  destruct (String.eqb (Py.strip reply) "0");
    eexists; eexists; (split; [reflexivity | ]); simpl; auto.
Qed.

Lemma wait_loop_times_out (I : T -> Prop) (timeout end_ : Z) :
  stalls E I ->
  forall (fuel : nat) (s : Instrument T),
    I (adapter s) ->
    SCPI s = true ->
    (1 <= fuel)%nat ->
    (end_ - now_ E s) / poll_interval + 2 <= Z.of_nat fuel ->
    exists s',
      wait_loop E fuel timeout end_ s = (Raise (TimeoutError timeout), s') /\
      end_ < now_ E s'.
Proof.
  intros Hstall. induction fuel as [ | fuel IH]; intros s HI Hscpi H1 Hfuel.
  - lia.
  - destruct (complete_stalled I s Hstall HI Hscpi)
      as (done & s1 & Hc & Hdone & Hscpi1 & HI1 & Hmono).
    cbn [wait_loop]. rewrite (bind_Ret _ _ _ _ _ Hc). rewrite Hdone.
    cbn [negb]. unfold bind at 1. unfold py_time, gets.
    fold (now_ E s1). destruct (end_ <? now_ E s1) eqn:Hlate.
    + exists s1. split; [reflexivity | ]. now apply Z.ltb_lt.
    + apply Z.ltb_ge in Hlate.
      unfold bind at 1. unfold py_sleep, modify.
      set (s2 := set_adapter (sleep E poll_interval (adapter s1)) s1).
      destruct Hstall as [_ Hsleep].
      destruct (Hsleep (adapter s1) HI1) as [HI2 Hs2].
      change (now_ E s1 + poll_interval <= now_ E s2) in Hs2.
      unfold poll_interval in *.
      assert (Hq : (end_ - now_ E s2) / 100 + 1 <= (end_ - now_ E s) / 100).
      { replace ((end_ - now_ E s2) / 100 + 1) with ((end_ - now_ E s2 + 1 * 100) / 100)
          by (rewrite Z.div_add; lia).
        apply Z.div_le_mono; lia. }
      assert (Hpos : 0 <= (end_ - now_ E s) / 100) by (apply Z.div_pos; lia).
      apply IH; [exact HI2 | exact Hscpi1 | lia | lia].
Qed.

Lemma wait_loop_completes (timeout end_ : Z) (s : Instrument T) n s' :
  completes_within E end_ s n s' ->
  forall fuel, (n <= fuel)%nat ->
    wait_loop E fuel timeout end_ s = (Ret tt, s').
Proof.
  induction 1 as [s done s' Hc Hdone | s done s1 n s' Hc Hdone Htime _ IH];
    intros fuel Hfuel.
  - destruct fuel as [ | fuel]; [lia | ].
    cbn [wait_loop]. rewrite (bind_Ret _ _ _ _ _ Hc). now rewrite Hdone.
  - destruct fuel as [ | fuel]; [lia | ].
    cbn [wait_loop]. rewrite (bind_Ret _ _ _ _ _ Hc). rewrite Hdone.
    cbn [negb]. unfold bind at 1. unfold py_time, gets.
    replace (end_ <? time E (adapter s1)) with false
      by (symmetry; apply Z.ltb_ge; exact Htime).
    unfold bind at 1. unfold py_sleep, modify.
    apply IH. lia.
Qed.

(** C7.  [_wait_until_ready] on an instrument of the SCPI dialect.  If the
    completion query never reports complete while the call runs (the
    outside world stalls), the call raises [TimeoutError]: it does so within
    [timeout / 100 ms + 2] polls (that much fuel is enough, so it does not
    poll forever) and only once the clock is past the start plus [timeout].
    If the [n]-th poll is the first to report complete and the earlier ones
    were checked no later than the deadline, the call returns without
    error. *)
Theorem C7_readiness_wait_times_out_or_returns
    (fuel : nat) (timeout : Z) (s : Instrument T) :
  SCPI s = true ->
  0 <= timeout ->
  (forall I : T -> Prop,
      stalls E I ->
      I (adapter s) ->
      timeout / poll_interval + 2 <= Z.of_nat fuel ->
      exists s',
        _wait_until_ready E fuel timeout s = (Raise (TimeoutError timeout), s') /\
        now_ E s + timeout < now_ E s') /\
  (forall n s',
      completes_within E (now_ E s + timeout) s n s' ->
      (n <= fuel)%nat ->
      _wait_until_ready E fuel timeout s = (Ret tt, s')).
Proof.
  intros Hscpi Htimeout. split.
  - intros I Hstall HI Hfuel.
    unfold _wait_until_ready, bind, py_time, gets. fold (now_ E s).
    assert (Hpos : 0 <= timeout / poll_interval)
      by (apply Z.div_pos; unfold poll_interval; lia).
    apply (wait_loop_times_out I); try assumption; [lia | ].
    now replace (now_ E s + timeout - now_ E s) with timeout by lia.
  - intros n s' Hn Hfuel.
    unfold _wait_until_ready, bind, py_time, gets. fold (now_ E s).
    now apply wait_loop_completes with (n := n).
Qed.

(** ** The error queue *)

Lemma flush_loop_drains (s : Instrument T) errors s' :
  drains E s errors s' ->
  forall fuel seen, (length errors < fuel)%nat ->
    flush_loop E fuel seen s = (Ret (seen ++ errors)%list, s').
Proof.
  induction 1 as [s reply s' Hask Hzero | s reply s1 errors s' Hask Hzero _ IH];
    intros fuel seen Hfuel.
  - destruct fuel as [ | fuel]; [simpl in Hfuel; lia | ].
    cbn [flush_loop]. rewrite (bind_Ret _ _ _ _ _ Hask). rewrite Hzero.
    now rewrite app_nil_r.
  - destruct fuel as [ | fuel]; [simpl in Hfuel; lia | ].
    cbn [flush_loop]. rewrite (bind_Ret _ _ _ _ _ Hask). rewrite Hzero.
    cbn [negb]. rewrite IH by (simpl in Hfuel; lia).
    now rewrite <- app_assoc.
Qed.

Lemma flush_errors_drains fuel (s s1 s2 : Instrument T) errors :
  SCPI s = true ->
  _wait_until_ready E fuel default_timeout s = (Ret tt, s1) ->
  drains E s1 errors s2 ->
  (length errors < fuel)%nat ->
  _flush_errors E fuel s = (Ret errors, s2).
Proof.
  intros Hscpi Hwait Hdrain Hfuel.
  unfold _flush_errors. unfold bind at 1. unfold gets. rewrite Hscpi.
  rewrite (bind_Ret _ _ _ _ _ Hwait).
  now apply (flush_loop_drains s1 errors s2 Hdrain fuel []).
Qed.

Lemma check_errors_after fuel (s s2 : Instrument T) errors :
  _flush_errors E fuel s = (Ret errors, s2) ->
  check_errors E fuel s =
  (match errors with
   | [] => Ret tt
   | first :: _ => Raise (RuntimeError (error_queue_message first))
   end, s2).
Proof.
  intros H. unfold check_errors. rewrite (bind_Ret _ _ _ _ _ H).
  now destruct errors.
Qed.

(** A transaction: under the lock, the readiness wait, one call on the
    adapter, the error check. *)
Lemma transaction_fails {A B} (op : M T A) (after : A -> M T B) fuel
      (s0 sa s s2 : Instrument T) r e :
  _lock s0 = false ->
  _wait_until_ready E fuel default_timeout (set_lock true s0) = (Ret tt, sa) ->
  op sa = (Ret r, s) ->
  check_errors E fuel s = (Raise e, s2) ->
  with_lock (_wait_until_ready E fuel default_timeout ;;
             let* response := op in
             check_errors E fuel ;; after response) s0
  = (Raise e, set_lock false s2).
Proof.
  intros Hlock Hwait Hop Hcheck. unfold with_lock. rewrite Hlock.
  rewrite (bind_Ret _ _ _ _ _ Hwait), (bind_Ret _ _ _ _ _ Hop).
  now rewrite (bind_Raise _ _ _ _ _ Hcheck).
Qed.

(** C6.  With the readiness wait passed, if the successive replies to
    [SYST:ERR?] are [errors], none beginning with [+0], and then a reply
    that does, [_flush_errors] returns exactly [errors], in order (the empty
    list when the first reply is the sentinel); [check_errors] then returns
    when [errors] is empty and otherwise raises a [RuntimeError] whose text
    contains the first entry; and each of the five transactions whose error
    check starts in that state fails with that [RuntimeError], the lock
    released. *)
Theorem C6_error_queue_is_drained_in_order
    (fuel : nat) (s s1 s2 : Instrument T) (errors : list string) :
  SCPI s = true ->
  _wait_until_ready E fuel default_timeout s = (Ret tt, s1) ->
  drains E s1 errors s2 ->
  (length errors < fuel)%nat ->
  _flush_errors E fuel s = (Ret errors, s2) /\
  check_errors E fuel s =
    (match errors with
     | [] => Ret tt
     | first :: _ => Raise (RuntimeError (error_queue_message first))
     end, s2) /\
  (forall first rest,
      errors = first :: rest ->
      (exists before after, error_queue_message first = before +:+ first +:+ after) /\
      forall s0 sa,
        _lock s0 = false ->
        _wait_until_ready E fuel default_timeout (set_lock true s0) = (Ret tt, sa) ->
        (forall command r,
            on_adapter (IoAsk command) (adapter_ask E command) sa = (Ret r, s) ->
            ask E fuel command true s0 = (queue_failure first, set_lock false s2)) /\
        (forall command,
            on_adapter (IoWrite command) (adapter_write E command) sa = (Ret tt, s) ->
            write E fuel command s0 = (queue_failure first, set_lock false s2)) /\
        (forall r,
            on_adapter IoRead (adapter_read E) sa = (Ret r, s) ->
            read E fuel s0 = (queue_failure first, set_lock false s2)) /\
        (forall command kwargs r,
            on_adapter (IoValues command) (adapter_values E command kwargs) sa = (Ret r, s) ->
            values E fuel command kwargs s0 = (queue_failure first, set_lock false s2)) /\
        (forall command header_bytes dtype r,
            on_adapter (IoBinaryValues command)
                       (adapter_binary_values E command header_bytes dtype) sa = (Ret r, s) ->
            binary_values E fuel command header_bytes dtype s0
            = (queue_failure first, set_lock false s2))).
Proof.
  intros Hscpi Hwait Hdrain Hfuel.
  pose proof (flush_errors_drains fuel s s1 s2 errors Hscpi Hwait Hdrain Hfuel) as Hflush.
  pose proof (check_errors_after fuel s s2 errors Hflush) as Hcheck.
  split; [exact Hflush | split; [exact Hcheck | ]].
  intros first rest ->. unfold queue_failure. split.
  { eexists; eexists; reflexivity. }
  intros s0 sa Hlock Hwait0. cbn [app] in Hcheck.
  repeat split.
  - intros command r Hop. unfold ask, with_lock. rewrite Hlock.
    rewrite (bind_Ret _ _ _ _ _ Hwait0), (bind_Ret _ _ _ _ _ Hop).
    now rewrite (bind_Raise _ _ _ _ _ Hcheck).
  - intros command Hop. unfold write, with_lock. rewrite Hlock.
    rewrite (bind_Ret _ _ _ _ _ Hwait0), (bind_Ret _ _ _ _ _ Hop).
    now rewrite Hcheck.
  - intros r Hop. unfold read.
    now apply (transaction_fails _ _ fuel s0 sa s s2 r).
  - intros command kwargs r Hop. unfold values.
    now apply (transaction_fails _ _ fuel s0 sa s s2 r).
  - intros command header_bytes dtype r Hop. unfold binary_values.
    now apply (transaction_fails _ _ fuel s0 sa s s2 r).
Qed.

End Poll.


(** ** Decoding a reply, encoding a value *)

Lemma find_key_first items value k :
  first_key_for items value k -> find_key items value = Some k.
Proof.
  intros (before & v & after & -> & Hv & Hbefore).
  induction before as [ | [k0 v0] before IH]; simpl.
  - now rewrite Hv.
  - inversion Hbefore as [ | ? ? H0 Hrest]; subst. simpl in H0. rewrite H0.
    now apply IH.
Qed.

Lemma find_key_none items value :
  no_key_for items value -> find_key items value = None.
Proof.
  unfold no_key_for. induction 1 as [ | [k0 v0] rest H0 _ IH]; simpl.
  - reflexivity.
  - simpl in H0. now rewrite H0.
Qed.

Lemma getitem_nth (l : list atom) (i : Z) (a : atom) :
  0 <= i -> nth_error l (Z.to_nat i) = Some a -> Py.getitem l i = Ret a.
Proof.
  intros Hi Hnth. unfold Py.getitem.
  assert (Hlt : (Z.to_nat i < length l)%nat)
    by (apply nth_error_Some; congruence).
  replace (i <? 0) with false by (symmetry; apply Z.ltb_ge; lia).
  replace (0 <=? i) with true by (symmetry; apply Z.leb_le; lia).
  replace (i <? Z.of_nat (length l)) with true by (symmetry; apply Z.ltb_lt; lia).
  simpl. now rewrite Hnth.
Qed.

(** The mapped branch of [fget] for the three kinds of sequence. *)
Lemma fget_value_sequence max_str_digits (values_ map_values get_process : obj)
      token value v l :
  Py.call1 get_process (PAtom token) = Ret value ->
  Py.obj_truthy map_values = true ->
  values_ = OVal v ->
  Py.seq_items v = Some l ->
  fget_value max_str_digits values_ map_values get_process [token] =
  (do i <- Py.int max_str_digits value; do a <- Py.getitem l i; Ret (PAtom a)).
Proof.
  intros Hp Hm -> Hl. unfold fget_value. rewrite Hp. cbn [obind]. rewrite Hm.
  cbn [negb]. destruct v; simpl in Hl; try discriminate; now injection Hl as <-.
Qed.

Lemma fget_value_mapping max_str_digits (map_values get_process : obj)
      token value items :
  Py.call1 get_process (PAtom token) = Ret value ->
  Py.obj_truthy map_values = true ->
  fget_value max_str_digits (OVal (PDict items)) map_values get_process [token] =
  match find_key items value with
  | Some k => Ret (PAtom k)
  | None => Raise (KeyError value)
  end.
Proof.
  intros Hp Hm. unfold fget_value. rewrite Hp. cbn [obind]. now rewrite Hm.
Qed.

Section Reading.
Context {T : Type} (E : Env T).

Lemma fget_after_values fuel c kwargs (s s' : Instrument T) template command vals :
  Py.is_None (kwarg kwargs "get_command" (cmd_get_command c)) = false ->
  Py.as_val (kwarg kwargs "get_command" (cmd_get_command c)) = Ret template ->
  Py.call1 (kwarg kwargs "command_process" (cmd_command_process c)) template
    = Ret command ->
  values E fuel command (cmd_kwargs c) s = (Ret vals, s') ->
  fget E fuel c kwargs s =
  (fget_value (int_max_str_digits E) (kwarg kwargs "values" (cmd_values c))
              (kwarg kwargs "map_values" (cmd_map_values c))
              (kwarg kwargs "get_process" (cmd_get_process c)) vals, s').
Proof.
  intros Hnone Htemplate Hcommand Hvalues. unfold fget. rewrite Hnone.
  unfold bind at 1. unfold lift at 1. rewrite Htemplate.
  unfold bind at 1. unfold lift at 1. rewrite Hcommand.
  now rewrite (bind_Ret _ _ _ _ _ Hvalues).
Qed.

(** C4.  A read of a command that has a read template, whose [values]
    transaction returned the tokens [vals] and left the state [s'].  With
    exactly one token, on which [get_process] gives [value]: without value
    mapping the result is [value]; with value mapping and a sequence for
    [values] it is the element at index [int(value)]; with a mapping for
    [values] it is the first key whose value equals [value], and a
    [KeyError] when there is none.  With more than one token the result is
    [get_process] of the whole list, whatever [map_values] says. *)
Theorem C4_read_decodes_then_maps
    (fuel : nat) (c : Command) (kwargs : list (string * obj))
    (s s' : Instrument T) (template command : pyval) (vals : list atom) :
  Py.is_None (kwarg kwargs "get_command" (cmd_get_command c)) = false ->
  Py.as_val (kwarg kwargs "get_command" (cmd_get_command c)) = Ret template ->
  Py.call1 (kwarg kwargs "command_process" (cmd_command_process c)) template
    = Ret command ->
  values E fuel command (cmd_kwargs c) s = (Ret vals, s') ->
  (forall token value,
      vals = [token] ->
      Py.call1 (kwarg kwargs "get_process" (cmd_get_process c)) (PAtom token)
        = Ret value ->
      (Py.obj_truthy (kwarg kwargs "map_values" (cmd_map_values c)) = false ->
       fget E fuel c kwargs s = (Ret value, s')) /\
      (Py.obj_truthy (kwarg kwargs "map_values" (cmd_map_values c)) = true ->
       (forall v l i a,
           kwarg kwargs "values" (cmd_values c) = OVal v ->
           Py.seq_items v = Some l ->
           Py.int (int_max_str_digits E) value = Ret i ->
           0 <= i ->
           nth_error l (Z.to_nat i) = Some a ->
           fget E fuel c kwargs s = (Ret (PAtom a), s')) /\
       (forall items k,
           kwarg kwargs "values" (cmd_values c) = OVal (PDict items) ->
           first_key_for items value k ->
           fget E fuel c kwargs s = (Ret (PAtom k), s')) /\
       (forall items,
           kwarg kwargs "values" (cmd_values c) = OVal (PDict items) ->
           no_key_for items value ->
           fget E fuel c kwargs s = (Raise (KeyError value), s')))) /\
  ((1 < length vals)%nat ->
   fget E fuel c kwargs s =
   (Py.call1 (kwarg kwargs "get_process" (cmd_get_process c)) (PList vals), s')).
Proof.
  intros Hnone Htemplate Hcommand Hvalues.
  rewrite (fget_after_values fuel c kwargs s s' template command vals
             Hnone Htemplate Hcommand Hvalues).
  split.
  - intros token value -> Hp. split; [ | intros Hm; repeat split].
    + intros Hm. unfold fget_value. rewrite Hp. cbn [obind]. now rewrite Hm.
    + intros v l i a Hv Hl Hi Hpos Hnth.
      rewrite (fget_value_sequence _ _ _ _ token value v l Hp Hm Hv Hl).
      rewrite Hi. cbn [obind]. now rewrite (getitem_nth l i a Hpos Hnth).
    + intros items k Hv Hk. rewrite Hv.
      rewrite (fget_value_mapping _ _ _ token value items Hp Hm).
      now rewrite (find_key_first items value k Hk).
    + intros items Hv Hk. rewrite Hv.
      rewrite (fget_value_mapping _ _ _ token value items Hp Hm).
      now rewrite (find_key_none items value Hk).
  - intros Hlen. destruct vals as [ | t1 [ | t2 rest]]; simpl in Hlen; try lia.
    reflexivity.
Qed.

End Reading.

(** ** The round trip through a value mapping *)

Lemma atom_eq_refl a : Py.atom_eq a a = true.
Proof.
  destruct a; simpl;
    [reflexivity | apply Z.eqb_refl | apply Z.eqb_refl | apply String.eqb_refl].
Qed.

Lemma distinct_head_differs a rest b :
  distinct_atoms (a :: rest) -> In b rest -> Py.atom_eq a b = false.
Proof.
  intros [Hall _] Hin. rewrite Forall_forall in Hall. apply Hall.
  now apply list_elem_of_In.
Qed.

Lemma dict_get_own_code items k code :
  distinct_atoms (List.map fst items) -> In (k, code) items ->
  Py.dict_get items k = Some code.
Proof.
  induction items as [ | [k0 c0] rest IH]; intros Hd Hin; [contradiction | ].
  simpl. destruct Hin as [Heq | Hin].
  - injection Heq as -> ->. now rewrite atom_eq_refl.
  - simpl in Hd.
    rewrite (distinct_head_differs k0 (List.map fst rest) k Hd).
    + apply IH; [apply Hd | exact Hin].
    + apply in_map_iff. now exists (k, code).
Qed.

Lemma find_key_own_key items k code :
  distinct_atoms (List.map snd items) -> In (k, code) items ->
  find_key items (PAtom code) = Some k.
Proof.
  induction items as [ | [k0 c0] rest IH]; intros Hd Hin; [contradiction | ].
  simpl. destruct Hin as [Heq | Hin].
  - injection Heq as -> ->. now rewrite atom_eq_refl.
  - simpl in Hd.
    rewrite (distinct_head_differs c0 (List.map snd rest) code Hd).
    + apply IH; [apply Hd | exact Hin].
    + apply in_map_iff. now exists (k, code).
Qed.

Lemma index_from_own_position l a start :
  distinct_atoms l -> In a l ->
  exists n, Py.index_from l (PAtom a) start = Ret (start + Z.of_nat n) /\
            nth_error l n = Some a.
Proof.
  revert start. induction l as [ | b rest IH]; intros start Hd Hin; [contradiction | ].
  simpl. destruct Hin as [-> | Hin].
  - exists 0%nat. rewrite atom_eq_refl. split; [f_equal; lia | reflexivity].
  - rewrite (distinct_head_differs b rest a Hd Hin).
    destruct (IH (start + 1) (proj2 Hd) Hin) as (n & Hn & Hnth).
    exists (S n). split; [rewrite Hn; f_equal; lia | exact Hnth].
Qed.

Lemma sequence_round_trip max_str_digits (values_ map_values validator : obj)
      allowed l a :
  Py.obj_truthy map_values = true ->
  Py.as_val values_ = Ret allowed ->
  Py.call2 validator (PAtom a) allowed = Ret (PAtom a) ->
  Py.seq_items allowed = Some l ->
  distinct_atoms l -> In a l ->
  exists code,
    fset_value validator values_ map_values identity1 (PAtom a) = Ret (PAtom code) /\
    fget_value max_str_digits values_ map_values identity1 [code] = Ret (PAtom a).
Proof.
  intros Hm Ha Hv Hl Hd Hin.
  destruct values_ as [v | | | ]; try discriminate. injection Ha as ->.
  destruct (index_from_own_position l a 0 Hd Hin) as (n & Hn & Hnth).
  exists (AInt (Z.of_nat n)). split.
  - unfold fset_value. cbn [Py.as_val obind]. rewrite Hv. cbn [obind identity1 Py.call1].
    rewrite Hm. cbn [negb].
    destruct allowed; simpl in Hl; try discriminate; injection Hl as <-;
      unfold Py.index; now rewrite Hn.
  - rewrite (fget_value_sequence _ _ _ _ _ (PAtom (AInt (Z.of_nat n))) allowed l);
      try reflexivity; try assumption.
    cbn [Py.int obind].
    rewrite (getitem_nth l (Z.of_nat n) a); [reflexivity | lia | ].
    now rewrite Nat2Z.id.
Qed.

Lemma mapping_round_trip max_str_digits (map_values validator : obj) items k :
  Py.obj_truthy map_values = true ->
  Py.call2 validator (PAtom k) (PDict items) = Ret (PAtom k) ->
  bijective items -> In k (List.map fst items) ->
  exists code,
    fset_value validator (OVal (PDict items)) map_values identity1 (PAtom k)
      = Ret (PAtom code) /\
    fget_value max_str_digits (OVal (PDict items)) map_values identity1 [code]
      = Ret (PAtom k).
Proof.
  intros Hm Hv [Hkeys Hcodes] Hin.
  apply in_map_iff in Hin as ([k' code] & Hk & Hin). simpl in Hk. subst k'.
  exists code. split.
  - unfold fset_value. cbn [Py.as_val obind]. rewrite Hv. cbn [obind identity1 Py.call1].
    rewrite Hm. cbn [negb]. unfold Py.dict_getitem.
    now rewrite (dict_get_own_code items k code Hkeys Hin).
  - rewrite (fget_value_mapping _ _ _ code (PAtom code));
      try reflexivity; try assumption.
    now rewrite (find_key_own_key items k code Hcodes Hin).
Qed.

(** C5.  With value mapping on, the identity for both processors and a
    validator that passes [v] unchanged: if [values] is a one-to-one mapping
    and [v] one of its keys, or a sequence of pairwise different elements
    and [v] one of them, then the setter turns [v] into a wire code, and the
    getter turns a reply consisting of that code back into [v]. *)
Theorem C5_decoding_inverts_encoding
    (max_str_digits : nat) (validator values_ map_values : obj) (allowed v : pyval) :
  Py.obj_truthy map_values = true ->
  Py.as_val values_ = Ret allowed ->
  Py.call2 validator v allowed = Ret v ->
  (exists items k,
      allowed = PDict items /\ bijective items /\
      v = PAtom k /\ In k (List.map fst items)) \/
  (exists l a,
      Py.seq_items allowed = Some l /\ distinct_atoms l /\
      v = PAtom a /\ In a l) ->
  exists code,
    fset_value validator values_ map_values identity1 v = Ret (PAtom code) /\
    fget_value max_str_digits values_ map_values identity1 [code] = Ret v.
Proof.
  intros Hm Ha Hv [(items & k & -> & Hb & -> & Hin) | (l & a & Hl & Hd & -> & Hin)].
  - destruct values_ as [v | | | ]; try discriminate. injection Ha as ->.
    now apply mapping_round_trip.
  - now apply (sequence_round_trip _ values_ map_values validator allowed l a).
Qed.


(** ** What the methods leave alone *)

Section ViewFacts.
Context {T : Type}.

Lemma set_lock_same (s : Instrument T) : set_lock (_lock s) s = s.
Proof. now destruct s. Qed.

Lemma instance_of_is_view : object_view (instance_of (T:=T)).
Proof.
  repeat split; intros; unfold instance_of in *; simpl in *; congruence.
Qed.

Lemma fields_of_is_view : object_view (fields_of (T:=T)).
Proof.
  repeat split; intros; unfold fields_of in *; simpl in *; congruence.
Qed.

Lemma keeps_ret {A B} (f : Instrument T -> B) (a : A) : keeps f (ret a).
Proof. now intros s. Qed.

Lemma keeps_raise {A B} (f : Instrument T -> B) e : keeps f (raise (A:=A) e).
Proof. now intros s. Qed.

Lemma keeps_lift {A B} (f : Instrument T -> B) (o : outcome A) : keeps f (lift o).
Proof. now intros s. Qed.

Lemma keeps_gets {A B} (f : Instrument T -> B) (g : Instrument T -> A) :
  keeps f (gets g).
Proof. now intros s. Qed.

Lemma keeps_bind {A B C} (f : Instrument T -> C) (m : M T A) (k : A -> M T B) :
  keeps f m -> (forall a, keeps f (k a)) -> keeps f (bind m k).
Proof.
  intros Hm Hk s. unfold bind. specialize (Hm s).
  destruct (m s) as [[a | e | w] s']; simpl in *; try assumption.
  now rewrite Hk.
Qed.

Lemma keeps_pure {A B} (f : Instrument T -> B) (g : Instrument T -> outcome A) :
  keeps f (fun s => (g s, s)).
Proof. now intros s. Qed.

End ViewFacts.

Create HintDb keep.
#[export] Hint Resolve keeps_ret keeps_raise keeps_lift keeps_gets keeps_pure : keep.

Ltac keep_step :=
  match goal with
  | |- keeps _ (bind _ _) => apply keeps_bind; [ | intros ? ]
  | |- keeps _ (if ?c then _ else _) => destruct c
  | |- keeps _ (match ?x with _ => _ end) => destruct x
  | |- _ => solve [ auto with keep ]
  end.

Ltac keep := repeat keep_step.

Section Kept.
Context {T : Type} (E : Env T) (cls : Class).
Context {B : Type} (f : Instrument T -> B) (Hview : object_view f).

Lemma keeps_on_adapter {A} ev (op : T -> outcome A * T) : keeps f (on_adapter ev op).
Proof.
  destruct Hview as (Ha & Hl & _).
  intros s. unfold on_adapter. destruct (op (adapter s)). simpl.
  now rewrite Ha, Hl.
Qed.

Lemma keeps_sleep ms : keeps f (py_sleep E ms).
Proof. destruct Hview as (Ha & _). intros s. simpl. apply Ha. Qed.

Lemma keeps_with_lock {A} (body : M T A) : keeps f body -> keeps f (with_lock body).
Proof.
  destruct Hview as (_ & _ & Hlock).
  intros Hbody s. unfold with_lock. destruct (_lock s) eqn:Hs; [reflexivity | ].
  specialize (Hbody (set_lock true s)).
  destruct (body (set_lock true s)) as [r s']. simpl in *.
  rewrite (Hlock false _ _ Hbody).
  replace (set_lock false (set_lock true s)) with (set_lock (_lock s) s)
    by (rewrite Hs; reflexivity).
  now rewrite set_lock_same.
Qed.

Hint Resolve keeps_on_adapter keeps_sleep : keep.

Lemma keeps_ask_no_lock command : keeps f (ask_no_lock E command).
Proof. unfold ask_no_lock. keep. Qed.

Hint Resolve keeps_ask_no_lock : keep.

Lemma keeps_complete : keeps f (complete E).
Proof. unfold complete. keep. Qed.

Hint Resolve keeps_complete : keep.

Lemma keeps_wait_loop fuel timeout end_ : keeps f (wait_loop E fuel timeout end_).
Proof. induction fuel as [ | fuel IH]; simpl; unfold py_time; keep. Qed.

Hint Resolve keeps_wait_loop : keep.

Lemma keeps_wait_until_ready fuel timeout : keeps f (_wait_until_ready E fuel timeout).
Proof. unfold _wait_until_ready, py_time. keep. Qed.

Lemma keeps_flush_loop fuel errors : keeps f (flush_loop E fuel errors).
Proof. revert errors. induction fuel as [ | fuel IH]; intros errors; simpl; keep. Qed.

Hint Resolve keeps_wait_until_ready keeps_flush_loop : keep.

Lemma keeps_flush_errors fuel : keeps f (_flush_errors E fuel).
Proof. unfold _flush_errors. keep. Qed.

Hint Resolve keeps_flush_errors : keep.

Lemma keeps_check_errors fuel : keeps f (check_errors E fuel).
Proof. unfold check_errors. keep. Qed.

Hint Resolve keeps_check_errors : keep.

Lemma keeps_ask fuel command check : keeps f (ask E fuel command check).
Proof. unfold ask. apply keeps_with_lock. keep. Qed.

Lemma keeps_write fuel command : keeps f (write E fuel command).
Proof. unfold write. apply keeps_with_lock. keep. Qed.

Lemma keeps_read fuel : keeps f (read E fuel).
Proof. unfold read. apply keeps_with_lock. keep. Qed.

Lemma keeps_values fuel command kwargs : keeps f (values E fuel command kwargs).
Proof. unfold values. apply keeps_with_lock. keep. Qed.

Lemma keeps_binary_values fuel command header_bytes dtype :
  keeps f (binary_values E fuel command header_bytes dtype).
Proof. unfold binary_values. apply keeps_with_lock. keep. Qed.

Hint Resolve keeps_ask keeps_write keeps_read keeps_values keeps_binary_values : keep.

Lemma keeps_get_id fuel a : keeps f (get_id E fuel a).
Proof. unfold get_id. keep. Qed.

Lemma keeps_options fuel : keeps f (options E fuel).
Proof. unfold options. keep. Qed.

Lemma keeps_clear fuel : keeps f (clear E fuel).
Proof. unfold clear. keep. Qed.

Lemma keeps_reset fuel : keeps f (reset E fuel).
Proof. unfold reset. keep. Qed.

Lemma keeps_fget fuel c kwargs : keeps f (fget E fuel c kwargs).
Proof. unfold fget. keep. Qed.

Lemma keeps_fset fuel c kwargs value : keeps f (fset E fuel c kwargs value).
Proof. unfold fset. keep. Qed.

Hint Resolve keeps_fget keeps_fset keeps_get_id : keep.

Lemma keeps_DynamicProperty_get fuel property_name c :
  keeps f (DynamicProperty_get E cls fuel property_name c).
Proof. unfold DynamicProperty_get. keep. Qed.

Lemma keeps_DynamicProperty_set fuel property_name c value :
  keeps f (DynamicProperty_set E cls fuel property_name c value).
Proof. unfold DynamicProperty_set. keep. Qed.

Lemma keeps_discard {A} (m : M T A) : keeps f m -> keeps f (discard m).
Proof. intros H. unfold discard. keep. Qed.

Lemma keeps_invoke fuel m : assigns m = false -> keeps f (invoke E cls fuel m).
Proof.
  destruct m; simpl; intros Hm; try discriminate;
    try apply keeps_discard;
    auto using keeps_ask, keeps_ask_no_lock, keeps_write, keeps_read,
      keeps_values, keeps_binary_values, keeps_check_errors, keeps_flush_errors,
      keeps_wait_until_ready, keeps_complete, keeps_get_id, keeps_options,
      keeps_clear, keeps_reset, keeps_fget, keeps_fset, keeps_DynamicProperty_get,
      keeps_DynamicProperty_set.
Qed.

End Kept.

(** X1.  The calls of [method] other than [shutdown], [__exit__] and
    [status], that is the transactions [ask], [write], [read], [values] and
    [binary_values], [ask_no_lock], [check_errors], [_flush_errors],
    [_wait_until_ready], [complete], [get_id], [options], [clear], [reset]
    and the read and write accesses of a command, leave every attribute of
    the instrument as it was, whatever their outcome: name, dialect flag,
    health flag, shutdown flag, special names, the instance dictionary, and
    the lock, which a transaction has released again.  Only the adapter
    and the history of calls move.  (Construction and the assignment of an
    attribute, which are not calls of [method], do assign.) *)
Theorem X1_methods_leave_the_instrument_alone
    {T : Type} (E : Env T) (cls : Class) (fuel : nat) (m : method) (s : Instrument T) :
  assigns m = false ->
  instance_of (snd (invoke E cls fuel m s)) = instance_of s.
Proof.
  intros Hm. now apply (keeps_invoke E cls instance_of instance_of_is_view).
Qed.


(** ** Instruments outside the SCPI dialect *)

Section NonScpi.
Context {T : Type} (E : Env T) (cls : Class).

Lemma wait_without_scpi fuel timeout (s : Instrument T) :
  SCPI s = false -> (1 <= fuel)%nat ->
  _wait_until_ready E fuel timeout s = (not_implemented, s).
Proof.
  intros Hs Hfuel. destruct fuel as [ | fuel]; [lia | ].
  unfold _wait_until_ready, bind, py_time, gets. cbn [wait_loop].
  unfold bind, complete, bind, gets. now rewrite Hs.
Qed.

Lemma locked_body_fails {A} (body : M T A) (s : Instrument T) e :
  _lock s = false ->
  body (set_lock true s) = (Raise e, set_lock true s) ->
  with_lock body s = (Raise e, s).
Proof.
  intros Hl Hb. unfold with_lock. rewrite Hl, Hb. f_equal.
  destruct s; simpl in *; now subst.
Qed.

(** X2.  On an instrument constructed with [includeSCPI=False] every method
    that waits for readiness or checks the error queue raises
    [NotImplementedError] without a single call on the adapter and without
    changing anything: [ask] with error checking, [write], [read],
    [values], [binary_values], [check_errors], [_flush_errors], and with
    them [get_id], [options], [clear] and [reset]; and [__init__] itself
    raises it before any call on the adapter.  [ask] without error checking
    is the exception: it makes exactly the one call and hands back what the
    adapter answered. *)
Theorem X2_without_scpi_nothing_is_sent
    (fuel : nat) (s : Instrument T) :
  SCPI s = false ->
  _lock s = false ->
  (1 <= fuel)%nat ->
  (forall command, ask E fuel command true s = (not_implemented, s)) /\
  (forall command, write E fuel command s = (not_implemented, s)) /\
  read E fuel s = (not_implemented, s) /\
  (forall command kwargs, values E fuel command kwargs s = (not_implemented, s)) /\
  (forall command header_bytes dtype,
      binary_values E fuel command header_bytes dtype s = (not_implemented, s)) /\
  check_errors E fuel s = (not_implemented, s) /\
  _flush_errors E fuel s = (not_implemented, s) /\
  (forall a check, get_id_argument a = Ret check ->
                   get_id E fuel a s = (not_implemented, s)) /\
  options E fuel s = (not_implemented, s) /\
  clear E fuel s = (not_implemented, s) /\
  reset E fuel s = (not_implemented, s) /\
  (forall adapter0 name0,
      Instrument_init E cls fuel adapter0 name0 false =
      (not_implemented,
       mkInstrument adapter0 [] name0 false false false false None ∅)) /\
  (forall command,
      ask E fuel command false s =
      (fst (adapter_ask E command (adapter s)),
       set_adapter (snd (adapter_ask E command (adapter s)))
                   (log_io (IoAsk command) s))).
Proof.
  intros Hs Hl Hfuel.
  assert (Hwait : _wait_until_ready E fuel default_timeout (set_lock true s)
                  = (not_implemented, set_lock true s))
    by now apply wait_without_scpi.
  assert (Hflush : forall s0 : Instrument T,
             SCPI s0 = false -> _flush_errors E fuel s0 = (not_implemented, s0)).
  { intros s0 H0. unfold _flush_errors, bind, gets. now rewrite H0. }
  assert (Hnot : forall A (m : M T A),
             (let* scpi := gets SCPI in
              if scpi then m else raise (NotImplementedError non_scpi_message)) s
             = (not_implemented, s)).
  { intros A m. unfold bind, gets. now rewrite Hs. }
  repeat apply conj.
  - intros command. apply locked_body_fails; [exact Hl | ].
    now rewrite (bind_Raise _ _ _ _ _ Hwait).
  - intros command. apply locked_body_fails; [exact Hl | ].
    now rewrite (bind_Raise _ _ _ _ _ Hwait).
  - apply locked_body_fails; [exact Hl | ].
    now rewrite (bind_Raise _ _ _ _ _ Hwait).
  - intros command kwargs. apply locked_body_fails; [exact Hl | ].
    now rewrite (bind_Raise _ _ _ _ _ Hwait).
  - intros command header_bytes dtype. apply locked_body_fails; [exact Hl | ].
    now rewrite (bind_Raise _ _ _ _ _ Hwait).
  - unfold check_errors. now rewrite (bind_Raise _ _ _ _ _ (Hflush s Hs)).
  - now apply Hflush.
  - intros a check Ha. unfold get_id. unfold bind at 1. unfold lift. rewrite Ha.
    apply Hnot.
  - apply Hnot.
  - apply Hnot.
  - apply Hnot.
  - intros adapter0 name0. unfold Instrument_init.
    erewrite bind_Raise; [reflexivity | ]. now apply Hflush.
  - intros command. unfold ask, with_lock. rewrite Hl.
    unfold bind, ret, on_adapter. simpl.
    destruct (adapter_ask E command (adapter s)) as [[r | e | w] t]; simpl;
      f_equal; destruct s; simpl in *; now subst.
Qed.

End NonScpi.

(** ** The calls a transaction makes *)

Section Calls.
Context {T : Type} (E : Env T).

Lemma calls_between_refl (s : Instrument T) : calls_between s s [].
Proof. unfold calls_between. now rewrite app_nil_r. Qed.

Lemma calls_between_trans (s1 s2 s3 : Instrument T) c1 c2 :
  calls_between s1 s2 c1 -> calls_between s2 s3 c2 ->
  calls_between s1 s3 (c1 ++ c2).
Proof. unfold calls_between. intros H1 H2. now rewrite H2, H1, app_assoc. Qed.

Lemma calls_only_ret {A} p (a : A) : calls_only (T:=T) p (ret a).
Proof. intros s. exists []. split; [apply calls_between_refl | constructor]. Qed.

Lemma calls_only_raise {A} p e : calls_only (T:=T) p (raise (A:=A) e).
Proof. intros s. exists []. split; [apply calls_between_refl | constructor]. Qed.

Lemma calls_only_lift {A} p (o : outcome A) : calls_only (T:=T) p (lift o).
Proof. intros s. exists []. split; [apply calls_between_refl | constructor]. Qed.

Lemma calls_only_gets {A} p (g : Instrument T -> A) : calls_only p (gets g).
Proof. intros s. exists []. split; [apply calls_between_refl | constructor]. Qed.

Lemma calls_only_bind {A B} p (m : M T A) (k : A -> M T B) :
  calls_only p m -> (forall a, calls_only p (k a)) -> calls_only p (bind m k).
Proof.
  intros Hm Hk s. unfold bind. destruct (Hm s) as (c1 & H1 & P1).
  destruct (m s) as [[a | e | w] s']; simpl in *; try (now exists c1).
  destruct (Hk a s') as (c2 & H2 & P2). exists (c1 ++ c2)%list.
  split; [eapply calls_between_trans; eassumption | now apply Forall_app].
Qed.

Lemma calls_only_on_adapter {A} (p : io -> Prop) ev (op : T -> outcome A * T) :
  p ev -> calls_only p (on_adapter ev op).
Proof.
  intros Hp s. exists [ev]. unfold on_adapter, calls_between.
  destruct (op (adapter s)). simpl. split; [reflexivity | now repeat constructor].
Qed.

Lemma calls_only_sleep p ms : calls_only p (py_sleep E ms).
Proof.
  intros s. exists []. split; [ | constructor].
  unfold calls_between. simpl. now rewrite app_nil_r.
Qed.

Lemma calls_only_weaken {A} (p q : io -> Prop) (m : M T A) :
  (forall ev, p ev -> q ev) -> calls_only p m -> calls_only q m.
Proof.
  intros Hpq Hm s. destruct (Hm s) as (c & Hc & Hp). exists c.
  split; [exact Hc | ]. eapply Forall_impl; eassumption.
Qed.

End Calls.

Create HintDb calls.
#[export] Hint Resolve calls_only_ret calls_only_raise calls_only_lift
  calls_only_gets calls_only_sleep : calls.

Ltac calls_step :=
  match goal with
  | |- calls_only _ (bind _ _) => apply calls_only_bind; [ | intros ? ]
  | |- calls_only _ (if ?c then _ else _) => destruct c
  | |- calls_only _ (match ?x with _ => _ end) => destruct x
  | |- _ => solve [ auto with calls ]
  end.

Ltac calls := repeat calls_step.

Section Discipline.
Context {T : Type} (E : Env T).

Lemma complete_calls : calls_only is_opc (complete E).
Proof.
  unfold complete. calls. unfold ask_no_lock.
  now apply calls_only_on_adapter.
Qed.

Hint Resolve complete_calls : calls.

Lemma wait_loop_calls fuel timeout end_ :
  calls_only is_opc (wait_loop E fuel timeout end_).
Proof. induction fuel as [ | fuel IH]; simpl; unfold py_time; calls. Qed.

Hint Resolve wait_loop_calls : calls.

Lemma wait_calls fuel timeout : calls_only is_opc (_wait_until_ready E fuel timeout).
Proof. unfold _wait_until_ready, py_time. calls. Qed.

Lemma flush_loop_calls fuel errors :
  calls_only is_protocol_query (flush_loop E fuel errors).
Proof.
  revert errors. induction fuel as [ | fuel IH]; intros errors; simpl; calls.
  unfold ask_no_lock. apply calls_only_on_adapter. now right.
Qed.

Lemma check_errors_calls fuel : calls_only is_protocol_query (check_errors E fuel).
Proof.
  unfold check_errors, _flush_errors. calls.
  - apply calls_only_weaken with (p := is_opc); [now left | apply wait_calls].
  - apply flush_loop_calls.
Qed.

(** The body of a transaction: the wait, the call, then something that only
    queries. *)
Lemma transaction_calls {A B} ev (op : T -> outcome A * T) (k : A -> M T B)
      fuel (s : Instrument T) :
  (forall r, calls_only is_protocol_query (k r)) ->
  _lock s = false ->
  let m := with_lock (_wait_until_ready E fuel default_timeout ;;
                      let* r := on_adapter ev op in k r) in
  exists before call after,
    calls_between s (snd (m s)) (before ++ call ++ after) /\
    Forall is_opc before /\
    (call = [] \/ call = [ev]) /\
    Forall is_protocol_query after /\
    (call = [] -> after = []) /\
    (forall r, fst (m s) = Ret r -> call = [ev]).
Proof.
  intros Hk Hl m. subst m.
  set (body := _wait_until_ready E fuel default_timeout ;;
               let* r := on_adapter ev op in k r).
  assert (Hbody : exists before call after,
             calls_between (set_lock true s) (snd (body (set_lock true s)))
                           (before ++ call ++ after) /\
             Forall is_opc before /\
             (call = [] \/ call = [ev]) /\
             Forall is_protocol_query after /\
             (call = [] -> after = []) /\
             (forall r, fst (body (set_lock true s)) = Ret r -> call = [ev])).
  { subst body. unfold bind.
    destruct (wait_calls fuel default_timeout (set_lock true s)) as (c1 & H1 & P1).
    destruct (_wait_until_ready E fuel default_timeout (set_lock true s))
      as [[[] | e | w] s1]; simpl in H1 |- *.
    2, 3: exists c1, [], []; rewrite !app_nil_r;
          repeat apply conj; auto; intros r Hr; discriminate Hr.
    unfold on_adapter at 1 2.
    destruct (op (adapter s1)) as [[r | e | w] t]; simpl.
    2, 3: exists c1, [ev], []; rewrite app_nil_r;
          repeat apply conj; auto; try discriminate;
          unfold calls_between in *; simpl in *; rewrite H1; now rewrite <- app_assoc.
    set (s2 := set_adapter t (log_io ev s1)).
    destruct (Hk r s2) as (c3 & H3 & P3).
    exists c1, [ev], c3. destruct (k r s2) as [o s3]. simpl in *.
    repeat apply conj; auto; try discriminate.
    unfold calls_between in *. simpl in *. rewrite H3. subst s2. simpl.
    rewrite H1. now rewrite <- !app_assoc. }
  destruct Hbody as (before & call & after & Hc & Hrest).
  exists before, call, after. unfold with_lock. rewrite Hl.
  destruct (body (set_lock true s)) as [o s']. simpl in *.
  split; [exact Hc | exact Hrest].
Qed.

Lemma write_sends_once fuel command (s : Instrument T) :
  _lock s = false -> sends_once (write E fuel command) (IoWrite command) s.
Proof.
  intros Hl.
  apply (transaction_calls (IoWrite command) (adapter_write E command)
           (fun _ => check_errors E fuel) fuel s); auto.
  intros _. apply check_errors_calls.
Qed.

Lemma transaction_in_order {A B} ev (op : T -> outcome A * T) (k : A -> M T B)
      fuel (s : Instrument T) :
  (forall r s2, snd (k r s2) = snd (check_errors E fuel s2)) ->
  _lock s = false ->
  sends_in_order E fuel
    (with_lock (_wait_until_ready E fuel default_timeout ;;
                let* r := on_adapter ev op in k r))
    ev op s.
Proof.
  intros Hk Hl. unfold sends_in_order.
  destruct (wait_calls fuel default_timeout (set_lock true s)) as (waiting & H1 & P1).
  set (ready := _wait_until_ready E fuel default_timeout (set_lock true s)) in *.
  destruct (check_errors_calls fuel (snd (on_adapter ev op (snd ready))))
    as (checking & H3 & P3).
  exists waiting, checking.
  assert (H1' : calls_between s (snd ready) waiting) by exact H1.
  repeat apply conj; try assumption.
  unfold with_lock. rewrite Hl. unfold bind. fold ready.
  destruct ready as [[[] | e | w] s1]; cbn [fst snd] in *; try exact H1'.
  unfold on_adapter in *. destruct (op (adapter s1)) as [[r | e | w] t];
    cbn [fst snd] in *.
  - specialize (Hk r (set_adapter t (log_io ev s1))).
    destruct (k r (set_adapter t (log_io ev s1))) as [o s3]. cbn [fst snd] in *.
    subst s3. unfold calls_between in *. cbn [trace set_lock] in *.
    rewrite H3. cbn [trace set_adapter log_io]. rewrite H1'.
    now rewrite <- !app_assoc.
  - unfold calls_between in *. cbn [trace set_lock set_adapter log_io] in *.
    now rewrite H1', <- app_assoc.
  - unfold calls_between in *. cbn [trace set_lock set_adapter log_io] in *.
    now rewrite H1', <- app_assoc.
Qed.

Lemma check_then_ret_state {A} fuel (r : A) (s : Instrument T) :
  snd ((check_errors E fuel ;; ret r) s) = snd (check_errors E fuel s).
Proof. unfold bind. now destruct (check_errors E fuel s) as [[[] | e | w] s']. Qed.

(** X3.  The calls that a transaction makes on the adapter, whatever its
    outcome, when the lock is free: the completion queries of the
    readiness wait; then its own call, made exactly when the wait returned
    and right after it; then the completion and error queries of the error
    check, made exactly when the own call returned.  So a command is sent
    at most once, never before the readiness wait has passed, and the
    error check follows every call that returned. *)
Theorem X3_transactions_call_the_adapter_once
    (fuel : nat) (s : Instrument T) :
  _lock s = false ->
  (forall command,
      sends_in_order E fuel (ask E fuel command true) (IoAsk command)
                     (adapter_ask E command) s) /\
  (forall command,
      sends_in_order E fuel (write E fuel command) (IoWrite command)
                     (adapter_write E command) s) /\
  sends_in_order E fuel (read E fuel) IoRead (adapter_read E) s /\
  (forall command kwargs,
      sends_in_order E fuel (values E fuel command kwargs) (IoValues command)
                     (adapter_values E command kwargs) s) /\
  (forall command header_bytes dtype,
      sends_in_order E fuel (binary_values E fuel command header_bytes dtype)
                     (IoBinaryValues command)
                     (adapter_binary_values E command header_bytes dtype) s).
Proof.
  intros Hl. repeat apply conj; intros.
  - apply (transaction_in_order (IoAsk command) (adapter_ask E command)
             (fun r => check_errors E fuel ;; ret r) fuel s); auto.
    intros r s2. apply check_then_ret_state.
  - apply (transaction_in_order (IoWrite command) (adapter_write E command)
             (fun _ => check_errors E fuel) fuel s); auto.
  - apply (transaction_in_order IoRead (adapter_read E)
             (fun r => check_errors E fuel ;; ret r) fuel s); auto.
    intros r s2. apply check_then_ret_state.
  - apply (transaction_in_order (IoValues command) (adapter_values E command kwargs)
             (fun r => check_errors E fuel ;; ret r) fuel s); auto.
    intros r s2. apply check_then_ret_state.
  - apply (transaction_in_order (IoBinaryValues command)
             (adapter_binary_values E command header_bytes dtype)
             (fun r => check_errors E fuel ;; ret r) fuel s); auto.
    intros r s2. apply check_then_ret_state.
Qed.

End Discipline.


(** ** What a returned wait and a returned drain tell *)

Section Soundness.
Context {T : Type} (E : Env T).

Lemma flush_loop_sound fuel :
  forall seen (s s' : Instrument T) result,
    flush_loop E fuel seen s = (Ret result, s') ->
    exists errors,
      result = (seen ++ errors)%list /\ drains E s errors s' /\
      (length errors < fuel)%nat.
Proof.
  induction fuel as [ | fuel IH]; intros seen s s' result H.
  - discriminate H.
  - cbn [flush_loop] in H. unfold bind in H.
    destruct (ask_no_lock E (AStr "SYST:ERR?") s) as [[reply | e | w] s1] eqn:Hask;
      try discriminate H.
    destruct (Py.startswith reply "+0") eqn:Hzero; cbn [negb] in H.
    + injection H as <- <-. exists []. rewrite app_nil_r.
      split; [reflexivity | split; [ | simpl; lia]].
      now apply drains_sentinel with (reply := reply).
    + destruct (IH _ _ _ _ H) as (errors & -> & Hd & Hlen).
      exists (reply :: errors). rewrite <- app_assoc.
      split; [reflexivity | split; [ | simpl; lia]].
      now apply drains_error with (s1 := s1).
Qed.

Lemma flush_errors_needs_scpi fuel (s s' : Instrument T) errors :
  _flush_errors E fuel s = (Ret errors, s') -> SCPI s = true.
Proof.
  unfold _flush_errors, bind, gets. now destruct (SCPI s).
Qed.

(** X4.  Whenever [_flush_errors] returns a list, the instrument is of the
    SCPI dialect, the readiness wait had passed, and the list is exactly the
    replies to the error query up to the first one that begins with [+0],
    in order; [check_errors] then returns exactly when that list is empty.
    So a transaction that returns has seen the no-error reply. *)
Theorem X4_a_returned_drain_saw_the_sentinel
    (fuel : nat) (s s' : Instrument T) (errors : list string) :
  _flush_errors E fuel s = (Ret errors, s') ->
  SCPI s = true /\
  (exists s1,
      _wait_until_ready E fuel default_timeout s = (Ret tt, s1) /\
      drains E s1 errors s') /\
  (length errors < fuel)%nat /\
  check_errors E fuel s =
    (match errors with
     | [] => Ret tt
     | first :: _ => Raise (RuntimeError (error_queue_message first))
     end, s').
Proof.
  intros H. pose proof (check_errors_after E fuel s s' errors H) as Hcheck.
  unfold _flush_errors, bind, gets in H.
  destruct (SCPI s); [ | discriminate H].
  destruct (_wait_until_ready E fuel default_timeout s) as [[[] | e | w] s1];
    try discriminate H.
  destruct (flush_loop_sound fuel [] s1 s' errors H) as (errs & Heq & Hd & Hlen).
  simpl in Heq. subst errs.
  repeat apply conj; try assumption; try reflexivity.
  now exists s1.
Qed.

Lemma wait_loop_sound timeout end_ fuel :
  forall s s' : Instrument T,
    wait_loop E fuel timeout end_ s = (Ret tt, s') ->
    exists n, (n <= fuel)%nat /\ completes_within E end_ s n s'.
Proof.
  induction fuel as [ | fuel IH]; intros s s' H.
  - discriminate H.
  - cbn [wait_loop] in H. unfold bind at 1 in H.
    destruct (complete E s) as [[done | e | w] s1] eqn:Hc; try discriminate H.
    destruct (Py.atom_truthy done) eqn:Hdone; cbn [negb] in H.
    + injection H as <-. exists 1%nat. split; [lia | ].
      now apply completes_now with (done := done).
    + unfold bind at 1 in H. unfold py_time, gets in H.
      destruct (end_ <? time E (adapter s1)) eqn:Hlate; [discriminate H | ].
      unfold bind at 1 in H. unfold py_sleep, modify in H.
      destruct (IH _ _ H) as (n & Hn & Hcw).
      exists (S n). split; [lia | ].
      apply completes_later with (done := done) (s1 := s1); try assumption.
      now apply Z.ltb_ge.
Qed.

(** X5.  [_wait_until_ready] returns only if a poll reported complete: when
    it returns, some poll within the fuel was answered with a true
    completion status, every poll before it was not, and each of those was
    checked against the clock no later than the deadline. *)
Theorem X5_a_returned_wait_saw_completion
    (fuel : nat) (timeout : Z) (s s' : Instrument T) :
  _wait_until_ready E fuel timeout s = (Ret tt, s') ->
  exists n, (1 <= n <= fuel)%nat /\
            completes_within E (now_ E s + timeout) s n s'.
Proof.
  unfold _wait_until_ready, bind, py_time, gets. intros H.
  destruct (wait_loop_sound _ _ _ _ _ H) as (n & Hn & Hc).
  exists n. split; [ | exact Hc]. split; [ | exact Hn].
  destruct Hc; lia.
Qed.

End Soundness.

(** ** Construction *)

Section Construction.
Context {T : Type} (E : Env T) (cls : Class).

Lemma keeps_object_setattr fuel attr value :
  keeps (fields_of (T:=T)) (object_setattr E cls fuel attr value).
Proof.
  unfold object_setattr.
  destruct (Py.contains declared_names attr); [apply keeps_lift | ].
  destruct (class_lookup (mro cls) attr) as [[c | c | o] | ].
  - apply keeps_bind; [apply keeps_lift | intros v].
    apply keeps_DynamicProperty_set, fields_of_is_view.
  - apply keeps_bind; [apply keeps_lift | intros v].
    apply keeps_fset, fields_of_is_view.
  - destruct (language_name attr); [apply keeps_lift | now intros s].
  - destruct (language_name attr); [apply keeps_lift | now intros s].
Qed.

Lemma keeps_Instrument_setattr fuel attr value :
  keeps (fields_of (T:=T)) (Instrument_setattr E cls fuel attr value).
Proof.
  unfold Instrument_setattr. apply keeps_bind; [apply keeps_gets | intros special].
  apply keeps_object_setattr.
Qed.

Lemma keeps_copy_class_variables fuel special d :
  keeps (fields_of (T:=T)) (copy_class_variables E cls fuel special d).
Proof.
  induction d as [ | [attr a] rest IH]; simpl; [apply keeps_ret | ].
  apply keeps_bind; [ | intros _; exact IH].
  destruct (Py.contains special attr);
    [apply keeps_Instrument_setattr | apply keeps_ret].
Qed.

Lemma keeps_copy_along_mro fuel special m :
  keeps (fields_of (T:=T)) (copy_along_mro E cls fuel special m).
Proof.
  induction m as [ | d rest IH]; simpl; [apply keeps_ret | ].
  apply keeps_bind; [apply keeps_copy_class_variables | intros _; exact IH].
Qed.

(** *** The class-level overrides copied at construction *)

Lemma dict_lookup_In d nm a : dict_lookup d nm = Some a -> In (nm, a) d.
Proof.
  induction d as [ | [k x] rest IH]; simpl; [discriminate | ].
  destruct (String.eqb k nm) eqn:Hk.
  - apply String.eqb_eq in Hk. subst. intros [= ->]. now left.
  - intros H. right. now apply IH.
Qed.

Lemma dict_lookup_absent d nm :
  ~ In nm (List.map fst d) -> dict_lookup d nm = None.
Proof.
  induction d as [ | [k x] rest IH]; simpl; [reflexivity | ].
  intros H. destruct (String.eqb k nm) eqn:Hk.
  - apply String.eqb_eq in Hk. tauto.
  - apply IH. tauto.
Qed.

Lemma class_lookup_In m nm a :
  class_lookup m nm = Some a -> exists d, In d m /\ In (nm, a) d.
Proof.
  induction m as [ | d rest IH]; simpl; [discriminate | ].
  destruct (dict_lookup d nm) as [x | ] eqn:Hd.
  - intros [= ->]. exists d. split; [now left | now apply dict_lookup_In].
  - intros H. destruct (IH H) as (d' & Hin & Hd'). exists d'. split; [now right | exact Hd'].
Qed.

Lemma class_lookup_app m1 m2 nm :
  class_lookup (m1 ++ m2) nm =
  match class_lookup m1 nm with
  | Some a => Some a
  | None => class_lookup m2 nm
  end.
Proof.
  induction m1 as [ | d rest IH]; simpl; [reflexivity | ].
  now destruct (dict_lookup d nm).
Qed.

Lemma class_lookup_reserved (x : string) :
  reserved_free cls -> class_lookup (mro cls) (reserved_prefix +:+ x) = None.
Proof.
  intros Hfree. destruct (class_lookup _ _) as [a | ] eqn:H; [ | reflexivity].
  apply class_lookup_In in H as (d & Hd & Hin).
  destruct (Hfree d Hd) as [_ Hp]. specialize (Hp _ Hin). cbn [fst] in Hp.
  now rewrite reserved_prefix_prefix in Hp.
Qed.

Lemma reserved_injective (x y : string) :
  reserved_prefix +:+ x = reserved_prefix +:+ y -> x = y.
Proof. unfold reserved_prefix. cbn. intros H. now injection H. Qed.

Lemma setattr_during_construction fuel x v (s : Instrument T) :
  reserved_free cls -> _special_names s = None ->
  Instrument_setattr E cls fuel (reserved_prefix +:+ x) v s =
  (Ret tt, set_attrs (<[reserved_prefix +:+ x := v]> (attrs s)) s).
Proof.
  intros Hfree Hs. unfold Instrument_setattr, bind, gets. rewrite Hs.
  unfold object_setattr.
  now rewrite reserved_not_declared, class_lookup_reserved, reserved_not_language.
Qed.

Lemma copy_class_variables_snapshot fuel special d :
  reserved_free cls ->
  forall s : Instrument T,
    _special_names s = None ->
    copy_class_variables E cls fuel special d s =
    (Ret tt, set_attrs (snapshot_dict special (attrs s) d) s).
Proof.
  intros Hfree. induction d as [ | [attr a] rest IH]; intros s Hs.
  - simpl. unfold ret. f_equal. now destruct s.
  - cbn [copy_class_variables]. unfold snapshot_dict. cbn [fold_left fst snd].
    destruct (Py.contains special attr).
    + rewrite (bind_Ret _ _ _ _ _ (setattr_during_construction fuel attr _ s Hfree Hs)).
      now rewrite IH.
    + unfold bind, ret. now rewrite IH.
Qed.

Lemma copy_along_mro_snapshot fuel special m :
  reserved_free cls ->
  forall s : Instrument T,
    _special_names s = None ->
    copy_along_mro E cls fuel special m s =
    (Ret tt, set_attrs (snapshot special m (attrs s)) s).
Proof.
  intros Hfree. induction m as [ | d rest IH]; intros s Hs.
  - simpl. unfold ret. f_equal. now destruct s.
  - cbn [copy_along_mro]. unfold snapshot. cbn [fold_left].
    rewrite (bind_Ret _ _ _ _ _ (copy_class_variables_snapshot fuel special d Hfree s Hs)).
    now rewrite IH.
Qed.

Lemma snapshot_dict_lookup special (nm : string) d :
  NoDup (List.map fst d) ->
  forall a : gmap string obj,
    snapshot_dict special a d !! (reserved_prefix +:+ nm) =
    match (if Py.contains special nm then dict_lookup d nm else None) with
    | Some x => Some (attr_object x)
    | None => a !! (reserved_prefix +:+ nm)
    end.
Proof.
  induction d as [ | [k x] rest IH]; intros Hnd a.
  - simpl. now destruct (Py.contains special nm).
  - inversion Hnd as [ | ? ? Hk Hrest]; subst.
    unfold snapshot_dict. cbn [fold_left fst snd].
    fold (snapshot_dict special
            (if Py.contains special k
             then <[reserved_prefix +:+ k := attr_object x]> a else a) rest).
    rewrite (IH Hrest). cbn [dict_lookup].
    destruct (String.eqb k nm) eqn:Hkn.
    + apply String.eqb_eq in Hkn. subst k.
      rewrite (dict_lookup_absent rest nm)
        by (intros Hin; apply Hk; now apply list_elem_of_In).
      destruct (Py.contains special nm); [ | reflexivity].
      apply lookup_insert_eq.
    + assert (Hne : reserved_prefix +:+ k <> reserved_prefix +:+ nm).
      { intros Heq. apply reserved_injective in Heq. subst.
        now rewrite String.eqb_refl in Hkn. }
      destruct (if Py.contains special nm then dict_lookup rest nm else None);
        [reflexivity | ].
      destruct (Py.contains special k); [ | reflexivity].
      now apply lookup_insert_ne.
Qed.

Lemma snapshot_lookup special (nm : string) m :
  (forall d, In d m -> NoDup (List.map fst d)) ->
  Py.contains special nm = true ->
  forall a : gmap string obj,
    snapshot special m a !! (reserved_prefix +:+ nm) =
    match class_lookup (rev m) nm with
    | Some x => Some (attr_object x)
    | None => a !! (reserved_prefix +:+ nm)
    end.
Proof.
  intros Hnd Hsp. induction m as [ | d rest IH]; intros a; [reflexivity | ].
  unfold snapshot. cbn [fold_left]. fold (snapshot special rest (snapshot_dict special a d)).
  rewrite IH by (intros d' Hd'; apply Hnd; now right).
  cbn [rev]. rewrite class_lookup_app. cbn [class_lookup].
  destruct (class_lookup (rev rest) nm); [reflexivity | ].
  rewrite snapshot_dict_lookup by (apply Hnd; now left).
  rewrite Hsp. now destruct (dict_lookup d nm).
Qed.

Lemma get_id_is_stripped_reply fuel (s s' : Instrument T) reply :
  SCPI s = true ->
  ask E fuel (AStr "*IDN?") true s = (Ret reply, s') ->
  get_id E fuel Omitted s = (Ret (Py.strip reply), s').
Proof.
  intros Hs Hask. unfold get_id. unfold bind at 1. unfold lift. cbn [get_id_argument].
  unfold bind at 1. unfold gets. rewrite Hs.
  now rewrite (bind_Ret _ _ _ _ _ Hask).
Qed.

Lemma get_id_needs_reply fuel (s s' : Instrument T) idn :
  get_id E fuel Omitted s = (Ret idn, s') ->
  exists reply, ask E fuel (AStr "*IDN?") true s = (Ret reply, s').
Proof.
  unfold get_id. unfold bind at 1. unfold lift. cbn [get_id_argument].
  unfold bind at 1. unfold gets. destruct (SCPI s); [ | discriminate].
  unfold bind, ret.
  destruct (ask E fuel (AStr "*IDN?") true s) as [[reply | e | w] s1];
    try discriminate.
  intros [= _ <-]. now exists reply.
Qed.

(** X6.  Construction, for a class hierarchy that keeps clear of the
    reserved prefix.  [__init__] returns exactly when its draining of the
    error queue returns and the identification query [*IDN?], sent as a
    checked transaction, then returns a reply.  Whatever that reply is,
    the instrument is then of the SCPI dialect, carries the name it was
    given, has its lock free and its shutdown flag false, holds the
    special names of its class and the copy of the class-level overrides,
    and its health flag says whether the stripped reply begins with the
    prefix of the class: a reply that does not match clears the flag and
    does not make construction fail. *)
Theorem X6_a_constructed_instrument
    (fuel : nat) (adapter0 : T) (name0 : string) (includeSCPI : bool) :
  reserved_free cls ->
  (forall errors s1 reply s2,
      _flush_errors E fuel (blank adapter0 name0 includeSCPI) = (Ret errors, s1) ->
      ask E fuel (AStr "*IDN?") true s1 = (Ret reply, s2) ->
      Instrument_init E cls fuel adapter0 name0 includeSCPI =
      (Ret tt,
       mkInstrument (adapter s2) (trace s2) name0 true false
                    (Py.startswith (Py.strip reply) (id_starts_with cls)) false
                    (Some (class_special_names cls))
                    (snapshot (class_special_names cls) (mro cls) ∅))) /\
  (forall s,
      Instrument_init E cls fuel adapter0 name0 includeSCPI = (Ret tt, s) ->
      exists errors s1 reply s2,
        _flush_errors E fuel (blank adapter0 name0 includeSCPI) = (Ret errors, s1) /\
        ask E fuel (AStr "*IDN?") true s1 = (Ret reply, s2)).
Proof.
  intros Hfree. split.
  - intros errors s1 reply s2 Hflush Hask.
    pose proof (keeps_flush_errors E instance_of instance_of_is_view fuel
                  (blank adapter0 name0 includeSCPI)) as K1.
    pose proof (keeps_ask E instance_of instance_of_is_view fuel
                  (AStr "*IDN?") true s1) as K2.
    rewrite Hflush in K1. rewrite Hask in K2. cbn [snd] in K1, K2.
    pose proof (flush_errors_needs_scpi E fuel _ _ _ Hflush) as Hscpi.
    cbn [blank SCPI] in Hscpi. subst includeSCPI.
    unfold instance_of in K1, K2. cbn [blank name SCPI _lock communication_success
                                         isShutdown _special_names attrs] in K1.
    injection K1 as N1 S1 L1 C1 D1 P1 A1. injection K2 as N2 S2 L2 C2 D2 P2 A2.
    unfold Instrument_init. fold (blank adapter0 name0 true).
    rewrite (bind_Ret _ _ _ _ _ Hflush).
    rewrite (bind_Ret _ _ _ _ _
               (get_id_is_stripped_reply fuel s1 s2 reply S1 Hask)).
    unfold bind at 1. unfold modify at 1.
    unfold bind at 1. unfold modify at 1.
    set (s3 := set_isShutdown false
                 (set_communication_success
                    (Py.startswith (Py.strip reply) (id_starts_with cls)) s2)).
    assert (P3 : _special_names s3 = None) by (simpl; congruence).
    unfold _setup_special_names.
    unfold bind at 1.
    rewrite (bind_Ret _ _ _ _ _ (copy_along_mro_snapshot fuel _ _ Hfree s3 P3)).
    unfold ret, modify. f_equal.
    subst s3. destruct s2. cbn in *.
    unfold set_special_names, set_attrs, set_isShutdown, set_communication_success.
    cbn. f_equal; congruence.
  - intros s H. unfold Instrument_init in H. fold (blank adapter0 name0 includeSCPI) in H.
    unfold bind at 1 in H.
    destruct (_flush_errors E fuel (blank adapter0 name0 includeSCPI))
      as [[errors | e | w] s1] eqn:Hflush; try discriminate H.
    unfold bind at 1 in H.
    destruct (get_id E fuel Omitted s1) as [[idn | e | w] s2] eqn:Hid;
      try discriminate H.
    destruct (get_id_needs_reply fuel s1 s2 idn Hid) as (reply & Hask).
    now exists errors, s1, reply, s2.
Qed.

(** X7.  Which class-level override a constructed instrument holds.  For a
    class hierarchy that keeps clear of the reserved prefix: after
    [__init__], the instance dictionary is the copy made by
    [_setup_special_names], and for every special name the reserved slot
    holds what lookup along the method resolution order read backwards
    finds, that is the value of the least derived class that declares the
    name; when no class declares it there is no slot. *)
Theorem X7_construction_copies_class_overrides
    (fuel : nat) (adapter0 : T) (name0 : string) (includeSCPI : bool)
    (s : Instrument T) :
  reserved_free cls ->
  Instrument_init E cls fuel adapter0 name0 includeSCPI = (Ret tt, s) ->
  attrs s = snapshot (class_special_names cls) (mro cls) ∅ /\
  forall n,
    In n (class_special_names cls) ->
    attrs s !! (reserved_prefix +:+ n) =
    attr_object <$> class_lookup (rev (mro cls)) n.
Proof.
  intros Hfree H.
  assert (Hattrs : attrs s = snapshot (class_special_names cls) (mro cls) ∅).
  { unfold Instrument_init in H.
    set (s0 := mkInstrument adapter0 [] name0 includeSCPI false false false None ∅) in H.
    unfold bind at 1 in H.
    pose proof (keeps_flush_errors E instance_of instance_of_is_view fuel s0) as K1.
    destruct (_flush_errors E fuel s0) as [[errors | e | w] s1]; try discriminate H.
    unfold bind at 1 in H.
    pose proof (keeps_get_id E instance_of instance_of_is_view fuel Omitted s1) as K2.
    destruct (get_id E fuel Omitted s1) as [[idn | e | w] s2]; try discriminate H.
    unfold bind at 1 in H. unfold modify at 1 in H.
    unfold bind at 1 in H. unfold modify at 1 in H.
    set (s3 := set_isShutdown false
                 (set_communication_success
                    (Py.startswith idn (id_starts_with cls)) s2)) in H.
    unfold bind at 1 in H. unfold _setup_special_names in H.
    simpl in K1, K2. unfold instance_of in K1, K2. simpl in K1, K2.
    injection K1 as N1 S1 L1 C1 D1 P1 A1. injection K2 as N2 S2 L2 C2 D2 P2 A2.
    assert (P3 : _special_names s3 = None) by (simpl; congruence).
    rewrite (bind_Ret _ _ _ _ _
               (copy_along_mro_snapshot fuel _ _ Hfree s3 P3)) in H.
    unfold ret, modify in H. injection H as <-. simpl. congruence. }
  split; [exact Hattrs | ].
  intros n Hn. rewrite Hattrs.
  rewrite (snapshot_lookup (class_special_names cls) n (mro cls)).
  - unfold class_dict.
    match goal with
    | |- context [class_lookup ?m n] => destruct (class_lookup m n)
    end; simpl; [reflexivity | apply lookup_empty].
  - intros d Hd. now apply Hfree.
  - now apply contains_In.
Qed.

End Construction.


(** ** Values that cannot be mapped *)

Lemma dict_get_none items k : no_key_equal items k -> Py.dict_get items k = None.
Proof.
  unfold no_key_equal. induction 1 as [ | [k0 c0] rest H0 _ IH]; simpl.
  - reflexivity.
  - simpl in H0. now rewrite H0.
Qed.

Lemma index_from_none l v start :
  no_element_equal l v ->
  Py.index_from l v start = Raise (ValueError "value is not in the sequence").
Proof.
  unfold no_element_equal. intros H. revert start.
  induction H as [ | a rest H0 _ IH]; intros start; simpl.
  - reflexivity.
  - rewrite H0. apply IH.
Qed.

Section Unmapped.
Context {T : Type} (E : Env T).

(** X8.  A write with value mapping on, of a value that passed the
    validator and [set_process] but has no entry: with a mapping for
    [values] and no key equal to the value the setter raises [KeyError]
    for that value; with a sequence and no element equal to it, the
    [ValueError] of [index]; with a [values] that is neither (a number, a
    string, [None]) the [ValueError] that names its type.  In each case the
    instrument is exactly as before: nothing was sent. *)
Theorem X8_a_value_without_entry_is_not_written
    (fuel : nat) (c : Command) (kwargs : list (string * obj))
    (value allowed valid processed : pyval) (s : Instrument T) :
  Py.is_None (kwarg kwargs "set_command" (cmd_set_command c)) = false ->
  Py.as_val (kwarg kwargs "values" (cmd_values c)) = Ret allowed ->
  Py.call2 (kwarg kwargs "validator" (cmd_validator c)) value allowed = Ret valid ->
  Py.call1 (kwarg kwargs "set_process" (cmd_set_process c)) valid = Ret processed ->
  Py.obj_truthy (kwarg kwargs "map_values" (cmd_map_values c)) = true ->
  (forall items k,
      allowed = PDict items -> processed = PAtom k -> no_key_equal items k ->
      fset E fuel c kwargs value s = (Raise (KeyError processed), s)) /\
  (forall l,
      Py.seq_items allowed = Some l -> no_element_equal l processed ->
      fset E fuel c kwargs value s
      = (Raise (ValueError "value is not in the sequence"), s)) /\
  (forall a,
      allowed = PAtom a ->
      fset E fuel c kwargs value s
      = (Raise (ValueError (not_allowed_message
                              (kwarg kwargs "values" (cmd_values c)))), s)).
Proof.
  intros Hset Ha Hv Hp Hm.
  assert (Hfset : forall e,
             fset_value (kwarg kwargs "validator" (cmd_validator c))
                        (kwarg kwargs "values" (cmd_values c))
                        (kwarg kwargs "map_values" (cmd_map_values c))
                        (kwarg kwargs "set_process" (cmd_set_process c)) value
             = Raise e ->
             fset E fuel c kwargs value s = (Raise e, s)).
  { intros e He. unfold fset. rewrite Hset. apply bind_Raise. unfold lift.
    now rewrite He. }
  repeat apply conj.
  - intros items k -> -> Hk. apply Hfset. unfold fset_value.
    rewrite Ha. cbn [obind]. rewrite Hv. cbn [obind]. rewrite Hp. cbn [obind].
    rewrite Hm. cbn [negb]. unfold Py.dict_getitem.
    now rewrite (dict_get_none items k Hk).
  - intros l Hl Hnone. apply Hfset. unfold fset_value.
    rewrite Ha. cbn [obind]. rewrite Hv. cbn [obind]. rewrite Hp. cbn [obind].
    rewrite Hm. cbn [negb].
    destruct allowed; simpl in Hl; try discriminate; injection Hl as <-;
      unfold Py.index; now rewrite (index_from_none _ processed 0 Hnone).
  - intros a ->. apply Hfset. unfold fset_value.
    rewrite Ha. cbn [obind]. rewrite Hv. cbn [obind]. rewrite Hp. cbn [obind].
    now rewrite Hm.
Qed.

(** X9.  A mapped read against a sequence indexes it the way Python does.
    The reply is one token, on which [get_process] gives [value], and
    [values] has [n] elements.  When [int(value)] is the integer [i]: an
    index from [0] to [n - 1] gives that element, an index from [-n] to
    [-1] counts from the end, and any other index raises [IndexError] (so
    against the default [values=()] every index does).  When [int(value)]
    raises, the read raises the same exception.  In each case the state is
    the one the [values] transaction left. *)
Theorem X9_mapped_read_indexes_like_python
    (fuel : nat) (c : Command) (kwargs : list (string * obj))
    (s s' : Instrument T) (template command value v : pyval)
    (token : atom) (l : list atom) :
  Py.is_None (kwarg kwargs "get_command" (cmd_get_command c)) = false ->
  Py.as_val (kwarg kwargs "get_command" (cmd_get_command c)) = Ret template ->
  Py.call1 (kwarg kwargs "command_process" (cmd_command_process c)) template
    = Ret command ->
  values E fuel command (cmd_kwargs c) s = (Ret [token], s') ->
  Py.call1 (kwarg kwargs "get_process" (cmd_get_process c)) (PAtom token) = Ret value ->
  Py.obj_truthy (kwarg kwargs "map_values" (cmd_map_values c)) = true ->
  kwarg kwargs "values" (cmd_values c) = OVal v ->
  Py.seq_items v = Some l ->
  (forall i,
      Py.int (int_max_str_digits E) value = Ret i ->
      (0 <= i < Z.of_nat (length l) ->
       exists a, nth_error l (Z.to_nat i) = Some a /\
                 fget E fuel c kwargs s = (Ret (PAtom a), s')) /\
      (- Z.of_nat (length l) <= i < 0 ->
       exists a, nth_error l (Z.to_nat (i + Z.of_nat (length l))) = Some a /\
                 fget E fuel c kwargs s = (Ret (PAtom a), s')) /\
      (i < - Z.of_nat (length l) \/ Z.of_nat (length l) <= i ->
       fget E fuel c kwargs s = (Raise IndexError, s'))) /\
  (forall e,
      Py.int (int_max_str_digits E) value = Raise e ->
      fget E fuel c kwargs s = (Raise e, s')).
Proof.
  intros Hnone Htemplate Hcommand Hvalues Hp Hm Hv Hl.
  rewrite (fget_after_values E fuel c kwargs s s' template command [token]
             Hnone Htemplate Hcommand Hvalues).
  rewrite (fget_value_sequence _ _ _ _ token value v l Hp Hm Hv Hl).
  split; [intros i Hi | intros e He]; [ | now rewrite He].
  rewrite Hi. cbn [obind]. unfold Py.getitem.
  repeat apply conj.
  - intros Hrange.
    destruct (nth_error l (Z.to_nat i)) as [a | ] eqn:Hnth.
    + exists a. split; [reflexivity | ].
      replace (i <? 0) with false by (symmetry; apply Z.ltb_ge; lia).
      replace (0 <=? i) with true by (symmetry; apply Z.leb_le; lia).
      replace (i <? Z.of_nat (length l)) with true by (symmetry; apply Z.ltb_lt; lia).
      simpl. now rewrite Hnth.
    + apply nth_error_None in Hnth. lia.
  - intros Hrange.
    destruct (nth_error l (Z.to_nat (i + Z.of_nat (length l)))) as [a | ] eqn:Hnth.
    + exists a. split; [reflexivity | ].
      replace (i <? 0) with true by (symmetry; apply Z.ltb_lt; lia).
      replace (0 <=? i + Z.of_nat (length l)) with true
        by (symmetry; apply Z.leb_le; lia).
      replace (i + Z.of_nat (length l) <? Z.of_nat (length l)) with true
        by (symmetry; apply Z.ltb_lt; lia).
      simpl. now rewrite Hnth.
    + apply nth_error_None in Hnth. lia.
  - intros [Hlow | Hhigh].
    + replace (i <? 0) with true by (symmetry; apply Z.ltb_lt; lia).
      replace (0 <=? i + Z.of_nat (length l)) with false
        by (symmetry; apply Z.leb_gt; lia).
      reflexivity.
    + replace (i <? 0) with false by (symmetry; apply Z.ltb_ge; lia).
      replace (i <? Z.of_nat (length l)) with false
        by (symmetry; apply Z.ltb_ge; lia).
      now rewrite andb_false_r.
Qed.

End Unmapped.

(** ** A range as the allowed values *)

Lemma mapped_seq_nth (g : nat -> atom) len :
  forall start j, (j < len)%nat ->
    nth_error (List.map g (List.seq start len)) j = Some (g (start + j)%nat).
Proof.
  induction len as [ | len IH]; intros start j Hj; [lia | ].
  destruct j as [ | j]; simpl.
  - now rewrite Nat.add_0_r.
  - rewrite IH by lia. f_equal. f_equal. lia.
Qed.

Lemma range_items_length a b c :
  length (Py.range_items a b c) = Z.to_nat (Py.range_len a b c).
Proof. unfold Py.range_items. now rewrite length_map, length_seq. Qed.

Lemma range_items_nth a b c j :
  (j < Z.to_nat (Py.range_len a b c))%nat ->
  nth_error (Py.range_items a b c) j = Some (AInt (a + Z.of_nat j * c)).
Proof.
  intros Hj. unfold Py.range_items.
  now rewrite (mapped_seq_nth (fun i => AInt (a + Z.of_nat i * c)) _ 0 j Hj).
Qed.

Lemma range_len_zero_step a b : Py.range_len a b 0 = 0.
Proof. reflexivity. Qed.

Lemma mapped_seq_distinct a c len :
  c <> 0 ->
  forall start,
    distinct_atoms (List.map (fun i => AInt (a + Z.of_nat i * c)) (List.seq start len)).
Proof.
  intros Hc. induction len as [ | len IH]; intros start; simpl; [exact I | ].
  split; [ | apply IH].
  apply Forall_forall. intros x Hx. apply list_elem_of_In in Hx.
  apply in_map_iff in Hx as (k & <- & Hk). apply in_seq in Hk.
  simpl. apply Z.eqb_neq. nia.
Qed.

Lemma range_items_distinct a b c : distinct_atoms (Py.range_items a b c).
Proof.
  destruct (Z.eq_dec c 0) as [-> | Hc].
  - unfold Py.range_items. rewrite range_len_zero_step. exact I.
  - now apply mapped_seq_distinct.
Qed.

(** X10.  A range as [values] with value mapping on: its [i]-th element
    [start + i * step] is written as the wire code [i], and a reply of [i]
    is read back as [start + i * step], for every [i] below the length of
    the range.  The elements of a range are always pairwise different, so
    the round trip needs no further condition. *)
Theorem X10_a_range_maps_element_to_position
    (max_str_digits : nat) (validator map_values : obj) (start stop step i : Z) :
  Py.obj_truthy map_values = true ->
  0 <= i < Py.range_len start stop step ->
  Py.call2 validator (PAtom (AInt (start + i * step))) (PRange start stop step)
    = Ret (PAtom (AInt (start + i * step))) ->
  distinct_atoms (Py.range_items start stop step) /\
  fset_value validator (OVal (PRange start stop step)) map_values identity1
             (PAtom (AInt (start + i * step))) = Ret (PAtom (AInt i)) /\
  fget_value max_str_digits (OVal (PRange start stop step)) map_values identity1
             [AInt i]
    = Ret (PAtom (AInt (start + i * step))).
Proof.
  intros Hm Hi Hv.
  pose proof (range_items_distinct start stop step) as Hd.
  assert (Hnth : nth_error (Py.range_items start stop step) (Z.to_nat i)
                 = Some (AInt (start + i * step))).
  { rewrite range_items_nth by lia. now rewrite Z2Nat.id by lia. }
  split; [exact Hd | split].
  - assert (Hin : In (AInt (start + i * step)) (Py.range_items start stop step))
      by (eapply nth_error_In; exact Hnth).
    destruct (index_from_own_position _ _ 0 Hd Hin) as (n & Hn & Hn').
    assert (Hlt : (n < Z.to_nat (Py.range_len start stop step))%nat).
    { rewrite <- range_items_length. apply nth_error_Some. congruence. }
    rewrite (range_items_nth _ _ _ n Hlt) in Hn'. injection Hn' as Heq.
    assert (Hstep : step <> 0).
    { intros ->. rewrite range_len_zero_step in Hi. lia. }
    assert (Hni : Z.of_nat n = i) by nia.
    unfold fset_value. cbn [Py.as_val obind]. rewrite Hv.
    cbn [obind identity1 Py.call1]. rewrite Hm. cbn [negb].
    unfold Py.index. rewrite Hn. simpl. now rewrite Hni.
  - rewrite (fget_value_sequence _ _ _ _ _ (PAtom (AInt i)) (PRange start stop step)
               (Py.range_items start stop step)); try reflexivity; try assumption.
    cbn [Py.int obind]. rewrite (getitem_nth _ i _ (proj1 Hi) Hnth). reflexivity.
Qed.


(** ** Overrides and ordinary attributes *)

Section Attributes.
Context {T : Type} (E : Env T) (cls : Class).

Lemma getattribute_other_slot (s : Instrument T) n v attr :
  attr <> reserved_prefix +:+ n ->
  Instrument_getattribute cls (with_slot n v s) attr
  = Instrument_getattribute cls s attr.
Proof.
  intros Hne. unfold Instrument_getattribute, object_getattribute, with_slot.
  cbn [_special_names attrs set_attrs].
  now rewrite lookup_insert_ne by congruence.
Qed.

(** X11.  Overrides are independent: assigning the override [n] changes the
    arguments collected for a command only where [n] is that command's
    name, an underscore and one of the parameters asked for.  For every
    other command, and for the other parameters of the same command, the
    descriptor collects what it collected before. *)
Theorem X11_an_override_touches_one_parameter
    (s : Instrument T) (n : string) (v : obj)
    (property_name : string) (params : list string) :
  (forall attr, In attr params -> n <> property_name +:+ "_" +:+ attr) ->
  collect_kwargs cls (with_slot n v s) property_name params
  = collect_kwargs cls s property_name params.
Proof.
  induction params as [ | attr rest IH]; intros Hn; [reflexivity | ].
  cbn [collect_kwargs].
  rewrite getattribute_other_slot.
  - rewrite IH by (intros a Ha; apply Hn; now right). reflexivity.
  - unfold attr_instance_name. intros Heq.
    apply (Hn attr (or_introl eq_refl)).
    apply reserved_injective in Heq. now symmetry.
Qed.

(** A special name does not begin with the reserved prefix when no dynamic
    command has a name beginning with two underscores. *)
Lemma special_names_are_not_reserved (n : string) :
  plain_property_names cls ->
  In n (class_special_names cls) ->
  String.prefix reserved_prefix n = false.
Proof.
  intros Hplain Hn.
  apply special_name_form in Hn as (d & q & c & key & Hd & Hq & Hkey & ->).
  specialize (Hplain d q c Hd Hq).
  assert (Hkeys : In key ["get_command"; "values"; "map_values"; "get_process";
                          "command_process"; "set_command"; "validator";
                          "set_process"]).
  { revert Hkey. unfold dynamic_params. rewrite nodup_In. simpl. tauto. }
  assert (Hstep : forall a b s1 s2,
             String.prefix (String a s1) (String b s2) =
             if ascii_dec a b then String.prefix s1 s2 else false)
    by reflexivity.
  unfold reserved_prefix.
  destruct q as [ | c1 [ | c2 q]].
  - simpl in Hkeys. repeat (destruct Hkeys as [<- | Hkeys]; [reflexivity | ]).
    contradiction.
  - change (String c1 "" +:+ "_" +:+ key) with (String c1 (String "_" key)).
    rewrite Hstep. destruct (ascii_dec "_"%char c1); [ | reflexivity].
    simpl in Hkeys. repeat (destruct Hkeys as [<- | Hkeys]; [reflexivity | ]).
    contradiction.
  - change (String c1 (String c2 q) +:+ "_" +:+ key)
      with (String c1 (String c2 (q +:+ "_" +:+ key))).
    rewrite Hstep. rewrite !Hstep in Hplain.
    destruct (ascii_dec "_"%char c1); [ | reflexivity].
    rewrite Hstep.
    destruct (ascii_dec "_"%char c2); [ | reflexivity].
    destruct q; discriminate Hplain.
Qed.

Lemma absent_slot_lookup (s : Instrument T) (x : string) :
  constructed cls s -> reserved_free cls -> plain_property_names cls ->
  attrs s !! (reserved_prefix +:+ x) = None ->
  exists msg,
    Instrument_getattribute cls s (reserved_prefix +:+ x) = Fails (AttributeError msg).
Proof.
  intros Hs Hfree Hplain Hx. unfold Instrument_getattribute.
  replace (Py.contains ["_special_names"; "__dict__"] (reserved_prefix +:+ x))
    with false by reflexivity.
  rewrite Hs.
  assert (Hc : Py.contains (class_special_names cls) (reserved_prefix +:+ x) = false).
  { destruct (Py.contains _ _) eqn:Hc; [ | reflexivity].
    apply contains_In in Hc.
    apply (special_names_are_not_reserved _ Hplain) in Hc.
    now rewrite reserved_prefix_prefix in Hc. }
  rewrite Hc. unfold object_getattribute.
  rewrite reserved_not_declared, (class_lookup_reserved cls x Hfree),
    reserved_not_language, Hx.
  eexists. reflexivity.
Qed.

Lemma collect_kwargs_nothing (s : Instrument T) property_name params :
  constructed cls s -> reserved_free cls -> plain_property_names cls ->
  (forall attr, In attr params ->
                attrs s !! attr_instance_name property_name attr = None) ->
  collect_kwargs cls s property_name params = Ret [].
Proof.
  intros Hs Hfree Hplain. induction params as [ | attr rest IH]; intros Hnone.
  - reflexivity.
  - cbn [collect_kwargs].
    destruct (absent_slot_lookup s (property_name +:+ "_" +:+ attr) Hs Hfree Hplain
                (Hnone attr (or_introl eq_refl))) as (msg & Hmsg).
    unfold attr_instance_name. rewrite Hmsg.
    apply IH. intros a Ha. apply Hnone. now right.
Qed.

(** X12.  A dynamic command without overrides is the command as declared.
    On a constructed instrument of a class that keeps clear of the reserved
    prefix, when the instance dictionary has no reserved slot for any
    parameter of the command, reading it is [fget] with the declared
    defaults and writing it is [fset] with the declared defaults: the same
    outcome and the same final state as for the command declared without
    [dynamic=True]. *)
Theorem X12_no_override_means_declared_behaviour
    (fuel : nat) (s : Instrument T) (property_name : string) (c : Command) :
  constructed cls s ->
  reserved_free cls ->
  plain_property_names cls ->
  (forall attr, attrs s !! attr_instance_name property_name attr = None) ->
  DynamicProperty_get E cls fuel property_name c s = fget E fuel c [] s /\
  forall value,
    DynamicProperty_set E cls fuel property_name c value s = fset E fuel c [] value s.
Proof.
  intros Hs Hfree Hplain Hnone. split; [ | intros value].
  - apply DynamicProperty_get_with, collect_kwargs_nothing; auto.
  - apply DynamicProperty_set_with, collect_kwargs_nothing; auto.
Qed.

(** *** Ordinary attributes *)

Lemma not_exempt_when_not_declared attr :
  Py.contains declared_names attr = false ->
  Py.contains ["_special_names"; "__dict__"] attr = false.
Proof.
  intros H. destruct (Py.contains [_; _] attr) eqn:Hc; [ | reflexivity].
  apply contains_In in Hc.
  assert (Hd : Py.contains declared_names attr = true).
  { apply contains_In. destruct Hc as [<- | [<- | []]]; simpl; tauto. }
  congruence.
Qed.

Lemma ordinary_getattribute (s : Instrument T) attr :
  ordinary_name cls s attr ->
  Instrument_getattribute cls s attr =
  match attrs s !! attr with
  | Some o => Found o
  | None =>
      match class_lookup (mro cls) attr with
      | Some (Plain (OVal v)) => Found (OVal v)
      | Some _ => Outside
      | None => Fails (AttributeError ("object has no attribute '" +:+ attr +:+ "'"))
      end
  end.
Proof.
  intros (Hi & Hn & Hp). unfold inherited_name in Hi.
  apply orb_false_elim in Hi as [Hd Hl].
  unfold Instrument_getattribute.
  rewrite (not_exempt_when_not_declared attr Hd).
  assert (Hobj : object_getattribute cls s attr =
                 match attrs s !! attr with
                 | Some o => Found o
                 | None =>
                     match class_lookup (mro cls) attr with
                     | Some (Plain (OVal v)) => Found (OVal v)
                     | Some _ => Outside
                     | None => Fails (AttributeError
                                        ("object has no attribute '" +:+ attr +:+ "'"))
                     end
                 end).
  { unfold object_getattribute. rewrite Hd. unfold not_a_property in Hp.
    destruct (class_lookup (mro cls) attr) as [[? | ? | o] | ]; try contradiction;
      rewrite Hl; now destruct (attrs s !! attr). }
  destruct (_special_names s) as [names | ] eqn:Hs; [ | exact Hobj].
  now rewrite (Hn names eq_refl).
Qed.

(** X13.  Outside the override namespace the interception is transparent.
    For a name that an instrument does not have from [Instrument] or from
    the language (it is not a declared name and does not begin with two
    underscores, unless with the reserved prefix), that is not a special
    name and that the class does not bind to a property: assignment stores
    the object in the instance dictionary under that very name and changes
    nothing else; reading the name afterwards returns the object, also when
    the class has a variable of that name; reading a name that neither the
    instance nor the class has raises [AttributeError]; and no call is made
    on the adapter. *)
Theorem X13_ordinary_attributes_read_back
    (fuel : nat) (s : Instrument T) (attr : string) (v : obj) :
  ordinary_name cls s attr ->
  Instrument_setattr E cls fuel attr v s
    = (Ret tt, set_attrs (<[attr := v]> (attrs s)) s) /\
  Instrument_getattr E cls fuel attr (set_attrs (<[attr := v]> (attrs s)) s)
    = (Ret v, set_attrs (<[attr := v]> (attrs s)) s) /\
  (attrs s !! attr = None -> class_lookup (mro cls) attr = None ->
   Instrument_getattr E cls fuel attr s
   = (Raise (AttributeError ("object has no attribute '" +:+ attr +:+ "'")), s)).
Proof.
  intros Hord. pose proof Hord as (Hi & Hn & Hp).
  unfold inherited_name in Hi. apply orb_false_elim in Hi as [Hd Hl].
  repeat apply conj.
  - unfold Instrument_setattr, bind, gets.
    assert (Hname : match _special_names s with
                    | Some special_names =>
                        if Py.contains special_names attr
                        then reserved_prefix +:+ attr else attr
                    | None => attr
                    end = attr).
    { destruct (_special_names s) as [names | ] eqn:Hs; [ | reflexivity].
      now rewrite (Hn names eq_refl). }
    rewrite Hname. unfold object_setattr. rewrite Hd.
    unfold not_a_property in Hp.
    destruct (class_lookup (mro cls) attr) as [[? | ? | o] | ]; try contradiction;
      now rewrite Hl.
  - unfold Instrument_getattr.
    rewrite (ordinary_getattribute (set_attrs (<[attr := v]> (attrs s)) s) attr Hord).
    cbn [attrs set_attrs]. now rewrite lookup_insert_eq.
  - intros Ha Hc. unfold Instrument_getattr.
    rewrite (ordinary_getattribute s attr Hord). now rewrite Ha, Hc.
Qed.

End Attributes.


(** ** Failures inside a transaction *)

Section Failures.
Context {T : Type} (E : Env T).

Lemma transaction_wait_fails {A B} (op : M T A) (k : A -> M T B) fuel
      (s s1 : Instrument T) e :
  _lock s = false ->
  _wait_until_ready E fuel default_timeout (set_lock true s) = (Raise e, s1) ->
  with_lock (_wait_until_ready E fuel default_timeout ;; let* r := op in k r) s
  = (Raise e, set_lock false s1).
Proof.
  intros Hl Hw. unfold with_lock. rewrite Hl.
  now rewrite (bind_Raise _ _ _ _ _ Hw).
Qed.

Lemma transaction_call_fails {A B} ev (op : T -> outcome A * T) (k : A -> M T B)
      fuel (s s1 : Instrument T) e t :
  _lock s = false ->
  _wait_until_ready E fuel default_timeout (set_lock true s) = (Ret tt, s1) ->
  op (adapter s1) = (Raise e, t) ->
  with_lock (_wait_until_ready E fuel default_timeout ;;
             let* r := on_adapter ev op in k r) s
  = (Raise e, set_lock false (set_adapter t (log_io ev s1))).
Proof.
  intros Hl Hw Hop. unfold with_lock. rewrite Hl.
  rewrite (bind_Ret _ _ _ _ _ Hw).
  assert (H : on_adapter ev op s1 = (Raise e, set_adapter t (log_io ev s1)))
    by (unfold on_adapter; now rewrite Hop).
  now rewrite (bind_Raise _ _ _ _ _ H).
Qed.

(** X14.  Two ways a transaction fails before its error check.  If the
    readiness wait raises (a timeout, say), the transaction raises the same
    exception with the lock released, and its own call on the adapter is
    never made.  If the wait passes and the adapter call itself raises,
    the transaction raises that exception with the lock released and makes
    no further call: the error queue is not drained. *)
Theorem X14_a_failed_wait_or_call_ends_the_transaction
    (fuel : nat) (s s1 : Instrument T) :
  _lock s = false ->
  (forall e,
      _wait_until_ready E fuel default_timeout (set_lock true s) = (Raise e, s1) ->
      (forall command, ask E fuel command true s = (Raise e, set_lock false s1)) /\
      (forall command, write E fuel command s = (Raise e, set_lock false s1)) /\
      read E fuel s = (Raise e, set_lock false s1) /\
      (forall command kwargs,
          values E fuel command kwargs s = (Raise e, set_lock false s1)) /\
      (forall command header_bytes dtype,
          binary_values E fuel command header_bytes dtype s
          = (Raise e, set_lock false s1))) /\
  (_wait_until_ready E fuel default_timeout (set_lock true s) = (Ret tt, s1) ->
   (forall command e t,
       adapter_ask E command (adapter s1) = (Raise e, t) ->
       ask E fuel command true s
       = (Raise e, set_lock false (set_adapter t (log_io (IoAsk command) s1)))) /\
   (forall command e t,
       adapter_write E command (adapter s1) = (Raise e, t) ->
       write E fuel command s
       = (Raise e, set_lock false (set_adapter t (log_io (IoWrite command) s1)))) /\
   (forall e t,
       adapter_read E (adapter s1) = (Raise e, t) ->
       read E fuel s
       = (Raise e, set_lock false (set_adapter t (log_io IoRead s1)))) /\
   (forall command kwargs e t,
       adapter_values E command kwargs (adapter s1) = (Raise e, t) ->
       values E fuel command kwargs s
       = (Raise e, set_lock false (set_adapter t (log_io (IoValues command) s1)))) /\
   (forall command header_bytes dtype e t,
       adapter_binary_values E command header_bytes dtype (adapter s1) = (Raise e, t) ->
       binary_values E fuel command header_bytes dtype s
       = (Raise e,
          set_lock false (set_adapter t (log_io (IoBinaryValues command) s1))))).
Proof.
  intros Hl. split.
  - intros e Hw. repeat apply conj; intros.
    + now apply (transaction_wait_fails
                   (on_adapter (IoAsk command) (adapter_ask E command))
                   (fun r => check_errors E fuel ;; ret r)).
    + now apply (transaction_wait_fails
                   (on_adapter (IoWrite command) (adapter_write E command))
                   (fun _ => check_errors E fuel)).
    + now apply (transaction_wait_fails
                   (on_adapter IoRead (adapter_read E))
                   (fun r => check_errors E fuel ;; ret r)).
    + now apply (transaction_wait_fails
                   (on_adapter (IoValues command) (adapter_values E command kwargs))
                   (fun r => check_errors E fuel ;; ret r)).
    + now apply (transaction_wait_fails
                   (on_adapter (IoBinaryValues command)
                               (adapter_binary_values E command header_bytes dtype))
                   (fun r => check_errors E fuel ;; ret r)).
  - intros Hw. repeat apply conj; intros.
    + now apply (transaction_call_fails (IoAsk command) (adapter_ask E command)
                   (fun r => check_errors E fuel ;; ret r)).
    + now apply (transaction_call_fails (IoWrite command) (adapter_write E command)
                   (fun _ => check_errors E fuel)).
    + now apply (transaction_call_fails IoRead (adapter_read E)
                   (fun r => check_errors E fuel ;; ret r)).
    + now apply (transaction_call_fails (IoValues command)
                   (adapter_values E command kwargs)
                   (fun r => check_errors E fuel ;; ret r)).
    + now apply (transaction_call_fails (IoBinaryValues command)
                   (adapter_binary_values E command header_bytes dtype)
                   (fun r => check_errors E fuel ;; ret r)).
Qed.

(** ** A write access as a whole *)

Lemma fset_is_prepare_then_write fuel c kwargs value (s : Instrument T) :
  Py.is_None (kwarg kwargs "set_command" (cmd_set_command c)) = false ->
  fset E fuel c kwargs value s =
  match prepared_command E c kwargs value with
  | Ret command => write E fuel command s
  | Raise e => (Raise e, s)
  | Stuck w => (Stuck w, s)
  end.
Proof.
  intros Hset. unfold fset, prepared_command. rewrite Hset.
  unfold bind, lift.
  destruct (fset_value _ _ _ _ value) as [mapped | e | w]; cbn [obind]; try reflexivity.
  destruct (Py.as_val _) as [template | e | w]; cbn [obind]; try reflexivity.
  destruct (Py.call1 _ template) as [format | e | w]; cbn [obind]; reflexivity.
Qed.

(** X15.  A write access of a command with a write template is all or
    nothing.  If validating, processing, mapping the value or building the
    command fails, the access fails the same way and the instrument is
    exactly as before.  Otherwise the access is one [write] transaction of
    the built command: apart from completion and error queries, the only
    call on the adapter is that one write, made at most once and made
    whenever the access returns. *)
Theorem X15_a_write_access_is_one_write_or_nothing
    (fuel : nat) (c : Command) (kwargs : list (string * obj))
    (value : pyval) (s : Instrument T) :
  Py.is_None (kwarg kwargs "set_command" (cmd_set_command c)) = false ->
  _lock s = false ->
  (forall e, prepared_command E c kwargs value = Raise e ->
             fset E fuel c kwargs value s = (Raise e, s)) /\
  (forall command,
      prepared_command E c kwargs value = Ret command ->
      fset E fuel c kwargs value s = write E fuel command s /\
      sends_once (fset E fuel c kwargs value) (IoWrite command) s /\
      instance_of (snd (fset E fuel c kwargs value s)) = instance_of s).
Proof.
  intros Hset Hl.
  pose proof (fset_is_prepare_then_write fuel c kwargs value s Hset) as H.
  split.
  - intros e He. now rewrite He in H.
  - intros command Hc. rewrite Hc in H. split; [exact H | split].
    + pose proof (write_sends_once E fuel command s Hl) as Hw.
      unfold sends_once in *. now rewrite H.
    + apply (keeps_fset E instance_of instance_of_is_view).
Qed.

End Failures.

(** ** The override namespace, name by name *)

(** X16.  The special names of a class are exactly the names
    [<command>_<parameter>] for a dynamic command that the class or one of
    its ancestors declares and one of the eight parameters of [control];
    commands declared without [dynamic=True] and class variables add
    none. *)
Theorem X16_special_names_are_command_and_parameter (cls : Class) (n : string) :
  In n (class_special_names cls) <->
  exists d property_name c parameter,
    In d (mro cls) /\ In (property_name, Dynamic c) d /\
    In parameter parameter_names /\
    n = property_name +:+ "_" +:+ parameter.
Proof.
  assert (Hparams : forall k, In k dynamic_params <-> In k parameter_names).
  { intros k. unfold dynamic_params. rewrite nodup_In. simpl. tauto. }
  split.
  - intros H. apply special_name_form in H as (d & p & c & key & Hd & Hp & Hk & ->).
    exists d, p, c, key. repeat split; try assumption. now apply Hparams.
  - intros (d & p & c & key & Hd & Hp & Hk & ->).
    apply (special_name_intro (mro cls) d p c key Hd Hp). now apply Hparams.
Qed.


(** ** The properties on concrete sessions *)

Section Concrete.
Import Scenario.

(** C1.  [Generic] declares the dynamic command [center_frequency] with the
    default values (1, 20) and overrides them at class level with (1, 10);
    [Specific], derived from it, overrides them with (1, 5).  Ordinary
    attribute lookup on the class finds the value of [Specific].  A
    constructed [SpecificInstrument] resolves [values], for reads and for
    writes, to (1, 10): the second pass of [_setup_special_names] walks the
    classes from the most derived to the base and each assignment replaces
    the one before, so the value of the base class is the one that stays. *)
Theorem C1_base_class_override_replaces_derived :
  fst specific = Ret tt /\
  class_lookup (mro SpecificInstrument) "center_frequency_values"
    = Some (Plain (tuple_of [1; 5])) /\
  collect_kwargs SpecificInstrument (snd specific) "center_frequency" _fget_params_list
    = Ret [("values", tuple_of [1; 10])] /\
  collect_kwargs SpecificInstrument (snd specific) "center_frequency" _fset_params_list
    = Ret [("values", tuple_of [1; 10])].
Proof. repeat split; vm_compute; reflexivity. Qed.

(** C9.  A session whose identification did not start with the declared
    prefix is constructed with [communication_success] false; on it
    [status] raises [TypeError] instead of reporting: it calls
    [get_id(check_for_errors=False)], and the parameter of [get_id] is named
    [check_errs]. *)
Theorem C9_status_raises_on_degraded_session :
  fst stranger = Ret tt /\
  communication_success (snd stranger) = false /\
  status Sim.env Source fuel (snd stranger) =
  (Raise (TypeError "get_id() got an unexpected keyword argument 'check_for_errors'"),
   snd stranger).
Proof.
  split; [vm_compute; reflexivity | split; [vm_compute; reflexivity | ]].
  apply status_of_degraded_session. vm_compute. reflexivity.
Qed.

(** C8, as stated, fails: [level] is built by [setting] (with
    [dynamic=True]) and declared without a read template; once the instance
    has been given [level_get_command], reading [level] queries the adapter
    and returns the value. *)
Lemma C8_overridden_setting_can_be_read :
  class_lookup (mro Source) "level" =
    Some (setting (str "LEV %d") identity2 default_values
                  default_map_values_control identity1 true []) /\
  fst (Instrument_getattr Sim.env Source fuel "level" source_overridden)
    = Ret (OVal (PAtom (AInt 1))) /\
  fst (Instrument_getattr Sim.env Source fuel "level" source_overridden)
    <> Raise cannot_read /\
  trace (snd (Instrument_getattr Sim.env Source fuel "level" source_overridden))
    = (trace source_overridden
       ++ [IoAsk (AStr "*OPC?"); IoValues (AStr "LEV?");
           IoAsk (AStr "*OPC?"); IoAsk (AStr "SYST:ERR?")])%list.
Proof.
  assert (H : fst (Instrument_getattr Sim.env Source fuel "level" source_overridden)
              = Ret (OVal (PAtom (AInt 1)))) by (vm_compute; reflexivity).
  split; [reflexivity | split; [exact H | split]].
  - rewrite H. discriminate.
  - vm_compute. reflexivity.
Qed.

(** The simulated device stalls as long as its completion replies are
    exhausted and its default reply is ["0"]. *)
Lemma simulated_device_stalls : stalls Sim.env stalling.
Proof.
  split.
  - intros [clock latency opc opc_default errors idn reply written].
    unfold stalling. simpl. intros (-> & -> & Hlatency).
    eexists; eexists. split; [reflexivity | ].
    split; [discriminate | ]. simpl. unfold Sim.tick. simpl.
    repeat split; try assumption. lia.
  - intros [clock latency opc opc_default errors idn reply written].
    unfold stalling. simpl. intros (-> & -> & Hlatency).
    repeat split; try assumption. lia.
Qed.

(** C2, as stated, fails.  [Shadowed] has the dynamic command [level], so
    [level_values] is a name of the override namespace of a constructed
    [Shadowed]; the class binds the reserved spelling [___level_values] to
    a read-only property.  The assignment [inst.level_values = (0, 5)] is
    redirected to that property and fails with [LookupError]: nothing is
    stored and no later access of [level] sees the value. *)
Lemma C2_shadowed_override_cannot_be_assigned :
  fst shadowed = Ret tt /\
  constructed Shadowed (snd shadowed) /\
  In "level_values" (class_special_names Shadowed) /\
  Instrument_setattr Sim.env Shadowed fuel "level_values" (tuple_of [0; 5])
                     (snd shadowed)
    = (Raise cannot_set, snd shadowed) /\
  attrs (snd shadowed) !! (reserved_prefix +:+ "level_values") = None.
Proof.
  split; [vm_compute; reflexivity | ].
  split; [vm_compute; reflexivity | ].
  split; [apply contains_In; vm_compute; reflexivity | ].
  split; vm_compute; reflexivity.
Qed.

Lemma Source_slots_are_free (property_name : string) (params : list string) :
  slots_free Source property_name params.
Proof. intros attr _. split; [exact I | reflexivity]. Qed.

Lemma C2_witness :
  constructed Source (snd source) /\
  In [("level", level); ("reading", reading); ("voltage", voltage true)] (mro Source) /\
  In ("voltage", Dynamic voltage_command)
     [("level", level); ("reading", reading); ("voltage", voltage true)] /\
  In "values" dynamic_params /\
  slot_free Source (override_name "voltage" "values") /\
  slots_free Source "voltage" _fget_params_list /\
  In "values" _fget_params_list /\
  Instrument_getattr Sim.env Source fuel "voltage_values" (snd source)
    = (Raise (AttributeError (reserved_message "voltage_values")), snd source) /\
  Instrument_setattr Sim.env Source fuel "voltage_values" (tuple_of [0; 1]) (snd source)
    = (Ret tt, with_slot "voltage_values" (tuple_of [0; 1]) (snd source)) /\
  exists kwargs,
    (forall default, kwarg kwargs "values" default = tuple_of [0; 1]) /\
    DynamicProperty_get Sim.env Source fuel "voltage" voltage_command
                        (with_slot "voltage_values" (tuple_of [0; 1]) (snd source))
    = fget Sim.env fuel voltage_command kwargs
           (with_slot "voltage_values" (tuple_of [0; 1]) (snd source)).
Proof.
  assert (H1 : constructed Source (snd source)) by (vm_compute; reflexivity).
  assert (H2 : In [("level", level); ("reading", reading); ("voltage", voltage true)]
                  (mro Source)) by (left; reflexivity).
  assert (H3 : In ("voltage", Dynamic voltage_command)
                  [("level", level); ("reading", reading); ("voltage", voltage true)])
    by (right; right; left; reflexivity).
  assert (H4 : In "values" dynamic_params)
    by (apply fget_params_are_dynamic; simpl; tauto).
  assert (H5 : slots_free Source "voltage" _fget_params_list)
    by apply Source_slots_are_free.
  assert (H7 : In "values" _fget_params_list) by (simpl; tauto).
  assert (H6 : slot_free Source (override_name "voltage" "values")) by now apply H5.
  destruct (C2_free_override_is_write_only Sim.env Source fuel (snd source) _
              "voltage" "values" voltage_command (tuple_of [0; 1])
              H1 H2 H3 H4) as (Hread & Hwrite & Hget & _).
  destruct (Hwrite H6) as (Hassign & _ & _).
  destruct (Hget H5 H7) as (kwargs & _ & Hv & Hresolved).
  refine (conj H1 (conj H2 (conj H3 (conj H4 (conj H6 (conj H5 (conj H7
            (conj (Hread _ H1) (conj Hassign _))))))))).
  exists kwargs. exact (conj Hv Hresolved).
Defined.

Lemma C3_witness :
  Py.is_None (kwarg [] "set_command" (cmd_set_command checked_voltage)) = false /\
  Py.as_val (kwarg [] "values" (cmd_values checked_voltage)) = Ret (PDict levels) /\
  Py.call2 (kwarg [] "validator" (cmd_validator checked_voltage))
           (PAtom (AStr "MEDIUM")) (PDict levels)
    = Raise (ValueError "Value is not in the discrete set") /\
  fset Sim.env fuel checked_voltage [] (PAtom (AStr "MEDIUM")) (snd source)
    = (Raise (ValueError "Value is not in the discrete set"), snd source).
Proof.
  assert (H1 : Py.is_None (kwarg [] "set_command" (cmd_set_command checked_voltage))
               = false) by reflexivity.
  assert (H2 : Py.as_val (kwarg [] "values" (cmd_values checked_voltage))
               = Ret (PDict levels)) by reflexivity.
  assert (H3 : Py.call2 (kwarg [] "validator" (cmd_validator checked_voltage))
                        (PAtom (AStr "MEDIUM")) (PDict levels)
               = Raise (ValueError "Value is not in the discrete set"))
    by reflexivity.
  exact (conj H1 (conj H2 (conj H3
           (proj1 (C3_rejected_value_is_not_written Sim.env Source fuel checked_voltage
                     [] (PAtom (AStr "MEDIUM")) (PDict levels) _ (snd source)
                     H1 H2 H3))))).
Defined.

Lemma C4_witness :
  Py.is_None (kwarg [] "get_command" (cmd_get_command checked_voltage)) = false /\
  Py.as_val (kwarg [] "get_command" (cmd_get_command checked_voltage))
    = Ret (PAtom (AStr "V?")) /\
  Py.call1 (kwarg [] "command_process" (cmd_command_process checked_voltage))
           (PAtom (AStr "V?")) = Ret (PAtom (AStr "V?")) /\
  values Sim.env fuel (PAtom (AStr "V?")) (cmd_kwargs checked_voltage) (snd source)
    = (Ret [AInt 1],
       snd (values Sim.env fuel (PAtom (AStr "V?")) [] (snd source))) /\
  first_key_for levels (PAtom (AInt 1)) (AStr "HIGH") /\
  fget Sim.env fuel checked_voltage [] (snd source)
    = (Ret (PAtom (AStr "HIGH")),
       snd (values Sim.env fuel (PAtom (AStr "V?")) [] (snd source))).
Proof.
  assert (H1 : Py.is_None (kwarg [] "get_command" (cmd_get_command checked_voltage))
               = false) by reflexivity.
  assert (H2 : Py.as_val (kwarg [] "get_command" (cmd_get_command checked_voltage))
               = Ret (PAtom (AStr "V?"))) by reflexivity.
  assert (H3 : Py.call1 (kwarg [] "command_process" (cmd_command_process checked_voltage))
                        (PAtom (AStr "V?")) = Ret (PAtom (AStr "V?"))) by reflexivity.
  assert (H4 : values Sim.env fuel (PAtom (AStr "V?")) (cmd_kwargs checked_voltage)
                      (snd source)
               = (Ret [AInt 1],
                  snd (values Sim.env fuel (PAtom (AStr "V?")) [] (snd source))))
    by (vm_compute; reflexivity).
  assert (H5 : first_key_for levels (PAtom (AInt 1)) (AStr "HIGH")).
  { exists [(AStr "LOW", AInt 0)], (AInt 1), [].
    split; [reflexivity | split; [reflexivity | ]].
    constructor; [reflexivity | constructor]. }
  destruct (C4_read_decodes_then_maps Sim.env fuel checked_voltage [] (snd source) _
              (PAtom (AStr "V?")) (PAtom (AStr "V?")) [AInt 1] H1 H2 H3 H4)
    as [Hone _].
  destruct (Hone (AInt 1) (PAtom (AInt 1)) eq_refl eq_refl) as [_ Hmapped].
  destruct (Hmapped eq_refl) as (_ & Hkey & _).
  exact (conj H1 (conj H2 (conj H3 (conj H4 (conj H5
           (Hkey levels (AStr "HIGH") eq_refl H5)))))).
Defined.

Lemma C5_witness :
  Py.obj_truthy True_ = true /\
  Py.as_val (OVal (PDict levels)) = Ret (PDict levels) /\
  Py.call2 identity2 (PAtom (AStr "HIGH")) (PDict levels) = Ret (PAtom (AStr "HIGH")) /\
  bijective levels /\
  In (AStr "HIGH") (List.map fst levels) /\
  exists code,
    fset_value identity2 (OVal (PDict levels)) True_ identity1 (PAtom (AStr "HIGH"))
      = Ret (PAtom code) /\
    fget_value 4300 (OVal (PDict levels)) True_ identity1 [code]
      = Ret (PAtom (AStr "HIGH")).
Proof.
  assert (H4 : bijective levels).
  { split; simpl; repeat constructor. }
  assert (H5 : In (AStr "HIGH") (List.map fst levels)) by (simpl; auto).
  refine (conj eq_refl (conj eq_refl (conj eq_refl (conj H4 (conj H5 _))))).
  apply (C5_decoding_inverts_encoding 4300 identity2 (OVal (PDict levels)) True_
           (PDict levels) (PAtom (AStr "HIGH")) eq_refl eq_refl eq_refl).
  left. exists levels, (AStr "HIGH"). auto.
Defined.

Lemma C6_witness :
  SCPI faulty = true /\
  _wait_until_ready Sim.env fuel default_timeout faulty
    = (Ret tt, snd (_wait_until_ready Sim.env fuel default_timeout faulty)) /\
  drains Sim.env (snd (_wait_until_ready Sim.env fuel default_timeout faulty))
         queued_errors (snd (_flush_errors Sim.env fuel faulty)) /\
  (length queued_errors < fuel)%nat /\
  _flush_errors Sim.env fuel faulty
    = (Ret queued_errors, snd (_flush_errors Sim.env fuel faulty)) /\
  check_errors Sim.env fuel faulty
    = (Raise (RuntimeError (error_queue_message "-113,Undefined header")),
       snd (_flush_errors Sim.env fuel faulty)).
Proof.
  assert (H1 : SCPI faulty = true) by reflexivity.
  assert (H2 : _wait_until_ready Sim.env fuel default_timeout faulty
               = (Ret tt, snd (_wait_until_ready Sim.env fuel default_timeout faulty)))
    by (vm_compute; reflexivity).
  assert (H3 : drains Sim.env
                 (snd (_wait_until_ready Sim.env fuel default_timeout faulty))
                 queued_errors (snd (_flush_errors Sim.env fuel faulty))).
  { eapply drains_error; [vm_compute; reflexivity | reflexivity | ].
    eapply drains_error; [vm_compute; reflexivity | reflexivity | ].
    eapply drains_sentinel; [vm_compute; reflexivity | reflexivity]. }
  assert (H4 : (length queued_errors < fuel)%nat) by (vm_compute; lia).
  destruct (C6_error_queue_is_drained_in_order Sim.env fuel faulty _ _ queued_errors
              H1 H2 H3 H4) as (Hflush & Hcheck & _).
  exact (conj H1 (conj H2 (conj H3 (conj H4 (conj Hflush Hcheck))))).
Defined.

Lemma C7_witness :
  SCPI stalled = true /\
  0 <= default_timeout /\
  stalls Sim.env stalling /\
  stalling (adapter stalled) /\
  default_timeout / poll_interval + 2 <= Z.of_nat 102 /\
  (exists s',
      _wait_until_ready Sim.env 102 default_timeout stalled
        = (Raise (TimeoutError default_timeout), s') /\
      now_ Sim.env stalled + default_timeout < now_ Sim.env s') /\
  completes_within Sim.env (now_ Sim.env slow + default_timeout) slow 3
                   (snd (_wait_until_ready Sim.env 102 default_timeout slow)) /\
  _wait_until_ready Sim.env 102 default_timeout slow
    = (Ret tt, snd (_wait_until_ready Sim.env 102 default_timeout slow)).
Proof.
  assert (H1 : SCPI stalled = true) by reflexivity.
  assert (H2 : 0 <= default_timeout) by (unfold default_timeout; lia).
  assert (H4 : stalling (adapter stalled)).
  { unfold stalling. simpl. repeat split. lia. }
  assert (H5 : default_timeout / poll_interval + 2 <= Z.of_nat 102)
    by (vm_compute; intros H; discriminate H).
  assert (H6 : completes_within Sim.env (now_ Sim.env slow + default_timeout) slow 3
                 (snd (_wait_until_ready Sim.env 102 default_timeout slow))).
  { eapply completes_later;
      [vm_compute; reflexivity | reflexivity
      | vm_compute; intros H; discriminate H | ].
    eapply completes_later;
      [vm_compute; reflexivity | reflexivity
      | vm_compute; intros H; discriminate H | ].
    eapply completes_now; [vm_compute; reflexivity | reflexivity]. }
  refine (conj H1 (conj H2 (conj simulated_device_stalls (conj H4 (conj H5
            (conj _ (conj H6 _))))))).
  - exact (proj1 (C7_readiness_wait_times_out_or_returns Sim.env 102 default_timeout
                    stalled H1 H2)
                 stalling simulated_device_stalls H4 H5).
  - exact (proj2 (C7_readiness_wait_times_out_or_returns Sim.env 102 default_timeout
                    slow eq_refl H2)
                 3%nat _ H6 ltac:(lia)).
Defined.

Lemma C8_witness :
  Py.is_None (kwarg [] "get_command" (cmd_get_command level_command)) = true /\
  level = Dynamic level_command /\
  collect_kwargs Source (snd source) "level" _fget_params_list = Ret [] /\
  fget Sim.env fuel level_command [] (snd source) = (Raise cannot_read, snd source) /\
  DynamicProperty_get Sim.env Source fuel "level" level_command (snd source)
    = (Raise cannot_read, snd source).
Proof.
  assert (H1 : Py.is_None (kwarg [] "get_command" (cmd_get_command level_command))
               = true) by reflexivity.
  assert (H3 : collect_kwargs Source (snd source) "level" _fget_params_list = Ret [])
    by (vm_compute; reflexivity).
  destruct (proj1 (C8_absent_effective_template_is_unsupported Sim.env Source fuel
                     level_command [] (snd source)) H1) as [Ha Hb].
  exact (conj H1 (conj eq_refl (conj H3 (conj Ha (Hb "level" H3))))).
Defined.

End Concrete.


(** ** The further properties on concrete sessions *)

Section MoreConcrete.
Import Scenario Cases.

Lemma Source_is_reserved_free : reserved_free Source.
Proof.
  intros d [<- | []]. split.
  - apply NoDup_ListNoDup. repeat constructor; simpl; intuition discriminate.
  - intros entry [<- | [<- | [<- | []]]]; reflexivity.
Qed.

Lemma SpecificInstrument_is_reserved_free : reserved_free SpecificInstrument.
Proof.
  intros d [<- | [<- | []]]; split.
  - apply NoDup_ListNoDup. repeat constructor; simpl; intuition discriminate.
  - intros entry [<- | []]; reflexivity.
  - apply NoDup_ListNoDup. repeat constructor; simpl; intuition discriminate.
  - intros entry [<- | [<- | []]]; reflexivity.
Qed.

Lemma Source_has_plain_property_names : plain_property_names Source.
Proof.
  intros d p c [<- | []] [H | [H | [H | []]]]; injection H as <- _; reflexivity.
Qed.

Lemma X1_witness :
  assigns (call_write (PAtom (AStr "*CLS"))) = false /\
  instance_of (snd (invoke Sim.env Source fuel (call_write (PAtom (AStr "*CLS")))
                           (snd source)))
  = instance_of (snd source).
Proof.
  split; [reflexivity | ].
  apply (X1_methods_leave_the_instrument_alone Sim.env Source fuel). reflexivity.
Defined.

Lemma X2_witness :
  SCPI bare = false /\ _lock bare = false /\ (1 <= fuel)%nat /\
  write Sim.env fuel (PAtom (AStr "smua.reset()")) bare = (not_implemented, bare) /\
  Instrument_init Sim.env Source fuel (Sim.idle "ACME" []) "bare" false
  = (not_implemented,
     mkInstrument (Sim.idle "ACME" []) [] "bare" false false false false None ∅).
Proof.
  assert (H3 : (1 <= fuel)%nat) by (unfold fuel; lia).
  destruct (X2_without_scpi_nothing_is_sent Sim.env Source fuel bare
              eq_refl eq_refl H3)
    as (_ & Hw & _ & _ & _ & _ & _ & _ & _ & _ & _ & Hinit & _).
  exact (conj eq_refl (conj eq_refl (conj H3
           (conj (Hw _) (Hinit (Sim.idle "ACME" []) "bare"))))).
Defined.

Lemma X3_witness :
  _lock (snd source) = false /\
  sends_in_order Sim.env fuel (write Sim.env fuel (PAtom (AStr "*CLS")))
                 (IoWrite (PAtom (AStr "*CLS")))
                 (adapter_write Sim.env (PAtom (AStr "*CLS"))) (snd source).
Proof.
  assert (H1 : _lock (snd source) = false) by (vm_compute; reflexivity).
  destruct (X3_transactions_call_the_adapter_once Sim.env fuel (snd source) H1)
    as (_ & Hw & _).
  exact (conj H1 (Hw _)).
Defined.

Lemma X4_witness :
  _flush_errors Sim.env fuel faulty
    = (Ret queued_errors, snd (_flush_errors Sim.env fuel faulty)) /\
  SCPI faulty = true /\
  check_errors Sim.env fuel faulty
    = (Raise (RuntimeError (error_queue_message "-113,Undefined header")),
       snd (_flush_errors Sim.env fuel faulty)).
Proof.
  assert (H1 : _flush_errors Sim.env fuel faulty
               = (Ret queued_errors, snd (_flush_errors Sim.env fuel faulty)))
    by (vm_compute; reflexivity).
  destruct (X4_a_returned_drain_saw_the_sentinel Sim.env fuel faulty _ _ H1)
    as (Hs & _ & _ & Hc).
  exact (conj H1 (conj Hs Hc)).
Defined.

Lemma X5_witness :
  _wait_until_ready Sim.env fuel default_timeout slow
    = (Ret tt, snd (_wait_until_ready Sim.env fuel default_timeout slow)) /\
  exists n, (1 <= n <= fuel)%nat /\
            completes_within Sim.env (now_ Sim.env slow + default_timeout) slow n
                             (snd (_wait_until_ready Sim.env fuel default_timeout slow)).
Proof.
  assert (H1 : _wait_until_ready Sim.env fuel default_timeout slow
               = (Ret tt, snd (_wait_until_ready Sim.env fuel default_timeout slow)))
    by (vm_compute; reflexivity).
  exact (conj H1 (X5_a_returned_wait_saw_completion Sim.env fuel default_timeout
                    slow _ H1)).
Defined.

Lemma X6_witness :
  reserved_free Source /\
  _flush_errors Sim.env fuel (blank (Sim.idle "OTHER" [AInt 1]) "src" true)
    = (Ret [],
       snd (_flush_errors Sim.env fuel (blank (Sim.idle "OTHER" [AInt 1]) "src" true))) /\
  ask Sim.env fuel (AStr "*IDN?") true
      (snd (_flush_errors Sim.env fuel (blank (Sim.idle "OTHER" [AInt 1]) "src" true)))
    = (Ret "OTHER",
       snd (ask Sim.env fuel (AStr "*IDN?") true
              (snd (_flush_errors Sim.env fuel
                      (blank (Sim.idle "OTHER" [AInt 1]) "src" true))))) /\
  fst (Instrument_init Sim.env Source fuel (Sim.idle "OTHER" [AInt 1]) "src" true)
    = Ret tt /\
  communication_success
    (snd (Instrument_init Sim.env Source fuel (Sim.idle "OTHER" [AInt 1]) "src" true))
    = false.
Proof.
  assert (H2 : _flush_errors Sim.env fuel (blank (Sim.idle "OTHER" [AInt 1]) "src" true)
               = (Ret [],
                  snd (_flush_errors Sim.env fuel
                         (blank (Sim.idle "OTHER" [AInt 1]) "src" true))))
    by (vm_compute; reflexivity).
  assert (H3 : ask Sim.env fuel (AStr "*IDN?") true
                   (snd (_flush_errors Sim.env fuel
                           (blank (Sim.idle "OTHER" [AInt 1]) "src" true)))
               = (Ret "OTHER",
                  snd (ask Sim.env fuel (AStr "*IDN?") true
                         (snd (_flush_errors Sim.env fuel
                                 (blank (Sim.idle "OTHER" [AInt 1]) "src" true))))))
    by (vm_compute; reflexivity).
  pose proof (proj1 (X6_a_constructed_instrument Sim.env Source fuel
                       (Sim.idle "OTHER" [AInt 1]) "src" true
                       Source_is_reserved_free) _ _ _ _ H2 H3) as Hinit.
  refine (conj Source_is_reserved_free (conj H2 (conj H3 _))).
  rewrite Hinit. split; reflexivity.
Defined.

Lemma X7_witness :
  reserved_free SpecificInstrument /\
  Instrument_init Sim.env SpecificInstrument fuel (Sim.idle "ACME,FSA" [AInt 7])
                  "fsa" true
    = (Ret tt, snd specific) /\
  In "center_frequency_values" (class_special_names SpecificInstrument) /\
  attrs (snd specific) !! (reserved_prefix +:+ "center_frequency_values")
    = attr_object <$> class_lookup (rev (mro SpecificInstrument))
                                   "center_frequency_values".
Proof.
  assert (H2 : Instrument_init Sim.env SpecificInstrument fuel
                 (Sim.idle "ACME,FSA" [AInt 7]) "fsa" true
               = (Ret tt, snd specific)) by (vm_compute; reflexivity).
  assert (H3 : In "center_frequency_values" (class_special_names SpecificInstrument))
    by (apply contains_In; vm_compute; reflexivity).
  destruct (X7_construction_copies_class_overrides Sim.env SpecificInstrument fuel
              _ _ _ _ SpecificInstrument_is_reserved_free H2) as [_ Hslot].
  exact (conj SpecificInstrument_is_reserved_free (conj H2 (conj H3 (Hslot _ H3)))).
Defined.

Lemma X8_witness :
  Py.is_None (kwarg [] "set_command" (cmd_set_command voltage_command)) = false /\
  Py.as_val (kwarg [] "values" (cmd_values voltage_command)) = Ret (PDict levels) /\
  Py.call2 (kwarg [] "validator" (cmd_validator voltage_command))
           (PAtom (AStr "MEDIUM")) (PDict levels) = Ret (PAtom (AStr "MEDIUM")) /\
  Py.call1 (kwarg [] "set_process" (cmd_set_process voltage_command))
           (PAtom (AStr "MEDIUM")) = Ret (PAtom (AStr "MEDIUM")) /\
  Py.obj_truthy (kwarg [] "map_values" (cmd_map_values voltage_command)) = true /\
  no_key_equal levels (AStr "MEDIUM") /\
  fset Sim.env fuel voltage_command [] (PAtom (AStr "MEDIUM")) (snd source)
    = (Raise (KeyError (PAtom (AStr "MEDIUM"))), snd source).
Proof.
  assert (H6 : no_key_equal levels (AStr "MEDIUM")).
  { unfold no_key_equal, levels. repeat constructor. }
  destruct (X8_a_value_without_entry_is_not_written Sim.env fuel voltage_command []
              (PAtom (AStr "MEDIUM")) (PDict levels) (PAtom (AStr "MEDIUM"))
              (PAtom (AStr "MEDIUM")) (snd source)
              eq_refl eq_refl eq_refl eq_refl eq_refl) as (Hk & _).
  exact (conj eq_refl (conj eq_refl (conj eq_refl (conj eq_refl (conj eq_refl
           (conj H6 (Hk levels (AStr "MEDIUM") eq_refl eq_refl H6))))))).
Defined.

Lemma X9_witness :
  values Sim.env fuel (PAtom (AStr "CH?")) (cmd_kwargs channel_command) answering_last
    = (Ret [AInt (-1)],
       snd (values Sim.env fuel (PAtom (AStr "CH?")) [] answering_last)) /\
  Py.seq_items (PTuple channels) = Some channels /\
  Py.int (int_max_str_digits Sim.env) (PAtom (AInt (-1))) = Ret (-1) /\
  - Z.of_nat (length channels) <= -1 < 0 /\
  fget Sim.env fuel channel_command [] answering_last
    = (Ret (PAtom (AStr "C")),
       snd (values Sim.env fuel (PAtom (AStr "CH?")) [] answering_last)).
Proof.
  assert (H4 : values Sim.env fuel (PAtom (AStr "CH?")) (cmd_kwargs channel_command)
                      answering_last
               = (Ret [AInt (-1)],
                  snd (values Sim.env fuel (PAtom (AStr "CH?")) [] answering_last)))
    by (vm_compute; reflexivity).
  assert (H5 : - Z.of_nat (length channels) <= -1 < 0) by (simpl; lia).
  destruct (X9_mapped_read_indexes_like_python Sim.env fuel channel_command []
              answering_last _ (PAtom (AStr "CH?")) (PAtom (AStr "CH?"))
              (PAtom (AInt (-1))) (PTuple channels) (AInt (-1)) channels
              eq_refl eq_refl eq_refl H4 eq_refl eq_refl eq_refl eq_refl)
    as [Hint _].
  destruct (Hint (-1) eq_refl) as (_ & Hneg & _).
  destruct (Hneg H5) as (a & Ha & Hget).
  simpl in Ha. injection Ha as <-.
  exact (conj H4 (conj eq_refl (conj eq_refl (conj H5 Hget)))).
Defined.

Lemma X10_witness :
  Py.obj_truthy True_ = true /\
  0 <= 2 < Py.range_len 10 0 (-3) /\
  Py.call2 identity2 (PAtom (AInt (10 + 2 * -3))) (PRange 10 0 (-3))
    = Ret (PAtom (AInt (10 + 2 * -3))) /\
  fset_value identity2 (OVal (PRange 10 0 (-3))) True_ identity1 (PAtom (AInt 4))
    = Ret (PAtom (AInt 2)) /\
  fget_value 4300 (OVal (PRange 10 0 (-3))) True_ identity1 [AInt 2]
    = Ret (PAtom (AInt 4)).
Proof.
  assert (H2 : 0 <= 2 < Py.range_len 10 0 (-3)) by (vm_compute; split; congruence).
  destruct (X10_a_range_maps_element_to_position 4300 identity2 True_ 10 0 (-3) 2
              eq_refl H2 eq_refl) as (_ & Hset & Hget).
  exact (conj eq_refl (conj H2 (conj eq_refl (conj Hset Hget)))).
Defined.

Lemma X11_witness :
  (forall attr, In attr _fset_params_list ->
                "voltage_values" <> "level" +:+ "_" +:+ attr) /\
  collect_kwargs Source
                 (with_slot "voltage_values" (tuple_of [0; 1]) (snd source))
                 "level" _fset_params_list
  = collect_kwargs Source (snd source) "level" _fset_params_list.
Proof.
  assert (H1 : forall attr, In attr _fset_params_list ->
                            "voltage_values" <> "level" +:+ "_" +:+ attr).
  { intros attr Hin. simpl in Hin.
    repeat (destruct Hin as [<- | Hin]; [discriminate | ]). contradiction. }
  exact (conj H1 (X11_an_override_touches_one_parameter Source (snd source)
                    "voltage_values" (tuple_of [0; 1]) "level" _fset_params_list H1)).
Defined.

Lemma X12_witness :
  constructed Source (snd source) /\
  reserved_free Source /\
  plain_property_names Source /\
  (forall attr, attrs (snd source) !! attr_instance_name "level" attr = None) /\
  DynamicProperty_get Sim.env Source fuel "level" level_command (snd source)
  = fget Sim.env fuel level_command [] (snd source).
Proof.
  assert (H1 : constructed Source (snd source)) by (vm_compute; reflexivity).
  assert (H4 : forall attr,
             attrs (snd source) !! attr_instance_name "level" attr = None).
  { intros attr. replace (attrs (snd source)) with (∅ : gmap string obj)
      by (vm_compute; reflexivity).
    apply lookup_empty. }
  exact (conj H1 (conj Source_is_reserved_free (conj Source_has_plain_property_names
           (conj H4
              (proj1 (X12_no_override_means_declared_behaviour Sim.env Source fuel
                        (snd source) "level" level_command H1
                        Source_is_reserved_free Source_has_plain_property_names
                        H4)))))).
Defined.

Lemma X13_witness :
  ordinary_name Source (snd source) "notes" /\
  Instrument_getattr Sim.env Source fuel "notes"
                     (set_attrs (<["notes" := str "calibrated"]> (attrs (snd source)))
                                (snd source))
  = (Ret (str "calibrated"),
     set_attrs (<["notes" := str "calibrated"]> (attrs (snd source))) (snd source)).
Proof.
  assert (H1 : ordinary_name Source (snd source) "notes").
  { split; [reflexivity | split].
    - intros names Hn.
      assert (Hs : _special_names (snd source) = Some (class_special_names Source))
        by (vm_compute; reflexivity).
      rewrite Hs in Hn. injection Hn as <-. vm_compute. reflexivity.
    - exact I. }
  destruct (X13_ordinary_attributes_read_back Sim.env Source fuel (snd source)
              "notes" (str "calibrated") H1) as (_ & Hget & _).
  exact (conj H1 Hget).
Defined.

Lemma X14_witness :
  _lock stalled = false /\
  _wait_until_ready Sim.env 102 default_timeout (set_lock true stalled)
    = (Raise (TimeoutError default_timeout),
       snd (_wait_until_ready Sim.env 102 default_timeout (set_lock true stalled))) /\
  write Sim.env 102 (PAtom (AStr "*RST")) stalled
    = (Raise (TimeoutError default_timeout),
       set_lock false
         (snd (_wait_until_ready Sim.env 102 default_timeout (set_lock true stalled)))).
Proof.
  assert (H2 : _wait_until_ready Sim.env 102 default_timeout (set_lock true stalled)
               = (Raise (TimeoutError default_timeout),
                  snd (_wait_until_ready Sim.env 102 default_timeout
                         (set_lock true stalled))))
    by (vm_compute; reflexivity).
  destruct (X14_a_failed_wait_or_call_ends_the_transaction Sim.env 102 stalled
              (snd (_wait_until_ready Sim.env 102 default_timeout
                      (set_lock true stalled)))
              eq_refl) as [Hwait _].
  destruct (Hwait _ H2) as (_ & Hw & _).
  exact (conj eq_refl (conj H2 (Hw _))).
Defined.

Lemma X15_witness :
  Py.is_None (kwarg [] "set_command" (cmd_set_command voltage_command)) = false /\
  _lock (snd source) = false /\
  prepared_command Sim.env voltage_command [] (PAtom (AStr "HIGH"))
    = Ret (PTuple [AStr "V %d"; AInt 1]) /\
  sends_once (fset Sim.env fuel voltage_command [] (PAtom (AStr "HIGH")))
             (IoWrite (PTuple [AStr "V %d"; AInt 1])) (snd source).
Proof.
  assert (H2 : _lock (snd source) = false) by (vm_compute; reflexivity).
  destruct (X15_a_write_access_is_one_write_or_nothing Sim.env fuel voltage_command []
              (PAtom (AStr "HIGH")) (snd source) eq_refl H2) as [_ Hok].
  destruct (Hok (PTuple [AStr "V %d"; AInt 1]) eq_refl) as (_ & Hs & _).
  exact (conj eq_refl (conj H2 (conj eq_refl Hs))).
Defined.

End MoreConcrete.
